(** * LyricMood-AI: acquisition-and-analysis pipeline

    A shallow embedding of the rate limiter, similarity matcher, response
    cache, lyrics extractor, catalog resolution, response fallback, result
    construction and session/history models of the application, together
    with the properties the specification states about them.

    Conventions of the embedding.
    - A Python [str] is a [string]; one [ascii] stands for one character
      (code points 0..255, i.e. the Latin-1 range), so [length] is the
      Python [len].
    - A Python [float] that the code computes from integers or compares
      with decimal literals is an exact rational [Q]; the special values
      a payload can carry (nan, inf) are kept apart in [pyfloat].
    - [datetime] values are integer microsecond counts ([Z]); every call
      of [datetime.now()] is an explicit argument.
    - A raised exception is the [Raise] branch of [result]. *)

From Stdlib Require Import ZArith QArith Lia Lqa Bool Ascii String List Sorted Permutation.
From stdpp Require Import base list gmap strings pretty.

Import ListNotations.
Set Warnings "-register-all".
Local Open Scope string_scope.
Local Open Scope Z_scope.

(** ** Exceptions and the error monad *)

(** The exception classes of [core/exceptions.py] that the modelled code
    raises, plus the built-in ones it lets escape. *)
Inductive exn : Type :=
| ValidationError
| LyricsNotFoundError (song_name artist_name : string)
| AnalysisError
| GeniusAPIError
| GroqAPIError
| RateLimitError
| NetworkError
| AuthenticationError
| ValueError
| TypeError
| AttributeError
| OverflowError
| KeyError
| IndexError
| ZeroDivisionError
| JSONDecodeError
| RequestsTimeout
| RequestsConnectionError
| RequestException.

Inductive result (A : Type) : Type :=
| Ok (a : A)
| Raise (e : exn).
Arguments Ok {A} a.
Arguments Raise {A} e.

#[global] Instance result_ret : MRet result := fun A a => Ok a.

#[global] Instance result_bind : MBind result := fun A B k m =>
  match m with
  | Ok a => k a
  | Raise e => Raise e
  end.

(** ** Python string primitives *)

Module Py.

Definition code (c : ascii) : N := N_of_ascii c.

(** [str.isspace] on one character of the Latin-1 range. *)
Definition isspace (c : ascii) : bool :=
  let n := code c in
  ((9 <=? n) && (n <=? 13) || (28 <=? n) && (n <=? 32)
   || (n =? 133) || (n =? 160))%N.

(** [str.lower] on one character of the Latin-1 range. *)
Definition lower_char (c : ascii) : ascii :=
  let n := code c in
  if ((65 <=? n) && (n <=? 90)
      || (192 <=? n) && (n <=? 222) && negb (n =? 215))%N
  then ascii_of_N (n + 32) else c.

Fixpoint lower (s : string) : string :=
  match s with
  | EmptyString => EmptyString
  | String c s' => String (lower_char c) (lower s')
  end.

(** Removal of leading whitespace, [str.lstrip()]. *)
Fixpoint lstrip (s : string) : string :=
  match s with
  | EmptyString => EmptyString
  | String c s' => if isspace c then lstrip s' else s
  end.

(** Removal of trailing whitespace, [str.rstrip()]. *)
Fixpoint rstrip (s : string) : string :=
  match s with
  | EmptyString => EmptyString
  | String c s' =>
      match rstrip s' with
      | EmptyString => if isspace c then EmptyString else String c EmptyString
      | r => String c r
      end
  end.

Definition strip (s : string) : string := rstrip (lstrip s).

(** [str.split()] without arguments: maximal runs of non-whitespace.
    [cur] is the word being read, most recent character first. *)
Fixpoint split_from (cur : list ascii) (s : string) : list string :=
  match s with
  | EmptyString =>
      match cur with
      | [] => []
      | _ => [string_of_list_ascii (rev cur)]
      end
  | String c s' =>
      if isspace c then
        match cur with
        | [] => split_from [] s'
        | _ => string_of_list_ascii (rev cur) :: split_from [] s'
        end
      else split_from (c :: cur) s'
  end.

Definition split (s : string) : list string := split_from [] s.

(** [sub in s] for strings: [sub] occurs in [s] as a contiguous run. *)
Fixpoint contains (sub s : string) : bool :=
  String.prefix sub s ||
  match s with
  | EmptyString => false
  | String _ s' => contains sub s'
  end.

(** Truthiness of a string: [bool(s)]. *)
Definition truthy (s : string) : bool :=
  match s with
  | EmptyString => false
  | _ => true
  end.

End Py.

(** ** SimilarityMatcher: [GeniusAPIService._similarity_score] *)

Module Similarity.

Definition word_set (s : string) : gset string :=
  list_to_set (Py.split (Py.lower s)).

(** [len(intersection) / len(union)], true division of two integers. *)
Definition ratio (a b : nat) : Q := Z.of_nat a # Pos.of_nat b.

Definition _similarity_score (str1 str2 : string) : Q :=
  let words1 := word_set str1 in
  let words2 := word_set str2 in
  if bool_decide (words1 = ∅) && bool_decide (words2 = ∅) then 1%Q
  else if bool_decide (words1 = ∅) || bool_decide (words2 = ∅) then 0%Q
  else ratio (size (words1 ∩ words2)) (size (words1 ∪ words2)).

End Similarity.

(** ** Numbers and untyped values *)

Module PyNum.

(** A [float]: a finite value, or one of the special values. *)
Inductive pyfloat : Type :=
| Fin (q : Q)
| NaN
| PosInf
| NegInf.

(** [a <= b] on floats; every comparison with [nan] is false. *)
Definition fle (a b : pyfloat) : bool :=
  match a, b with
  | NaN, _ | _, NaN => false
  | NegInf, _ => true
  | _, PosInf => true
  | Fin x, Fin y => Qle_bool x y
  | _, _ => false
  end.

(** Nearest integer to [n/d], ties to the even one. *)
Definition round_half_even (n : Z) (d : positive) : Z :=
  let f := n / Z.pos d in
  let r2 := 2 * (n mod Z.pos d) in
  if r2 <? Z.pos d then f
  else if Z.pos d <? r2 then f + 1
  else if Z.even f then f else f + 1.

(** [a > b] on floats. *)
Definition fgt (a b : pyfloat) : bool :=
  match a, b with
  | NaN, _ | _, NaN => false
  | PosInf, PosInf | NegInf, _ | _, PosInf => false
  | PosInf, _ | _, NegInf => true
  | Fin x, Fin y => negb (Qle_bool x y)
  end.

(** [round(x, ndigits)] on a finite float: the decimal with [ndigits]
    places that Python chooses, as an exact rational (the program holds
    the float nearest to this decimal). *)
Definition round (x : Q) (ndigits : nat) : Q :=
  let scale := Pos.pow 10 (Pos.of_nat ndigits) in
  match ndigits with
  | O => inject_Z (round_half_even (Qnum x) (Qden x))
  | _ => round_half_even (Qnum x * Z.pos scale) (Qden x) # scale
  end.

(** [a / b] on two integers: true division.  A zero divisor raises
    [ZeroDivisionError]; a quotient beyond the largest float raises
    [OverflowError]. *)
Definition truediv (a b : Z) : result Q :=
  if b =? 0 then Raise ZeroDivisionError
  else if Z.abs a <? (2 ^ 1024 - 2 ^ 970) * Z.abs b
       then Ok (inject_Z a / inject_Z b)%Q
  else Raise OverflowError.

(** Values of type [Any] as they come out of a decoded JSON document. *)
Inductive pyval : Type :=
| PNone
| PBool (b : bool)
| PInt (z : Z)
| PFloat (f : pyfloat)
| PStr (s : string)
| PList (l : list pyval)
| PDict (d : list (string * pyval)).

Section Conversions.
(** [float(s)] for a string [s] is the library's decimal parser; [None]
    stands for its [ValueError]. *)
Variable float_of_str : string -> option pyfloat.

(** [float(v)]. *)
Definition float (v : pyval) : result pyfloat :=
  match v with
  | PBool b => Ok (Fin (if b then 1 else 0)%Q)
  | PInt z =>
      if Z.abs z <? 2 ^ 1024 - 2 ^ 970 then Ok (Fin (inject_Z z))
      else Raise OverflowError
  | PFloat f => Ok f
  | PStr s =>
      match float_of_str s with
      | Some f => Ok f
      | None => Raise ValueError
      end
  | PNone | PList _ | PDict _ => Raise TypeError
  end.

End Conversions.

End PyNum.

(** ** Python dictionaries in insertion order

    A [dict] is an association list without repeated keys, in insertion
    order: assigning to a present key keeps its place, assigning to a new
    key appends, [del] removes. *)

Module PyDict.
Section Dict.
Context {K V : Type} `{EqDecision K}.

Definition dict : Type := list (K * V).

Fixpoint get (k : K) (d : dict) : option V :=
  match d with
  | [] => None
  | (k', v) :: d' => if decide (k' = k) then Some v else get k d'
  end.

Definition contains (k : K) (d : dict) : bool :=
  match get k d with
  | Some _ => true
  | None => false
  end.

Fixpoint set (k : K) (v : V) (d : dict) : dict :=
  match d with
  | [] => [(k, v)]
  | (k', v') :: d' =>
      if decide (k' = k) then (k, v) :: d' else (k', v') :: set k v d'
  end.

Fixpoint del (k : K) (d : dict) : dict :=
  match d with
  | [] => []
  | (k', v') :: d' =>
      if decide (k' = k) then del k d' else (k', v') :: del k d'
  end.

Definition keys (d : dict) : list K := map fst d.

(** [d.get(k, default)]. *)
Definition get_default (k : K) (default : V) (d : dict) : V :=
  match get k d with
  | Some v => v
  | None => default
  end.

End Dict.
Arguments dict : clear implicits.
End PyDict.

(** [max(xs, key=f)] and [min(xs, key=f)]: one pass that keeps the
    current best and replaces it only by a strictly better element, so the
    first extremal element wins; [None] stands for the [ValueError] on an
    empty sequence. *)
Module PyOrd.
Section Extremum.
Context {A : Type}.

Fixpoint first_best (better : A -> A -> bool) (best : A) (xs : list A) : A :=
  match xs with
  | [] => best
  | x :: xs' => first_best better (if better x best then x else best) xs'
  end.

Definition extremum (better : A -> A -> bool) (xs : list A) : option A :=
  match xs with
  | [] => None
  | x :: xs' => Some (first_best better x xs')
  end.

(** Keys that are finite by construction. *)
Definition max_by (f : A -> Q) : list A -> option A :=
  extremum (fun x best => negb (Qle_bool (f x) (f best))).

(** Keys that are arbitrary floats. *)
Definition max_by_float (f : A -> PyNum.pyfloat) : list A -> option A :=
  extremum (fun x best => PyNum.fgt (f x) (f best)).

(** Keys that are timestamps. *)
Definition min_by (f : A -> Z) : list A -> option A :=
  extremum (fun x best => (f x <? f best)%Z).

End Extremum.
End PyOrd.

(** [timedelta(seconds=n)] in microseconds, and [total_seconds()]. *)
Definition timedelta_seconds (n : Z) : Z := n * 1000000.
Definition total_seconds (us : Z) : Q := us # 1000000.

(** ** RateLimiter ([services/genius_service.py]) *)

Module RateLimiter.

Record t : Type := mk {
  max_requests : Z;
  time_window : Z;
  requests : list Z
}.

Definition init (max_requests time_window : Z) : t :=
  mk max_requests time_window [].

(** [can_make_request]: prunes the timestamps outside the window, stores
    the pruned list and answers whether fewer than [max_requests] remain. *)
Definition can_make_request (now : Z) (rl : t) : bool * t :=
  let kept :=
    List.filter (fun req_time => now - req_time <? timedelta_seconds (time_window rl))
                (requests rl) in
  (Z.of_nat (length kept) <? max_requests rl,
   mk (max_requests rl) (time_window rl) kept).

Definition record_request (now : Z) (rl : t) : t :=
  mk (max_requests rl) (time_window rl) (requests rl ++ [now]).

Definition oldest (reqs : list Z) : option Z := PyOrd.min_by (fun x => x) reqs.

(** [time_until_next_request] reads the clock twice: [now1] inside
    [can_make_request], [now2] for the returned difference. *)
Definition time_until_next_request (now1 now2 : Z) (rl : t) : result Q * t :=
  let (ok, rl') := can_make_request now1 rl in
  if ok then (Ok 0%Q, rl')
  else
    match oldest (requests rl') with
    | None => (Raise ValueError, rl')
    | Some oldest_request =>
        let wait_until := oldest_request + timedelta_seconds (time_window rl') in
        (Ok (total_seconds (wait_until - now2)), rl')
    end.

End RateLimiter.

(** ** GeniusAPICache ([services/genius_service.py]) *)

Module GeniusAPICache.
Section Cache.
Context {V : Type}.

Record t : Type := mk {
  max_size : Z;
  ttl_seconds : Z;
  _cache : PyDict.dict string (V * Z)
}.

Definition init (max_size ttl_seconds : Z) : t := mk max_size ttl_seconds [].

Definition with_cache (c : t) (d : PyDict.dict string (V * Z)) : t :=
  mk (max_size c) (ttl_seconds c) d.

(** [get]: a miss for an absent key; an entry older than the TTL is
    deleted and reported as a miss. *)
Definition get (now : Z) (key : string) (c : t) : option V * t :=
  match PyDict.get key (_cache c) with
  | None => (None, c)
  | Some (value, timestamp) =>
      if timedelta_seconds (ttl_seconds c) <? now - timestamp
      then (None, with_cache c (PyDict.del key (_cache c)))
      else (Some value, c)
  end.

(** The key chosen by [min(self._cache.keys(), key=lambda k: self._cache[k][1])]. *)
Definition oldest_key (d : PyDict.dict string (V * Z)) : option string :=
  fst <$> PyOrd.min_by (fun e => snd (snd e)) d.

(** [set]: at capacity the oldest entry is deleted first; [min] of an
    empty dictionary raises [ValueError]. *)
Definition set (now : Z) (key : string) (value : V) (c : t) : result t :=
  d ← (if max_size c <=? Z.of_nat (length (_cache c)) then
          match oldest_key (_cache c) with
          | None => Raise ValueError
          | Some k => Ok (PyDict.del k (_cache c))
          end
        else Ok (_cache c));
  Ok (with_cache c (PyDict.set key (value, now) d)).

Definition clear (c : t) : t := with_cache c [].

End Cache.
Arguments t : clear implicits.
End GeniusAPICache.

(** ** Emotion analysis model ([models/emotion_analysis.py]) *)

Module Emotion.
Import PyNum.

Inductive EmotionCategory : Type := HAPPINESS | SADNESS | ANGER | FEAR | LOVE.

#[global] Instance EmotionCategory_eq_dec : EqDecision EmotionCategory.
Proof. solve_decision. Defined.

Definition value (e : EmotionCategory) : string :=
  match e with
  | HAPPINESS => "happiness"
  | SADNESS => "sadness"
  | ANGER => "anger"
  | FEAR => "fear"
  | LOVE => "love"
  end.

(** Iteration order of the enumeration. *)
Definition all_categories : list EmotionCategory :=
  [HAPPINESS; SADNESS; ANGER; FEAR; LOVE].

Definition EMOTION_DESCRIPTIONS (e : EmotionCategory) : string :=
  match e with
  | HAPPINESS => "Joy, contentment, positive emotions"
  | SADNESS => "Melancholy, grief, sorrow"
  | ANGER => "Rage, frustration, hostility"
  | FEAR => "Anxiety, worry, dread"
  | LOVE => "Affection, romance, caring"
  end.

Inductive AnalysisStatus : Type :=
  PENDING | IN_PROGRESS | COMPLETED | FAILED | CACHED.

#[global] Instance AnalysisStatus_eq_dec : EqDecision AnalysisStatus.
Proof. solve_decision. Defined.

Record EmotionScore : Type := mkEmotionScore {
  emotion : EmotionCategory;
  score : Q;
  confidence : option Q;
  description : string
}.

(** [EmotionScore(...)]: the dataclass constructor followed by
    [__post_init__]. *)
Definition EmotionScore_new (emotion : EmotionCategory) (score : pyfloat)
    (confidence : option pyfloat) (description : option string)
  : result EmotionScore :=
  s ← (if fle (Fin 0) score && fle score (Fin 100) then
          match score with
          | Fin q => Ok q
          | _ => Raise ValueError
          end
        else Raise ValueError);
  c ← match confidence with
       | None => Ok None
       | Some c =>
           if fle (Fin 0) c && fle c (Fin 1) then
             match c with
             | Fin q => Ok (Some q)
             | _ => Raise ValueError
             end
           else Raise ValueError
       end;
  Ok (mkEmotionScore emotion (round s 2) c
        (match description with
         | Some d => if Py.truthy d then d else EMOTION_DESCRIPTIONS emotion
         | None => EMOTION_DESCRIPTIONS emotion
         end)).

Record EmotionAnalysisResult : Type := mkResult {
  emotion_scores : PyDict.dict EmotionCategory EmotionScore;
  dominant_emotion : EmotionCategory;
  overall_confidence : Q;
  summary : pyval;
  analysis_model : string;
  processing_time : option Q;
  analyzed_at : Z;
  status : AnalysisStatus
}.

Section Construction.
Variable float_of_str : string -> option pyfloat.

(** [EmotionAnalysisValidator.validate_confidence_score]
    ([utils/validators.py]). *)
Definition validate_confidence_score (confidence : pyval) : result Q :=
  confidence_float ←
    match float float_of_str confidence with
    | Ok f => Ok f
    | Raise ValueError | Raise TypeError => Raise ValidationError
    | Raise e => Raise e
    end;
  if fle (Fin 0) confidence_float && fle confidence_float (Fin 1) then
    match confidence_float with
    | Fin q => Ok (round q 3)
    | _ => Raise ValidationError
    end
  else Raise ValidationError.

(** [get_dominant_emotion]: the first key, in dictionary order, whose
    score is maximal.  Iterating the keys and looking each one up reads
    the entries of the dictionary in order. *)
Definition get_dominant_emotion
    (scores : PyDict.dict EmotionCategory EmotionScore) : option EmotionCategory :=
  fst <$> PyOrd.max_by (fun e => score (snd e)) scores.

(** [EmotionAnalysisResult(...)]: the dataclass constructor followed by
    [__post_init__].  The keys of the dictionary are typed as categories,
    so the comparison of the two key sets can only find missing ones. *)
Definition EmotionAnalysisResult_new
    (emotion_scores : PyDict.dict EmotionCategory EmotionScore)
    (dominant_emotion : EmotionCategory) (overall_confidence : pyval)
    (summary : pyval) (processing_time : option Q) (now : Z)
  : result EmotionAnalysisResult :=
  conf ← validate_confidence_score overall_confidence;
  if negb (forallb (fun c => PyDict.contains c emotion_scores) all_categories)
  then Raise ValueError
  else
    match get_dominant_emotion emotion_scores with
    | None => Raise ValueError
    | Some actual_dominant =>
        Ok (mkResult emotion_scores
              (if decide (dominant_emotion = actual_dominant)
               then dominant_emotion else actual_dominant)
              conf summary "groq-ai" processing_time now COMPLETED)
    end.

(** The loop of [from_api_response] that fills [emotion_scores]. *)
Fixpoint build_scores (api_response : PyDict.dict string pyval)
    (cats : list EmotionCategory)
  : result (PyDict.dict EmotionCategory EmotionScore) :=
  match cats with
  | [] => Ok []
  | emotion_cat :: rest =>
      let score_value :=
        PyDict.get_default (value emotion_cat) (PFloat (Fin 0)) api_response in
      f ← float float_of_str score_value;
      s ← EmotionScore_new emotion_cat f None None;
      d ← build_scores api_response rest;
      Ok ((emotion_cat, s) :: d)
  end.

(** [EmotionAnalysisResult.from_api_response]. *)
Definition from_api_response (api_response : PyDict.dict string pyval)
    (processing_time : option Q) (now : Z) : result EmotionAnalysisResult :=
  emotion_scores ← build_scores api_response all_categories;
  dominant_emotion_str ←
    match PyDict.get_default "dominant_emotion" (PStr "") api_response with
    | PStr s => Ok (Py.lower s)
    | _ => Raise AttributeError
    end;
  dominant_emotion ←
    match List.find (fun c => String.eqb (value c) dominant_emotion_str)
                    all_categories with
    | Some d => Ok d
    | None =>
        match get_dominant_emotion emotion_scores with
        | Some d => Ok d
        | None => Raise ValueError
        end
    end;
  EmotionAnalysisResult_new emotion_scores dominant_emotion
    (PyDict.get_default "confidence" (PFloat (Fin 0)) api_response)
    (PyDict.get_default "summary" PNone api_response)
    processing_time now.

End Construction.

End Emotion.

(** ** Song data model ([models/song_data.py]) *)

Module SongData.

Record SongMetadata : Type := mkMetadata {
  song_id : Z;
  title : string;
  artist_name : string;
  album : option string;
  release_date : option string;
  genius_url : option string;
  thumbnail_url : option string;
  view_count : option Z;
  annotation_count : option Z;
  featured_artists : list string;
  producers : list string;
  writers : list string
}.

Record LyricsData : Type := mkLyrics {
  content : string;
  language : string;
  word_count : nat;
  line_count : nat;
  verse_count : nat;
  chorus_count : nat;
  bridge_count : nat;
  retrieved_at : Z;
  source : string
}.

(** [s.split('\n')]. *)
Fixpoint split_lines_from (cur : list ascii) (s : string) : list string :=
  match s with
  | EmptyString => [string_of_list_ascii (rev cur)]
  | String c s' =>
      if Ascii.eqb c "010"%char
      then string_of_list_ascii (rev cur) :: split_lines_from [] s'
      else split_lines_from (c :: cur) s'
  end.

Definition split_lines (s : string) : list string := split_lines_from [] s.

(** [s.count(sub)] for a non-empty [sub]: occurrences counted left to
    right without overlap; [skip] characters of the last match are still
    to be passed. *)
Fixpoint count_from (sub : string) (skip : nat) (s : string) : nat :=
  match s with
  | EmptyString => O
  | String _ s' =>
      match skip with
      | S k => count_from sub k s'
      | O =>
          if String.prefix sub s
          then S (count_from sub (String.length sub - 1) s')
          else count_from sub O s'
      end
  end.

Definition count (sub s : string) : nat := count_from sub O s.

(** [LyricsData(content=...)]: constructor and [__post_init__]. *)
Definition LyricsData_new (content : string) (now : Z) : result LyricsData :=
  if negb (Py.truthy content) || negb (Py.truthy (Py.strip content))
  then Raise ValueError
  else
    let content := Py.strip content in
    let lines := split_lines content in
    let content_lower := Py.lower content in
    Ok (mkLyrics content "en"
          (length (Py.split content))
          (length (List.filter (fun line => Py.truthy (Py.strip line)) lines))
          (count "[verse" content_lower + count "verse " content_lower)
          (count "[chorus" content_lower + count "chorus " content_lower)
          (count "[bridge" content_lower + count "bridge " content_lower)
          now "genius").

Record Song : Type := mkSong {
  metadata : SongMetadata;
  lyrics : option LyricsData;
  search_query : option string;
  created_at : Z
}.

End SongData.

(** ** Analysis sessions and history ([models/emotion_analysis.py]) *)

Module Session.
Import Emotion SongData.

Record AnalysisSession : Type := mkSession {
  session_id : string;
  song : Song;
  analysis_result : option EmotionAnalysisResult;
  error_message : option string;
  started_at : Z;
  completed_at : option Z;
  status : AnalysisStatus
}.

(** [AnalysisSession(session_id, song)] with the dataclass defaults. *)
Definition AnalysisSession_new (session_id : string) (song : Song) (now : Z)
  : AnalysisSession :=
  mkSession session_id song None None now None PENDING.

Definition is_successful (s : AnalysisSession) : bool :=
  bool_decide (status s = COMPLETED)
  && bool_decide (is_Some (analysis_result s))
  && bool_decide (error_message s = None).

Definition mark_completed (now : Z) (analysis_result : EmotionAnalysisResult)
    (s : AnalysisSession) : AnalysisSession :=
  mkSession (session_id s) (song s) (Some analysis_result) None
            (started_at s) (Some now) COMPLETED.

Definition mark_failed (now : Z) (error_message : string)
    (s : AnalysisSession) : AnalysisSession :=
  mkSession (session_id s) (song s) None (Some error_message)
            (started_at s) (Some now) FAILED.

Definition mark_cached (now : Z) (analysis_result : EmotionAnalysisResult)
    (s : AnalysisSession) : AnalysisSession :=
  mkSession (session_id s) (song s) (Some analysis_result) None
            (started_at s) (Some now) CACHED.

(** The three state-changing operations of a session, as data. *)
Inductive op : Type :=
| MarkCompleted (now : Z) (analysis_result : EmotionAnalysisResult)
| MarkFailed (now : Z) (error_message : string)
| MarkCached (now : Z) (analysis_result : EmotionAnalysisResult).

Definition apply_op (s : AnalysisSession) (o : op) : AnalysisSession :=
  match o with
  | MarkCompleted now r => mark_completed now r s
  | MarkFailed now msg => mark_failed now msg s
  | MarkCached now r => mark_cached now r s
  end.

Definition run (ops : list op) (s : AnalysisSession) : AnalysisSession :=
  fold_left apply_op ops s.

Definition is_terminal (st : AnalysisStatus) : bool :=
  match st with
  | COMPLETED | FAILED | CACHED => true
  | PENDING | IN_PROGRESS => false
  end.

(** The status an operation sets. *)
Definition target (o : op) : AnalysisStatus :=
  match o with
  | MarkCompleted _ _ => COMPLETED
  | MarkFailed _ _ => FAILED
  | MarkCached _ _ => CACHED
  end.

Record AnalysisHistory : Type := mkHistory {
  sessions : list AnalysisSession;
  created_at : Z
}.

Definition add_session (s : AnalysisSession) (h : AnalysisHistory) : AnalysisHistory :=
  mkHistory (sessions h ++ [s]) (created_at h).

Definition get_successful_sessions (h : AnalysisHistory) : list AnalysisSession :=
  List.filter is_successful (sessions h).

Definition total_sessions (h : AnalysisHistory) : nat := length (sessions h).

Definition successful_sessions_count (h : AnalysisHistory) : nat :=
  length (get_successful_sessions h).

Definition success_rate (h : AnalysisHistory) : result Q :=
  match sessions h with
  | [] => Ok 0%Q
  | _ => PyNum.truediv (Z.of_nat (successful_sessions_count h))
                       (Z.of_nat (total_sessions h))
  end.

End Session.

(** ** Regular-expression rewrites used by the services

    Each function is the one-pass reading of one [re.sub] / [re.search]
    call of the source; [\s] is [Py.isspace], [\w] is [isword], [\d] is
    [isdigit]; [.] matches every character but the line feed. *)

Module Rx.

Definition dq : string := String (ascii_of_nat 34) EmptyString.
Definition lf : string := String (ascii_of_nat 10) EmptyString.

Definition is_char (n : nat) (c : ascii) : bool := Ascii.eqb c (ascii_of_nat n).

Definition isdigit (c : ascii) : bool :=
  let n := Py.code c in ((48 <=? n) && (n <=? 57))%N.

Definition isword (c : ascii) : bool :=
  let n := Py.code c in
  (isdigit c
   || (65 <=? n) && (n <=? 90) || (97 <=? n) && (n <=? 122) || (n =? 95)
   || (n =? 170) || (n =? 178) || (n =? 179) || (n =? 181) || (n =? 185)
   || (n =? 186) || (188 <=? n) && (n <=? 190)
   || (192 <=? n) && (n <=? 214) || (216 <=? n) && (n <=? 246)
   || (248 <=? n))%N.

Fixpoint all_space (s : string) : bool :=
  match s with
  | EmptyString => true
  | String c s' => Py.isspace c && all_space s'
  end.

Fixpoint skipn (n : nat) (s : string) : string :=
  match n, s with
  | S k, String _ s' => skipn k s'
  | _, _ => s
  end.

(** [re.search(r'\{.*\}', content, re.DOTALL)]: from the first opening
    brace to the last closing brace after it. *)
Fixpoint through_last_close (s : string) : option string :=
  match s with
  | EmptyString => None
  | String c s' =>
      match through_last_close s' with
      | Some p => Some (String c p)
      | None => if is_char 125 c then Some (String c EmptyString) else None
      end
  end.

Fixpoint search_braces (content : string) : option string :=
  match content with
  | EmptyString => None
  | String c s' =>
      if is_char 123 c then
        match through_last_close s' with
        | Some p => Some (String c p)
        | None => None
        end
      else search_braces s'
  end.

(** [re.sub(r'```json\s*', '', s)]: [skip] characters of the fence are
    still to be dropped; [eat] says that white space is being dropped. *)
Fixpoint drop_json_fence (skip : nat) (eat : bool) (s : string) : string :=
  match s with
  | EmptyString => EmptyString
  | String c s' =>
      match skip with
      | S k => drop_json_fence k true s'
      | O =>
          if eat && Py.isspace c then drop_json_fence O true s'
          else if String.prefix "```json" s then drop_json_fence 6 true s'
          else String c (drop_json_fence O false s')
      end
  end.

(** [re.sub(r'```\s*$', '', s)]. *)
Fixpoint drop_closing_fence (s : string) : string :=
  match s with
  | EmptyString => EmptyString
  | String c s' =>
      if String.prefix "```" s && all_space (skipn 3 s) then EmptyString
      else String c (drop_closing_fence s')
  end.

(** The look-ahead [\s*[}\]]]. *)
Fixpoint closes_next (s : string) : bool :=
  match s with
  | EmptyString => false
  | String c s' =>
      if is_char 125 c || is_char 93 c then true
      else if Py.isspace c then closes_next s'
      else false
  end.

(** [re.sub(r',(\s*[}\]])', r'\1', s)]. *)
Fixpoint drop_trailing_commas (s : string) : string :=
  match s with
  | EmptyString => EmptyString
  | String c s' =>
      if is_char 44 c && closes_next s' then drop_trailing_commas s'
      else String c (drop_trailing_commas s')
  end.

(** [re.sub(r'(\w+):', r'"\1":', s)]: [word] is the run of word
    characters being read, most recent first. *)
Fixpoint quote_keys (word : list ascii) (s : string) : string :=
  match s with
  | EmptyString => string_of_list_ascii (rev word)
  | String c s' =>
      if isword c then quote_keys (c :: word) s'
      else
        match word with
        | [] => String c (quote_keys [] s')
        | _ =>
            let w := string_of_list_ascii (rev word) in
            if is_char 58 c then dq ++ w ++ dq ++ String c (quote_keys [] s')
            else w ++ String c (quote_keys [] s')
        end
  end.

(** [re.sub(r'\[.*?\]', '', s)]: [pending] holds what was read since an
    opening bracket that is not closed yet, most recent first. *)
Fixpoint drop_bracketed (pending : option (list ascii)) (s : string) : string :=
  match s with
  | EmptyString =>
      match pending with
      | Some buf => string_of_list_ascii (rev buf)
      | None => EmptyString
      end
  | String c s' =>
      match pending with
      | None =>
          if is_char 91 c then drop_bracketed (Some [c]) s'
          else String c (drop_bracketed None s')
      | Some buf =>
          if is_char 93 c then drop_bracketed None s'
          else if is_char 10 c
          then string_of_list_ascii (rev buf) ++ String c (drop_bracketed None s')
          else drop_bracketed (Some (c :: buf)) s'
      end
  end.

(** What a run of white space that started with a line feed becomes:
    two line feeds if it held a second one, then the white space that
    followed the last line feed. *)
Definition flush_blank (st : option (list ascii * bool)) : string :=
  match st with
  | None => EmptyString
  | Some (buf, second) =>
      (if second then lf ++ lf else lf) ++ string_of_list_ascii (rev buf)
  end.

(** [re.sub(r'\n\s*\n', '\n\n', s)]. *)
Fixpoint collapse_blank (st : option (list ascii * bool)) (s : string) : string :=
  match s with
  | EmptyString => flush_blank st
  | String c s' =>
      if is_char 10 c then
        match st with
        | None => collapse_blank (Some ([], false)) s'
        | Some _ => collapse_blank (Some ([], true)) s'
        end
      else if Py.isspace c then
        match st with
        | None => String c (collapse_blank None s')
        | Some (buf, second) => collapse_blank (Some (c :: buf, second)) s'
        end
      else flush_blank st ++ String c (collapse_blank None s')
  end.

(** [re.sub(r' +', ' ', s)]. *)
Fixpoint collapse_spaces (after_space : bool) (s : string) : string :=
  match s with
  | EmptyString => EmptyString
  | String c s' =>
      if is_char 32 c then
        if after_space then collapse_spaces true s'
        else String c (collapse_spaces true s')
      else String c (collapse_spaces false s')
  end.

(** [kw], given in lower case, starts [s] when case is ignored. *)
Fixpoint ci_prefix (kw s : string) : bool :=
  match kw, s with
  | EmptyString, _ => true
  | String k kw', String c s' => Ascii.eqb (Py.lower_char c) k && ci_prefix kw' s'
  | String _ _, EmptyString => false
  end.

(** [re.sub(r'.*?KW.*?', '', s, flags=re.IGNORECASE)]: on every line, what
    precedes an occurrence of the keyword goes with it.  [line] is what was
    read on the current line since the last match. *)
Fixpoint drop_through (kw : string) (skip : nat) (line : list ascii) (s : string)
  : string :=
  match s with
  | EmptyString => string_of_list_ascii (rev line)
  | String c s' =>
      match skip with
      | S k => drop_through kw k [] s'
      | O =>
          if ci_prefix kw s then drop_through kw (String.length kw - 1) [] s'
          else if is_char 10 c
          then string_of_list_ascii (rev line) ++ String c (drop_through kw O [] s')
          else drop_through kw O (c :: line) s'
      end
  end.

(** [re.sub(r'\d+KW.*?', '', s, flags=re.IGNORECASE)]: a run of digits
    goes with the keyword that follows it. *)
Fixpoint drop_counted (kw : string) (skip : nat) (digits : list ascii) (s : string)
  : string :=
  match s with
  | EmptyString => string_of_list_ascii (rev digits)
  | String c s' =>
      match skip with
      | S k => drop_counted kw k [] s'
      | O =>
          if isdigit c then drop_counted kw O (c :: digits) s'
          else
            match digits with
            | [] => String c (drop_counted kw O [] s')
            | _ =>
                if ci_prefix kw s
                then drop_counted kw (String.length kw - 1) [] s'
                else string_of_list_ascii (rev digits)
                       ++ String c (drop_counted kw O [] s')
            end
      end
  end.

End Rx.

(** ** Groq analysis service ([services/ai_analysis_service.py]) *)

Module Groq.
Import PyNum Emotion Rx.

Definition MAX_LYRICS_LENGTH : N := 10000.

(** The two parts of [AnalysisConstants.EMOTION_ANALYSIS_PROMPT] around
    the [{lyrics}] field, after [str.format] has read the doubled braces. *)
Definition PROMPT_BEFORE_LYRICS : string :=
  "
    Analyze the emotional content of the following song lyrics and provide scores 
    for each emotion category on a scale of 0-100. Be precise and consider the 
    overall emotional tone, specific words, and context.

    Emotion Categories:
    - Happiness: Joy, contentment, positive emotions
    - Sadness: Melancholy, grief, sorrow  
    - Anger: Rage, frustration, hostility
    - Fear: Anxiety, worry, dread
    - Love: Affection, romance, caring

    Lyrics:
    ".

Definition PROMPT_AFTER_LYRICS : string :=
  "

    Please respond with only a JSON object in this exact format:
    {
        "
  ++ dq ++ "happiness"
  ++ dq ++ ": <score>,
        "
  ++ dq ++ "sadness"
  ++ dq ++ ": <score>,
        "
  ++ dq ++ "anger"
  ++ dq ++ ": <score>, 
        "
  ++ dq ++ "fear"
  ++ dq ++ ": <score>,
        "
  ++ dq ++ "love"
  ++ dq ++ ": <score>,
        "
  ++ dq ++ "dominant_emotion"
  ++ dq ++ ": "
  ++ dq ++ "<emotion_name>"
  ++ dq ++ ",
        "
  ++ dq ++ "confidence"
  ++ dq ++ ": <overall_confidence>,
        "
  ++ dq ++ "summary"
  ++ dq ++ ": "
  ++ dq ++ "<brief_analysis_summary>"
  ++ dq ++ "
    }
    ".

Fixpoint take (n : nat) (s : string) : string :=
  match n, s with
  | S k, String c s' => String c (take k s')
  | _, _ => EmptyString
  end.

Definition _create_analysis_prompt (lyrics : string) : string :=
  let lyrics :=
    if (MAX_LYRICS_LENGTH <? N.of_nat (String.length lyrics))%N
    then take (N.to_nat MAX_LYRICS_LENGTH) lyrics ++ "..."
    else lyrics in
  PROMPT_BEFORE_LYRICS ++ lyrics ++ PROMPT_AFTER_LYRICS.

(** [_fix_json_format]. *)
Definition _fix_json_format (json_str : string) : string :=
  let json_str := drop_json_fence O false json_str in
  let json_str := drop_closing_fence json_str in
  let json_str := drop_trailing_commas json_str in
  let json_str := quote_keys [] json_str in
  Py.strip json_str.

(** The keyword lists of [_create_fallback_response]. *)
Definition happiness_words : list string := ["happy"; "joy"; "good"; "positive"].
Definition sadness_words : list string := ["sad"; "melancholy"; "sorrow"; "grief"].
Definition anger_words : list string := ["anger"; "rage"; "mad"; "fury"].
Definition fear_words : list string := ["fear"; "scared"; "afraid"; "anxious"].
Definition love_words : list string := ["love"; "romance"; "affection"; "caring"].

(** The keyword list that adjusts the score of a category. *)
Definition trigger_words (c : EmotionCategory) : list string :=
  match c with
  | HAPPINESS => happiness_words
  | SADNESS => sadness_words
  | ANGER => anger_words
  | FEAR => fear_words
  | LOVE => love_words
  end.

(** [any(word in content_lower for word in words)]. *)
Definition any_in (words : list string) (content_lower : string) : bool :=
  existsb (fun word => Py.contains word content_lower) words.

Definition bump (hit : bool) : Q := if hit then (20 + 30)%Q else 20%Q.

(** The [emotion_scores] dictionary of [_create_fallback_response] after
    the five adjustments. *)
Definition fallback_scores (content : string) : PyDict.dict string Q :=
  let content_lower := Py.lower content in
  [("happiness", bump (any_in happiness_words content_lower));
   ("sadness", bump (any_in sadness_words content_lower));
   ("anger", bump (any_in anger_words content_lower));
   ("fear", bump (any_in fear_words content_lower));
   ("love", bump (any_in love_words content_lower))].

Definition dominant_key (scores : PyDict.dict string Q) : option string :=
  fst <$> PyOrd.max_by snd scores.

Definition FALLBACK_SUMMARY : string :=
  "Analysis completed using fallback method. Dominant emotion detected: ".

(** [_create_fallback_response]. *)
Definition _create_fallback_response (content : string)
  : PyDict.dict string pyval :=
  let emotion_scores := fallback_scores content in
  let dominant := default "" (dominant_key emotion_scores) in
  List.app
    (map (fun e => (fst e, PFloat (Fin (snd e)))) emotion_scores)
    [("dominant_emotion", PStr dominant);
     ("confidence", PFloat (Fin (6 # 10)));
     ("summary", PStr (FALLBACK_SUMMARY ++ dominant))].

Definition required_fields : list (string * pyval) :=
  [("happiness", PFloat (Fin 0)); ("sadness", PFloat (Fin 0));
   ("anger", PFloat (Fin 0)); ("fear", PFloat (Fin 0));
   ("love", PFloat (Fin 0)); ("confidence", PFloat (Fin (5 # 10)));
   ("summary", PStr "Analysis completed successfully")].

(** Truthiness of a value of type [Any]. *)
Definition truthy (v : pyval) : bool :=
  match v with
  | PNone => false
  | PBool b => b
  | PInt z => negb (z =? 0)
  | PFloat (Fin q) => negb (Qeq_bool q 0)
  | PFloat _ => true
  | PStr s => Py.truthy s
  | PList l => match l with [] => false | _ => true end
  | PDict d => match d with [] => false | _ => true end
  end.

Section Service.
Variable float_of_str : string -> option pyfloat.
(** [int(s)] for a header value; [None] stands for its [ValueError]. *)
Variable int_of_str : string -> option Z.
(** [json.loads] on a text that starts with an opening brace, so that a
    successful decoding is an object. *)
Variable json_loads : string -> result (PyDict.dict string pyval).

(** What the HTTP session answers to a request. *)
Record response : Type := mkResponse {
  status_code : Z;
  json : result pyval;
  has_content : bool;
  retry_after : option string
}.

(** [self.session.post(url, json=payload, timeout=timeout)] as a function
    of the prompt the payload carries. *)
Variable session_post : string -> result response.

(** [_ensure_required_fields]. *)
Definition fill_defaults (data : PyDict.dict string pyval) : PyDict.dict string pyval :=
  fold_left
    (fun data fd =>
       if PyDict.contains (fst fd) data then data
       else PyDict.set (fst fd) (snd fd) data)
    required_fields data.

Fixpoint float_scores (data : PyDict.dict string pyval) (emotions : list string)
  : result (PyDict.dict string pyfloat) :=
  match emotions with
  | [] => Ok []
  | emotion :: rest =>
      f ← float float_of_str (PyDict.get_default emotion (PInt 0) data);
      d ← float_scores data rest;
      Ok ((emotion, f) :: d)
  end.

Definition _ensure_required_fields (data : PyDict.dict string pyval)
  : result (PyDict.dict string pyval) :=
  let data := fill_defaults data in
  if PyDict.contains "dominant_emotion" data then Ok data
  else
    scores ← float_scores data ["happiness"; "sadness"; "anger"; "fear"; "love"];
    Ok (PyDict.set "dominant_emotion"
          (PStr (default "" (fst <$> PyOrd.max_by_float snd scores))) data).

(** The [except] clauses of [_make_request]. *)
Definition as_network_error (e : exn) : exn :=
  match e with
  | RequestsTimeout | RequestsConnectionError | RequestException => NetworkError
  | _ => e
  end.

(** [_make_request]: the answer, and the requests that were sent. *)
Definition _make_request (prompt : string) : result pyval * list string :=
  let answer :=
    response ← session_post prompt;
    if status_code response =? 200 then json response
    else if status_code response =? 401 then Raise AuthenticationError
    else if status_code response =? 403 then Raise AuthenticationError
    else if status_code response =? 429 then
      match int_of_str (default "60" (retry_after response)) with
      | Some _ => Raise RateLimitError
      | None => Raise ValueError
      end
    else if status_code response =? 400 then
      error_data ← (if has_content response then json response else Ok (PDict []));
      match error_data with
      | PDict d =>
          match PyDict.get_default "error" (PDict []) d with
          | PDict _ => Raise GroqAPIError
          | _ => Raise AttributeError
          end
      | _ => Raise AttributeError
      end
    else Raise GroqAPIError in
  (match answer with
   | Ok v => Ok v
   | Raise e => Raise (as_network_error e)
   end, [prompt]).

(** [choices[0]]. *)
Definition first_item (choices : pyval) : result pyval :=
  match choices with
  | PList (x :: _) => Ok x
  | PList [] => Raise IndexError
  | PStr (String c _) => Ok (PStr (String c EmptyString))
  | PStr EmptyString => Raise IndexError
  | PDict _ => Raise KeyError
  | PNone | PBool _ | PInt _ | PFloat _ => Raise TypeError
  end.

(** [v.get(key, default)] on a value of type [Any]. *)
Definition any_get (key : string) (default : pyval) (v : pyval) : result pyval :=
  match v with
  | PDict d => Ok (PyDict.get_default key default d)
  | _ => Raise AttributeError
  end.

(** The body of the [try] block of [_parse_analysis_response]. *)
Definition parse_body (response_data : pyval) : result (PyDict.dict string pyval) :=
  choices ← any_get "choices" (PList []) response_data;
  if negb (truthy choices) then Raise AnalysisError
  else
    first ← first_item choices;
    message ← any_get "message" (PDict []) first;
    content ← any_get "content" (PStr "") message;
    if negb (truthy content) then Raise AnalysisError
    else
      content ← match content with
                 | PStr s => Ok (Py.strip s)
                 | _ => Raise AttributeError
                 end;
      match search_braces content with
      | None => Ok (_create_fallback_response content)
      | Some json_str =>
          match json_loads json_str with
          | Ok parsed_data => _ensure_required_fields parsed_data
          | Raise JSONDecodeError =>
              match json_loads (_fix_json_format json_str) with
              | Ok parsed_data => _ensure_required_fields parsed_data
              | Raise JSONDecodeError => Ok (_create_fallback_response content)
              | Raise e => Raise e
              end
          | Raise e => Raise e
          end
      end.

(** [_parse_analysis_response]: every exception of the body leaves as an
    [AnalysisError]. *)
Definition _parse_analysis_response (response_data : pyval)
  : result (PyDict.dict string pyval) :=
  match parse_body response_data with
  | Ok parsed_data => Ok parsed_data
  | Raise _ => Raise AnalysisError
  end.

(** The [except Exception] clause of [analyze_emotions]. *)
Definition reraised (e : exn) : bool :=
  match e with
  | GroqAPIError | NetworkError | RateLimitError | AnalysisError => true
  | _ => false
  end.

(** [GroqAIService.analyze_emotions]: the outcome, and the requests that
    were sent.  [start_time] and [end_time] are the two readings of
    [time.time()], [now] the reading of [datetime.now()]. *)
Definition analyze_emotions (lyrics : string) (start_time end_time : Q) (now : Z)
  : result EmotionAnalysisResult * list string :=
  if negb (Py.truthy lyrics) || negb (Py.truthy (Py.strip lyrics))
  then (Raise AnalysisError, [])
  else
    let prompt := _create_analysis_prompt (Py.strip lyrics) in
    let (answer, sent) := _make_request prompt in
    let outcome :=
      response_data ← answer;
      analysis_data ← _parse_analysis_response response_data;
      from_api_response float_of_str analysis_data
        (Some (end_time - start_time)%Q) now in
    (match outcome with
     | Ok r => Ok r
     | Raise e => if reraised e then Raise e else Raise AnalysisError
     end, sent).

End Service.
End Groq.

(** ** The parsed page ([BeautifulSoup]) *)

Module Soup.

(** A node of the parse tree.  [NavigableString] is text that [get_text]
    returns; [OtherString] is a string of another kind (comment, script or
    style text, declaration) that it does not return; [Decomposed] is the
    place of a node that [decompose()] destroyed. *)
Inductive node : Type :=
| Tag (name : string) (attrs : list (string * string)) (contents : list node)
| NavigableString (s : string)
| OtherString (s : string)
| Decomposed.

(** A node is referred to by the child indices that lead to it. *)
Definition path : Type := list nat.

Definition is_tag (n : node) : bool :=
  match n with
  | Tag _ _ _ => true
  | _ => false
  end.

Definition tag_named (nm : string) (n : node) : bool :=
  match n with
  | Tag name _ _ => String.eqb name nm
  | _ => false
  end.

(** The value of an attribute as the selector engine reads it (a class
    list joined by single spaces). *)
Definition attr (a : string) (n : node) : option string :=
  match n with
  | Tag _ attrs _ => PyDict.get a attrs
  | _ => None
  end.

(** [div[a*="sub"]]. *)
Definition div_attr_contains (a sub : string) (n : node) : bool :=
  tag_named "div" n &&
  match attr a n with
  | Some v => Py.contains sub v
  | None => false
  end.

(** [div[a="v"]]. *)
Definition div_attr_equals (a v : string) (n : node) : bool :=
  tag_named "div" n &&
  match attr a n with
  | Some v' => String.eqb v' v
  | None => false
  end.

(** The ordered selectors of [scrape_lyrics]. *)
Definition lyrics_selectors : list (node -> bool) :=
  [div_attr_contains "class" "lyrics";
   div_attr_equals "data-lyrics-container" "true";
   div_attr_contains "class" "Lyrics__Container";
   div_attr_contains "class" "SongPageGrid-sc"].

(** [div[class*="ad"], script, style]. *)
Definition unwanted (n : node) : bool :=
  div_attr_contains "class" "ad" n || tag_named "script" n || tag_named "style" n.

(** The matches among the children [cs] of a node and below them, in
    document order; [i] is the index of the first of them, [under c] the
    matches below [c]. *)
Definition select_children (sel : node -> bool) (under : node -> list path)
  : nat -> list node -> list path :=
  fix children (i : nat) (cs : list node) : list path :=
    match cs with
    | [] => []
    | c :: cs' =>
        List.app (if sel c then [[i]] else [])
          (List.app (map (cons i) (under c)) (children (S i) cs'))
    end.

(** [root.select(sel)]: the descendants of [root] that match, in document
    order. *)
Fixpoint select (sel : node -> bool) (root : node) : list path :=
  match root with
  | Tag _ _ contents => select_children sel (select sel) O contents
  | _ => []
  end.

Fixpoint subtree (p : path) (n : node) : option node :=
  match p with
  | [] => Some n
  | i :: p' =>
      match n with
      | Tag _ _ contents =>
          match contents !! i with
          | Some c => subtree p' c
          | None => None
          end
      | _ => None
      end
  end.

(** The tree with the node at [p] replaced by [new]. *)
Fixpoint replace (p : path) (new : node) (n : node) : node :=
  match p with
  | [] => new
  | i :: p' =>
      match n with
      | Tag name attrs contents =>
          Tag name attrs (alter (replace p' new) i contents)
      | _ => n
      end
  end.

(** The strings under a node that [get_text] reads, in document order. *)
Fixpoint strings (n : node) : list string :=
  match n with
  | Tag _ _ contents => flat_map strings contents
  | NavigableString s => [s]
  | OtherString _ | Decomposed => []
  end.

(** [separator.join(parts)]. *)
Fixpoint join (separator : string) (parts : list string) : string :=
  match parts with
  | [] => EmptyString
  | [x] => x
  | x :: rest => x ++ separator ++ join separator rest
  end.

(** [n.get_text(separator=separator, strip=True)]. *)
Definition get_text (separator : string) (n : node) : string :=
  join separator (List.filter Py.truthy (map Py.strip (strings n))).

(** [for unwanted in container.select(...): unwanted.decompose()]. *)
Definition remove_unwanted (container : node) : node :=
  fold_left (fun c q => replace q Decomposed c) (select unwanted container) container.

End Soup.

(** ** Input validation ([utils/validators.py]) *)

Module InputValidator.

Definition MIN_SONG_NAME_LENGTH : nat := 1.
Definition MAX_SONG_NAME_LENGTH : nat := 200.
Definition MIN_ARTIST_NAME_LENGTH : nat := 1.
Definition MAX_ARTIST_NAME_LENGTH : nat := 100.

Definition alnum_ascii (c : ascii) : bool :=
  let n := Py.code c in
  ((48 <=? n) && (n <=? 57) || (65 <=? n) && (n <=? 90)
   || (97 <=? n) && (n <=? 122))%N.

Definition one_of (chars : string) (c : ascii) : bool :=
  existsb (Ascii.eqb c) (list_ascii_of_string chars).

(** The character class of [VALID_SONG_PATTERN]. *)
Definition song_char (c : ascii) : bool :=
  alnum_ascii c || Py.isspace c || one_of ("-'" ++ Rx.dq ++ "()[].!?") c.

(** The character class of [VALID_ARTIST_PATTERN]. *)
Definition artist_char (c : ascii) : bool :=
  alnum_ascii c || Py.isspace c || one_of ("-'" ++ Rx.dq ++ "().&") c.

(** [re.match(r'^[class]+$', s)] on a stripped string. *)
Definition all_chars (cls : ascii -> bool) (s : string) : bool :=
  Py.truthy s && forallb cls (list_ascii_of_string s).

Definition validate_song_name (song_name : string) : result string :=
  if negb (Py.truthy song_name) then Raise ValidationError
  else
    let cleaned_name := Py.strip song_name in
    if (String.length cleaned_name <? MIN_SONG_NAME_LENGTH)%nat
    then Raise ValidationError
    else if (MAX_SONG_NAME_LENGTH <? String.length cleaned_name)%nat
    then Raise ValidationError
    else if negb (all_chars song_char cleaned_name) then Raise ValidationError
    else Ok cleaned_name.

Definition validate_artist_name (artist_name : string) : result string :=
  if negb (Py.truthy artist_name) then Raise ValidationError
  else
    let cleaned_name := Py.strip artist_name in
    if (String.length cleaned_name <? MIN_ARTIST_NAME_LENGTH)%nat
    then Raise ValidationError
    else if (MAX_ARTIST_NAME_LENGTH <? String.length cleaned_name)%nat
    then Raise ValidationError
    else if negb (all_chars artist_char cleaned_name) then Raise ValidationError
    else Ok cleaned_name.

End InputValidator.

(** ** Genius service ([services/genius_service.py]) *)

Module SearchResult.

Record t : Type := mk {
  song_id : Z;
  title : string;
  artist_name : string;
  url : string;
  thumbnail_url : option string;
  view_count : option Z
}.

End SearchResult.

Module Genius.
Import Soup Rx.

(** [_clean_lyrics]. *)
Definition _clean_lyrics (raw_lyrics : string) : string :=
  let cleaned := raw_lyrics in
  let cleaned := drop_bracketed None cleaned in
  let cleaned := collapse_blank None cleaned in
  let cleaned := collapse_spaces false cleaned in
  let cleaned := drop_through "lyrics" O [] cleaned in
  let cleaned := drop_through "embed" O [] cleaned in
  let cleaned := drop_through "share" O [] cleaned in
  let cleaned := drop_counted "contributors" O [] cleaned in
  let cleaned := drop_through "translation" O [] cleaned in
  Py.strip cleaned.

(** *** Lyrics extraction *)

(** One turn of the inner loop of [scrape_lyrics] on the container that
    [p] refers to, in the page as the earlier turns left it.  A container
    that an earlier turn destroyed has no text. *)
Definition visit_container (st : node * string) (p : path) : node * string :=
  let '(soup, lyrics_text) := st in
  match subtree p soup with
  | Some (Tag name attrs contents) =>
      let container := remove_unwanted (Tag name attrs contents) in
      let text := get_text lf container in
      (replace p container soup,
       if Py.truthy text && (50 <? String.length text)%nat
       then lyrics_text ++ text ++ lf
       else lyrics_text)
  | _ => st
  end.

(** One turn of the outer loop: the containers are selected first, then
    visited in order. *)
Definition visit_selector (st : node * string) (selector : node -> bool)
  : node * string :=
  fold_left visit_container (select selector (fst st)) st.

(** The selector loop: the page as it is left, and the text gathered. *)
Definition gather (soup : node) : node * string :=
  fold_left visit_selector lyrics_selectors (soup, EmptyString).

(** The text of the container that [p] refers to in the page [soup],
    once its unwanted nodes are removed (no text for a destroyed
    container), and the test that admits a text. *)
Definition candidate_text (soup : node) (p : path) : string :=
  match subtree p soup with
  | Some (Tag name attrs contents) =>
      get_text lf (remove_unwanted (Tag name attrs contents))
  | _ => EmptyString
  end.

Definition long_enough (text : string) : bool :=
  Py.truthy text && (50 <? String.length text)%nat.

(** The candidates in the order in which the two loops meet them: every
    match of the first selector in document order, then every match of the
    second selector in the page as the first pass left it, and so on. *)
Definition note_container (st : node * list string) (p : path)
  : node * list string :=
  (fst (visit_container (fst st, EmptyString) p),
   (snd st ++ [candidate_text (fst st) p])%list).

Definition note_selector (st : node * list string) (selector : node -> bool)
  : node * list string :=
  fold_left note_container (select selector (fst st)) st.

Definition candidates (soup : node) : list string :=
  snd (fold_left note_selector lyrics_selectors (soup, [])).

(** The reading of the specification: the first candidate that is long
    enough, alone. *)
Definition spec_first_candidate (soup : node) : string :=
  default EmptyString (List.find long_enough (candidates soup)).

(** The fallback over [soup.find_all('div')]. *)
Definition substantial (text : string) : bool :=
  (200 <? String.length text)%nat && Py.contains lf text.

Definition fallback_text (soup : node) : string :=
  let all_divs := select (tag_named "div") soup in
  let texts :=
    omap (fun p => get_text EmptyString <$> subtree p soup) all_divs in
  default EmptyString (List.find substantial texts).

(** The text that is handed to [_clean_lyrics]. *)
Definition raw_lyrics_text (soup : node) : string :=
  let '(soup', lyrics_text) := gather soup in
  if Py.truthy lyrics_text then lyrics_text else fallback_text soup'.

Section Scrape.
(** [self.session.get(url)], [raise_for_status()] and the parser, as a
    function of the URL. *)
Variable fetch_soup : string -> result node.

(** The body of the [try] block of [scrape_lyrics]. *)
Definition scrape_body (genius_url : string) : result string :=
  soup ← fetch_soup genius_url;
  let lyrics_text := raw_lyrics_text soup in
  if negb (Py.truthy lyrics_text) then Raise (LyricsNotFoundError "" "")
  else
    let lyrics_text := _clean_lyrics lyrics_text in
    if (String.length (Py.strip lyrics_text) <? 20)%nat
    then Raise (LyricsNotFoundError "" "")
    else Ok lyrics_text.

(** [GeniusAPIService.scrape_lyrics]. *)
Definition scrape_lyrics (genius_url : option string) : result string :=
  match genius_url with
  | None | Some EmptyString => Raise ValueError
  | Some genius_url =>
      match scrape_body genius_url with
      | Ok lyrics_text => Ok lyrics_text
      | Raise RequestsTimeout | Raise RequestsConnectionError
      | Raise RequestException => Raise NetworkError
      | Raise _ => Raise (LyricsNotFoundError "" "")
      end
  end.

End Scrape.

(** *** Resolution of (song name, artist name) *)

Definition threshold : Q := 7 # 10.

(** [title_match > 0.7 and artist_match > 0.7]. *)
Definition confident (song_name artist_name : string) (r : SearchResult.t) : bool :=
  let title_match :=
    Similarity._similarity_score
      (Py.lower song_name) (Py.lower (SearchResult.title r)) in
  let artist_match :=
    Similarity._similarity_score
      (Py.lower artist_name) (Py.lower (SearchResult.artist_name r)) in
  negb (Qle_bool title_match threshold) && negb (Qle_bool artist_match threshold).

(** The loop that looks for the best match, with its fallback on the
    first result [search_results[0]]. *)
Definition best_match (song_name artist_name : string)
    (search_results : list SearchResult.t) (first : SearchResult.t)
  : SearchResult.t :=
  match List.find (confident song_name artist_name) search_results with
  | Some r => r
  | None => first
  end.

Section Resolve.
(** The three methods that [find_and_fetch_song] calls on [self]; the
    caching subclass overrides each of them. *)
Variable search_songs : string -> Z -> result (list SearchResult.t).
Variable get_song_details : Z -> result SongData.SongMetadata.
Variable scrape_lyrics : option string -> result string.

(** What follows the choice of the best match; [now1] and [now2] are the
    clock readings of the two constructors. *)
Definition fetch_song (song_name artist_name search_query : string)
    (best : SearchResult.t) (now1 now2 : Z) : result SongData.Song :=
  metadata ← get_song_details (SearchResult.song_id best);
  lyrics_data ←
    match (lyrics_content ← scrape_lyrics (SongData.genius_url metadata);
           SongData.LyricsData_new lyrics_content now1) with
    | Raise (LyricsNotFoundError _ _) =>
        Raise (LyricsNotFoundError song_name artist_name)
    | r => r
    end;
  Ok (SongData.mkSong metadata (Some lyrics_data) (Some search_query) now2).

(** [GeniusAPIService.find_and_fetch_song]. *)
Definition find_and_fetch_song (song_name artist_name : string) (now1 now2 : Z)
  : result SongData.Song :=
  song_name ← InputValidator.validate_song_name song_name;
  artist_name ← InputValidator.validate_artist_name artist_name;
  let search_query := song_name ++ " " ++ artist_name in
  search_results ← search_songs search_query 10;
  match search_results with
  | [] => Raise (LyricsNotFoundError song_name artist_name)
  | first :: _ =>
      fetch_song song_name artist_name search_query
        (best_match song_name artist_name search_results first) now1 now2
  end.

End Resolve.

End Genius.

(** ** Sorting and slicing

    [sorted(xs, key=f, reverse=True)] is the stable descending sort:
    elements with equal keys keep the order they had.  [xs[:n]] takes [n]
    elements, or drops the last [-n] when [n] is negative. *)

Module PySorted.
Section Sorted.
Context {A : Type}.

(** [before x y] says that [y] has to stay in front of [x]: its key is
    strictly greater. *)
Fixpoint insert (before : A -> A -> bool) (x : A) (l : list A) : list A :=
  match l with
  | [] => [x]
  | y :: l' => if before x y then y :: insert before x l' else x :: y :: l'
  end.

Definition sorted_by (before : A -> A -> bool) (l : list A) : list A :=
  foldr (insert before) [] l.

Definition sorted_reverse_Z (key : A -> Z) : list A -> list A :=
  sorted_by (fun x y => key x <? key y).

Definition sorted_reverse_Q (key : A -> Q) : list A -> list A :=
  sorted_by (fun x y => negb (Qle_bool (key y) (key x))).

Definition slice_to (n : Z) (l : list A) : list A :=
  if 0 <=? n then firstn (Z.to_nat n) l
  else firstn (Z.to_nat (Z.of_nat (length l) + n)) l.

End Sorted.
End PySorted.

(** ** Search by artist, by title, and the smart search
    ([GeniusAPIService.search_by_artist_only], [search_by_song_only],
    [smart_search]) *)

Module GeniusSearch.

(** [similarity > 0.6] of the artist names. *)
Definition artist_similar (artist_name : string) (result : SearchResult.t) : bool :=
  negb (Qle_bool
          (Similarity._similarity_score
             (Py.lower artist_name) (Py.lower (SearchResult.artist_name result)))
          (6 # 10)).

(** [similarity > 0.5] of the titles. *)
Definition title_similar (song_name : string) (result : SearchResult.t) : bool :=
  negb (Qle_bool
          (Similarity._similarity_score
             (Py.lower song_name) (Py.lower (SearchResult.title result)))
          (5 # 10)).

(** The loop of [search_by_artist_only], which leaves as soon as
    [artist_songs] has [limit] elements. *)
Fixpoint artist_loop (artist_name : string) (limit : Z)
    (search_results artist_songs : list SearchResult.t) : list SearchResult.t :=
  match search_results with
  | [] => artist_songs
  | result :: rest =>
      if artist_similar artist_name result then
        let artist_songs := (artist_songs ++ [result])%list in
        if limit <=? Z.of_nat (length artist_songs) then artist_songs
        else artist_loop artist_name limit rest artist_songs
      else artist_loop artist_name limit rest artist_songs
  end.

Definition song_indicators : list string :=
  ["feat"; "ft"; "featuring"; "remix"; "version"; "cover"].

(** The loop of [smart_search] that drops the results whose identifier
    was seen before. *)
Fixpoint unique_results (all_results : list SearchResult.t) (seen_ids : gset Z)
  : list SearchResult.t :=
  match all_results with
  | [] => []
  | result :: rest =>
      if bool_decide (SearchResult.song_id result ∈ seen_ids)
      then unique_results rest seen_ids
      else result :: unique_results rest ({[SearchResult.song_id result]} ∪ seen_ids)
  end.

Section Search.
(** [self.search_songs], which the caching subclass overrides. *)
Variable search_songs : string -> Z -> result (list SearchResult.t).

Definition search_by_artist_only (artist_name : string) (limit : Z)
  : result (list SearchResult.t) :=
  search_results ← search_songs artist_name (limit * 2);
  Ok (artist_loop artist_name limit search_results []).

Definition search_by_song_only (song_name : string) (limit : Z)
  : result (list SearchResult.t) :=
  search_results ← search_songs song_name limit;
  Ok (List.filter (title_similar song_name) search_results).

Definition smart_search (query search_type : string) : result (list SearchResult.t) :=
  if String.eqb search_type "artist" then search_by_artist_only query 20
  else if String.eqb search_type "song" then search_by_song_only query 20
  else if String.eqb search_type "auto" then
    let is_likely_song :=
      existsb (fun indicator => Py.contains indicator (Py.lower query))
              song_indicators in
    if is_likely_song then search_by_song_only query 20
    else
      artist_results ← search_by_artist_only query 10;
      song_results ← search_by_song_only query 10;
      let all_results := (artist_results ++ song_results)%list in
      Ok (PySorted.slice_to 20 (unique_results all_results ∅))
  else search_songs query 10.

End Search.
End GeniusSearch.

(** ** Further methods of the analysis model ([models/emotion_analysis.py]) *)

Module EmotionMethods.
Import Emotion.


(** [EmotionAnalysisResult.get_top_emotions]. *)
Definition get_top_emotions (r : EmotionAnalysisResult) (count : Z)
  : list (EmotionCategory * EmotionScore) :=
  PySorted.slice_to count
    (PySorted.sorted_reverse_Q (fun x => score (snd x)) (emotion_scores r)).

(** [EmotionAnalysisResult.get_emotion_score]: [KeyError] for a category
    that the dictionary does not hold. *)
Definition get_emotion_score (r : EmotionAnalysisResult) (e : EmotionCategory)
  : result Q :=
  match PyDict.get e (emotion_scores r) with
  | Some s => Ok (score s)
  | None => Raise KeyError
  end.

(** [EmotionAnalysisResult.dominant_score]. *)
Definition dominant_score (r : EmotionAnalysisResult) : result Q :=
  get_emotion_score r (dominant_emotion r).

(** [EmotionAnalysisResult.is_high_confidence]. *)
Definition is_high_confidence (r : EmotionAnalysisResult) : bool :=
  negb (Qle_bool (overall_confidence r) (7 # 10)).

(** [EmotionAnalysisResult.analysis_quality]. *)
Definition analysis_quality (r : EmotionAnalysisResult) : string :=
  if Qle_bool (8 # 10) (overall_confidence r) then "High"
  else if Qle_bool (6 # 10) (overall_confidence r) then "Medium"
  else "Low".

End EmotionMethods.

Module HistoryMethods.
Import Session.

(** [AnalysisSession.duration], in seconds. *)
Definition duration (s : AnalysisSession) : option Q :=
  match completed_at s with
  | None => None
  | Some t => Some (total_seconds (t - started_at s))
  end.

(** [AnalysisHistory.get_recent_sessions]. *)
Definition get_recent_sessions (h : AnalysisHistory) (count : Z)
  : list AnalysisSession :=
  PySorted.slice_to count (PySorted.sorted_reverse_Z started_at (sessions h)).

(** The test of [get_session_by_song] on one session. *)
Definition same_song (song_title artist_name : string) (s : AnalysisSession) : bool :=
  String.eqb (Py.lower (SongData.title (SongData.metadata (song s))))
             (Py.lower song_title)
  && String.eqb (Py.lower (SongData.artist_name (SongData.metadata (song s))))
                (Py.lower artist_name).

(** [AnalysisHistory.get_session_by_song]. *)
Definition get_session_by_song (h : AnalysisHistory) (song_title artist_name : string)
  : option AnalysisSession :=
  List.find (same_song song_title artist_name) (sessions h).

End HistoryMethods.

(** ** Requests to the Genius API ([GeniusAPIService._make_request]) *)

Module GeniusRequest.
Import PyNum.

(** What the HTTP session answers to a GET request. *)
Record response : Type := mkResponse {
  status_code : Z;
  json : result pyval;
  retry_after : option string
}.

(** The [except] clauses of [_make_request]. *)
Definition as_network_error (e : exn) : exn :=
  match e with
  | RequestsTimeout | RequestsConnectionError | RequestException => NetworkError
  | _ => e
  end.

(** The limiter that [GeniusAPIService.__init__] sets up from the
    configured rate limit. *)
Definition rate_limiter_of_config (genius_rate_limit : Z) : RateLimiter.t :=
  RateLimiter.init (Z.min (genius_rate_limit / 60) 60) 60.

(** The rate-limiting preamble: [t1] is the clock reading of
    [can_make_request], [t2] and [t3] are the two readings of
    [time_until_next_request]. *)
Definition gate (t1 t2 t3 : Z) (rl : RateLimiter.t) : result unit * RateLimiter.t :=
  let (ok, rl) := RateLimiter.can_make_request t1 rl in
  if ok then (Ok tt, rl)
  else
    let (wait_time, rl) := RateLimiter.time_until_next_request t2 t3 rl in
    match wait_time with
    | Raise e => (Raise e, rl)
    | Ok wait_time =>
        if negb (Qle_bool wait_time 0) then (Raise RateLimitError, rl)
        else (Ok tt, rl)
    end.

Section Request.
(** [int(s)] for a header value; [None] stands for its [ValueError]. *)
Variable int_of_str : string -> option Z.
(** The request type, and [self.session.get(url, params=params,
    timeout=timeout)] as a function of the request. *)
Variable request : Type.
Variable session_get : request -> result response.

(** The status dispatch on an answer. *)
Definition answer (response : response) : result pyval :=
  if status_code response =? 200 then json response
  else if status_code response =? 401 then Raise AuthenticationError
  else if status_code response =? 403 then Raise AuthenticationError
  else if status_code response =? 404 then Raise GeniusAPIError
  else if status_code response =? 429 then
    match int_of_str (default "60" (retry_after response)) with
    | Some _ => Raise RateLimitError
    | None => Raise ValueError
    end
  else Raise GeniusAPIError.

(** [_make_request]: the outcome, the limiter as it is left, and the
    requests that were handed to the session.  [t4] is the clock reading of
    [record_request]. *)
Definition _make_request (req : request) (t1 t2 t3 t4 : Z) (rl : RateLimiter.t)
  : result pyval * RateLimiter.t * list request :=
  match gate t1 t2 t3 rl with
  | (Raise e, rl) => (Raise e, rl, [])
  | (Ok _, rl) =>
      match session_get req with
      | Raise e => (Raise (as_network_error e), rl, [req])
      | Ok response =>
          let rl := RateLimiter.record_request t4 rl in
          (match answer response with
           | Ok v => Ok v
           | Raise e => Raise (as_network_error e)
           end, rl, [req])
      end
  end.

(** [GeniusAPIService.validate_connection]. *)
Definition validate_connection (test_request : request) (t1 t2 t3 t4 : Z)
    (rl : RateLimiter.t) : result bool * RateLimiter.t * list request :=
  let '(r, rl, sent) := _make_request test_request t1 t2 t3 t4 rl in
  (match r with
   | Ok _ => Ok true
   | Raise AuthenticationError => Raise AuthenticationError
   | Raise NetworkError => Raise NetworkError
   | Raise _ => Raise NetworkError
   end, rl, sent).

End Request.
End GeniusRequest.

(** ** The caching service ([CachedGeniusAPIService]) *)

Module CachedGenius.

(** The values that the three methods put into the one cache. *)
Inductive cached : Type :=
| Results (search_results : list SearchResult.t)
| Metadata (metadata : SongData.SongMetadata)
| Lyrics (lyrics : string).

(** The cache keys: [f"search:{query.lower()}:{limit}"],
    [f"song:{song_id}"] and [f"lyrics:{genius_url}"]. *)
Definition search_key (query : string) (limit : Z) : string :=
  "search:" ++ Py.lower query ++ ":" ++ pretty limit.

Definition song_key (song_id : Z) : string := "song:" ++ pretty song_id.

Definition lyrics_key (genius_url : option string) : string :=
  "lyrics:" ++ default "None" genius_url.

(** The body that the three methods share: a lookup under the key; on a
    miss the call of the method of the base class, whose outcome is
    [computed], and the insertion of its result.  [now_get] and [now_set]
    are the clock readings of the lookup and of the insertion. *)
Definition through_cache (cache_key : string) (computed : result cached)
    (now_get now_set : Z) (cache : GeniusAPICache.t cached)
  : result cached * GeniusAPICache.t cached :=
  let (cached_result, cache) := GeniusAPICache.get now_get cache_key cache in
  match cached_result with
  | Some cached_result => (Ok cached_result, cache)
  | None =>
      match computed with
      | Raise e => (Raise e, cache)
      | Ok result =>
          match GeniusAPICache.set now_set cache_key result cache with
          | Ok cache' => (Ok result, cache')
          | Raise e => (Raise e, cache)
          end
      end
  end.

Section Service.
(** The methods of the base class. *)
Variable base_search_songs : string -> Z -> result (list SearchResult.t).
Variable base_get_song_details : Z -> result SongData.SongMetadata.
Variable base_scrape_lyrics : option string -> result string.

Definition search_songs (query : string) (limit : Z) :=
  through_cache (search_key query limit) (result ← base_search_songs query limit; Ok (Results result)).

Definition get_song_details (song_id : Z) :=
  through_cache (song_key song_id) (result ← base_get_song_details song_id; Ok (Metadata result)).

Definition scrape_lyrics (genius_url : option string) :=
  through_cache (lyrics_key genius_url) (result ← base_scrape_lyrics genius_url; Ok (Lyrics result)).

End Service.
End CachedGenius.

(** ** Further validators ([utils/validators.py]) *)

Module Validators.
Import PyNum.

(** [validate_song_input]: the two validations, the song name first. *)
Definition validate_song_input (song_name artist_name : string)
  : result (string * string) :=
  song_name ← InputValidator.validate_song_name song_name;
  artist_name ← InputValidator.validate_artist_name artist_name;
  Ok (song_name, artist_name).

(** [ValidationConstants.MAX_LYRICS_LENGTH]: the class
    [ValidationConstants] of [core/constants.py] defines no attribute of
    that name (the constant belongs to [AnalysisConstants]), so the
    attribute lookup raises. *)
Definition ValidationConstants_MAX_LYRICS_LENGTH : result nat :=
  Raise AttributeError.

(** [re.findall(r'\b\w+\b', s)]: the maximal runs of word characters;
    [cur] is the run being read, most recent character first. *)
Fixpoint findall_words_from (cur : list ascii) (s : string) : list string :=
  match s with
  | EmptyString =>
      match cur with
      | [] => []
      | _ => [string_of_list_ascii (rev cur)]
      end
  | String c s' =>
      if Rx.isword c then findall_words_from (c :: cur) s'
      else
        match cur with
        | [] => findall_words_from [] s'
        | _ => string_of_list_ascii (rev cur) :: findall_words_from [] s'
        end
  end.

Definition findall_words (s : string) : list string := findall_words_from [] s.

(** [InputValidator.validate_lyrics_content]. *)
Definition validate_lyrics_content (lyrics : string) : result string :=
  if negb (Py.truthy lyrics) then Raise ValidationError
  else
    let cleaned_lyrics := Py.strip lyrics in
    if negb (Py.truthy cleaned_lyrics) then Raise ValidationError
    else
      max_lyrics_length ← ValidationConstants_MAX_LYRICS_LENGTH;
      if (max_lyrics_length <? String.length cleaned_lyrics)%nat
      then Raise ValidationError
      else
        let words := findall_words cleaned_lyrics in
        if (length words <? 5)%nat then Raise ValidationError
        else Ok cleaned_lyrics.

(** [{e.value for e in EmotionCategory}]. *)
Definition expected_emotions : list string := map Emotion.value Emotion.all_categories.

Definition is_expected (emotion : string) : bool :=
  existsb (String.eqb emotion) expected_emotions.

Section Scores.
Variable float_of_str : string -> option pyfloat.

(** The loop of [validate_emotion_scores] over the items of the
    dictionary. *)
Fixpoint validate_scores_loop (items : list (string * pyval))
    (validated_scores : PyDict.dict string Q) : result (PyDict.dict string Q) :=
  match items with
  | [] => Ok validated_scores
  | (emotion, score) :: rest =>
      if negb (is_expected emotion) then validate_scores_loop rest validated_scores
      else
        score_float ←
          match float float_of_str score with
          | Ok f => Ok f
          | Raise ValueError | Raise TypeError => Raise ValidationError
          | Raise e => Raise e
          end;
        if fle (Fin 0) score_float && fle score_float (Fin 100) then
          match score_float with
          | Fin q =>
              validate_scores_loop rest
                (PyDict.set emotion (round q 2) validated_scores)
          | _ => Raise ValidationError
          end
        else Raise ValidationError
  end.

(** [EmotionAnalysisValidator.validate_emotion_scores]. *)
Definition validate_emotion_scores (emotion_scores : PyDict.dict string pyval)
  : result (PyDict.dict string Q) :=
  if negb (forallb (fun e => PyDict.contains e emotion_scores) expected_emotions)
  then Raise ValidationError
  else validate_scores_loop emotion_scores [].

End Scores.

(** The number that a boolean, an integer or a float is in a
    comparison. *)
Definition as_number (v : pyval) : option pyfloat :=
  match v with
  | PBool b => Some (Fin (if b then 1 else 0)%Q)
  | PInt z => Some (Fin (inject_Z z))
  | PFloat f => Some f
  | PNone | PStr _ | PList _ | PDict _ => None
  end.

Section Dominant.
(** [a > b] on two lists, which goes through the identity and the
    equality of their items. *)
Variable list_gt : list pyval -> list pyval -> result bool.

(** [a > b] on two values of type [Any]: numbers compare by value,
    strings by code points, lists with [list_gt]; every other pair of
    types has no order and raises. *)
Definition any_gt (a b : pyval) : result bool :=
  match as_number a, as_number b with
  | Some x, Some y => Ok (fgt x y)
  | _, _ =>
      match a, b with
      | PStr s, PStr t => Ok (String.ltb t s)
      | PList la, PList lb => list_gt la lb
      | _, _ => Raise TypeError
      end
  end.

(** [max(emotion_scores.keys(), key=lambda x: emotion_scores[x])] after
    its first item: each further item is compared with the best one so
    far and replaces it when it is greater. *)
Fixpoint max_key_loop (maxitem : string * pyval) (items : list (string * pyval))
  : result (string * pyval) :=
  match items with
  | [] => Ok maxitem
  | item :: rest =>
      greater ← any_gt (snd item) (snd maxitem);
      max_key_loop (if greater : bool then item else maxitem) rest
  end.

(** [EmotionAnalysisValidator.validate_dominant_emotion] on the scores as
    they are given: the outcome, and whether the mismatch warning was
    logged. *)
Definition validate_dominant_emotion (dominant_emotion : string)
    (emotion_scores : PyDict.dict string pyval) : result string * bool :=
  let dominant_emotion := Py.strip (Py.lower dominant_emotion) in
  if negb (is_expected dominant_emotion) then (Raise ValidationError, false)
  else
    match emotion_scores with
    | [] => (Ok dominant_emotion, false)
    | first :: rest =>
        match max_key_loop first rest with
        | Ok actual_dominant =>
            (Ok dominant_emotion,
             negb (String.eqb dominant_emotion (fst actual_dominant)))
        | Raise e => (Raise e, false)
        end
    end.

End Dominant.

End Validators.

(** ** The analysis service ([EmotionAnalysisService]) *)

Module AnalysisService.
Import Emotion SongData.

(** [Song.has_lyrics] ([models/song_data.py]). *)
Definition has_lyrics (song : Song) : bool :=
  match lyrics song with
  | None => false
  | Some l => Py.truthy (Py.strip (content l))
  end.

Section Service.
(** [hashlib.md5(lyrics.encode('utf-8')).hexdigest()]. *)
Variable md5_hexdigest : string -> string.
(** [self.groq_service.analyze_emotions]. *)
Variable analyze_emotions : string -> result EmotionAnalysisResult.

Definition _get_cache_key (lyrics : string) : string := md5_hexdigest lyrics.

(** [analyze_song]: the outcome, the cache as it is left, and the lyrics
    that were handed to the Groq service. *)
Definition analyze_song (use_cache : bool) (song : Song)
    (_cache : PyDict.dict string EmotionAnalysisResult)
  : result EmotionAnalysisResult * PyDict.dict string EmotionAnalysisResult
    * list string :=
  if negb (has_lyrics song) then (Raise AnalysisError, _cache, [])
  else
    match lyrics song with
    | None => (Raise AttributeError, _cache, [])
    | Some l =>
        let lyrics := content l in
        let cached :=
          if use_cache then PyDict.get (_get_cache_key lyrics) _cache else None in
        match cached with
        | Some result => (Ok result, _cache, [])
        | None =>
            match analyze_emotions lyrics with
            | Ok result =>
                (Ok result,
                 if use_cache then PyDict.set (_get_cache_key lyrics) result _cache
                 else _cache,
                 [lyrics])
            | Raise e => (Raise e, _cache, [lyrics])
            end
        end
    end.

End Service.
End AnalysisService.

(** ** The search itself ([GeniusAPIService.search_songs]) *)

Module GeniusSearchSongs.
Import PyNum.

(** A request: the endpoint and the query parameters. *)
Record request : Type := mkRequest {
  endpoint : string;
  params : PyDict.dict string pyval
}.

(** A [SearchResult] as the search fills it: every field holds what the
    decoded answer holds. *)
Record RawSearchResult : Type := mkRawSearchResult {
  song_id : pyval;
  title : pyval;
  artist_name : pyval;
  url : pyval;
  thumbnail_url : pyval;
  view_count : pyval
}.

(** ['key' in v] on a value of type [Any]. *)
Definition any_contains (key : string) (v : pyval) : result bool :=
  match v with
  | PDict d => Ok (PyDict.contains key d)
  | PList l =>
      Ok (existsb (fun x => match x with
                            | PStr s => String.eqb s key
                            | _ => false
                            end) l)
  | PStr s => Ok (Py.contains key s)
  | PNone | PBool _ | PInt _ | PFloat _ => Raise TypeError
  end.

(** [APIResponseValidator.validate_genius_search_response]
    ([utils/validators.py]). *)
Definition validate_genius_search_response (response_data : pyval) : result bool :=
  match response_data with
  | PDict d =>
      match PyDict.get "response" d with
      | None => Raise ValidationError
      | Some response_section =>
          has_hits ← any_contains "hits" response_section;
          if negb has_hits then Raise ValidationError else Ok true
      end
  | _ => Raise ValidationError
  end.

(** [for x in v] on a value of type [Any]. *)
Definition iterate (v : pyval) : result (list pyval) :=
  match v with
  | PList l => Ok l
  | PStr s => Ok (map (fun c => PStr (String c EmptyString)) (list_ascii_of_string s))
  | PDict d => Ok (map (fun e => PStr (fst e)) d)
  | PNone | PBool _ | PInt _ | PFloat _ => Raise TypeError
  end.

(** [v > 0] on a value of type [Any]. *)
Definition gt_zero (v : pyval) : result bool :=
  match v with
  | PInt z => Ok (0 <? z)
  | PBool b => Ok b
  | PFloat f => Ok (fgt f (Fin 0))
  | PNone | PStr _ | PList _ | PDict _ => Raise TypeError
  end.

(** The inner [try] block: the result built from [song_data], when it
    passes the basic validation. *)
Definition parse_song_data (song_data : pyval) : result (option RawSearchResult) :=
  song_id ← Groq.any_get "id" (PInt 0) song_data;
  title ← Groq.any_get "title" (PStr "") song_data;
  primary_artist ← Groq.any_get "primary_artist" (PDict []) song_data;
  artist_name ← Groq.any_get "name" (PStr "") primary_artist;
  url ← Groq.any_get "url" (PStr "") song_data;
  thumbnail_url ← Groq.any_get "song_art_image_thumbnail_url" PNone song_data;
  stats ← Groq.any_get "stats" (PDict []) song_data;
  view_count ← Groq.any_get "pageviews" PNone stats;
  let search_result :=
    mkRawSearchResult song_id title artist_name url thumbnail_url view_count in
  positive ← gt_zero song_id;
  if positive && Groq.truthy title && Groq.truthy artist_name
  then Ok (Some search_result) else Ok None.

(** The loop over the hits. *)
Fixpoint hits_loop (hits : list pyval) (results : list RawSearchResult)
  : result (list RawSearchResult) :=
  match hits with
  | [] => Ok results
  | hit :: rest =>
      song_data ← Groq.any_get "result" (PDict []) hit;
      if negb (Groq.truthy song_data) then hits_loop rest results
      else
        match parse_song_data song_data with
        | Ok (Some search_result) => hits_loop rest (results ++ [search_result])%list
        | Ok None => hits_loop rest results
        | Raise _ => hits_loop rest results
        end
  end.

(** The exceptions that [search_songs] raises again unchanged. *)
Definition reraised (e : exn) : bool :=
  match e with
  | GeniusAPIError | NetworkError | RateLimitError => true
  | _ => false
  end.

Section Search.
Variable int_of_str : string -> option Z.
Variable session_get : request -> result GeniusRequest.response.

(** The body of the [try] block after the request. *)
Definition parse_results (response_data : pyval) : result (list RawSearchResult) :=
  _ ← validate_genius_search_response response_data;
  response_section ← Groq.any_get "response" (PDict []) response_data;
  hits ← Groq.any_get "hits" (PList []) response_section;
  hits ← iterate hits;
  hits_loop hits [].

(** [search_songs]: the outcome, the limiter as it is left, and the
    requests that were handed to the session. *)
Definition search_songs (query : string) (limit : Z) (t1 t2 t3 t4 : Z)
    (rl : RateLimiter.t)
  : result (list RawSearchResult) * RateLimiter.t * list request :=
  if negb (Py.truthy query) || negb (Py.truthy (Py.strip query))
  then (Raise ValueError, rl, [])
  else
    let params := [("q", PStr (Py.strip query)); ("per_page", PInt (Z.min limit 50))] in
    let '(response_data, rl, sent) :=
      GeniusRequest._make_request int_of_str request session_get
        (mkRequest "/search" params) t1 t2 t3 t4 rl in
    (match (response_data ← response_data; parse_results response_data) with
     | Ok results => Ok results
     | Raise e => if reraised e then Raise e else Raise GeniusAPIError
     end, rl, sent).

End Search.
End GeniusSearchSongs.

(** * Vocabulary of the statements *)

(** A score entry as the constructor of [EmotionScore] leaves it. *)
Definition score_entry_ok (e : Emotion.EmotionCategory * Emotion.EmotionScore) : Prop :=
  Emotion.emotion (snd e) = fst e
  ∧ (0 <= Emotion.score (snd e) <= 100)%Q
  ∧ exists k : Z, Emotion.score (snd e) = k # 100.

(** The reading of the specification for the fallback keywords: a keyword
    counts when one of the white-space separated tokens of the lower-cased
    text is that keyword. *)
Definition spec_token_hit (words : list string) (content : string) : bool :=
  existsb (fun token => existsb (String.eqb token) words)
          (Py.split (Py.lower content)).

(** The place of a category in the enumeration. *)
Definition rank (c : Emotion.EmotionCategory) : nat :=
  match c with
  | Emotion.HAPPINESS => 0
  | Emotion.SADNESS => 1
  | Emotion.ANGER => 2
  | Emotion.FEAR => 3
  | Emotion.LOVE => 4
  end.

(** What the removal of the unwanted nodes leaves of a node: every
    unwanted element below it has gone, with all that it held. *)
Fixpoint prune (n : Soup.node) : Soup.node :=
  match n with
  | Soup.Tag name attrs contents =>
      Soup.Tag name attrs
        (map (fun c => if Soup.unwanted c then Soup.Decomposed else prune c) contents)
  | _ => n
  end.

(** One step of the loop that destroys the unwanted nodes. *)
Definition destroy (c : Soup.node) (q : Soup.path) : Soup.node :=
  Soup.replace q Soup.Decomposed c.

(** A node that one of the lyric selectors matches. *)
Definition lyric_container (n : Soup.node) : bool :=
  existsb (fun selector => selector n) Soup.lyrics_selectors.

(** A page in which no lyric container lies inside another one. *)
Definition flat (soup : Soup.node) : Prop :=
  forall (p q : Soup.path) (c d : Soup.node),
    Soup.subtree p soup = Some c -> lyric_container c = true ->
    q ≠ [] -> Soup.subtree q c = Some d -> lyric_container d = false.

(** The text of the match at [p] with its unwanted nodes pruned. *)
Definition pruned_text (soup : Soup.node) (p : Soup.path) : string :=
  match Soup.subtree p soup with
  | Some c => Soup.get_text Rx.lf (prune c)
  | None => EmptyString
  end.

(** Every match of every selector, selectors in priority order, matches
    in document order, all read from the page as it was fetched. *)
Definition matches_in_order (soup : Soup.node) : list string :=
  flat_map (fun selector => map (pruned_text soup) (Soup.select selector soup))
           Soup.lyrics_selectors.

(** A selector that reads the name and the attributes of a tag only. *)
Definition shallow (sel : Soup.node -> bool) : Prop :=
  (forall name attrs cs cs', sel (Soup.Tag name attrs cs) = sel (Soup.Tag name attrs cs'))
  ∧ (forall n, sel n = true -> Soup.is_tag n = true).

(** What relates a page in the course of the loop to the page as it was
    fetched: the selectors find the same matches, and every lyric container
    is as it was or pruned. *)
Definition reached (soup0 soup : Soup.node) : Prop :=
  (forall sel, In sel Soup.lyrics_selectors -> Soup.select sel soup = Soup.select sel soup0)
  ∧ (forall p c0, Soup.subtree p soup0 = Some c0 -> lyric_container c0 = true ->
       Soup.subtree p soup = Some c0 ∨ Soup.subtree p soup = Some (prune c0)).

(** A test on every node of a tree, and the test for [flat]. *)
Fixpoint all_nodes (P : Soup.node -> bool) (n : Soup.node) : bool :=
  P n &&
  match n with
  | Soup.Tag _ _ contents => forallb (all_nodes P) contents
  | _ => true
  end.

Definition flat_check (soup : Soup.node) : bool :=
  all_nodes
    (fun c => negb (lyric_container c)
              || match Soup.select lyric_container c with [] => true | _ => false end)
    soup.

(** What one visited container adds to the gathered text. *)
Definition appended (soup : Soup.node) (p : Soup.path) : string :=
  if Genius.long_enough (Genius.candidate_text soup p)
  then Genius.candidate_text soup p ++ Rx.lf
  else EmptyString.

Fixpoint concat_strings (l : list string) : string :=
  match l with
  | [] => EmptyString
  | x :: l' => x ++ concat_strings l'
  end.

(** The candidates that are long enough, each followed by a line feed,
    one after the other. *)
Definition carried (texts : list string) : string :=
  concat_strings (map (fun t => t ++ Rx.lf) (List.filter Genius.long_enough texts)).

(** The response whose first choice carries the text [content]. *)
Definition chat_response (content : string) : PyNum.pyval :=
  PyNum.PDict
    [("choices",
      PyNum.PList
        [PyNum.PDict
           [("message", PyNum.PDict [("content", PyNum.PStr content)])]])].

(** A song and a well-formed result, used as concrete inputs. *)
Definition sample_song : SongData.Song :=
  SongData.mkSong
    (SongData.mkMetadata 2 "Hello" "Adele" None None (Some "u2") None None None [] [] [])
    None (Some "Hello Adele") 0.

Definition sample_result : Emotion.EmotionAnalysisResult :=
  Emotion.mkResult
    (map (fun c => (c, Emotion.mkEmotionScore c
                         (if decide (c = Emotion.LOVE) then 50 else 20)%Q None
                         (Emotion.EMOTION_DESCRIPTIONS c)))
         Emotion.all_categories)
    Emotion.LOVE (6 # 10) PyNum.PNone "groq-ai" None 0 Emotion.COMPLETED.

(** A page with two lyric containers, the first with an advertisement
    inside. *)
Definition two_container_page : Soup.node :=
  Soup.Tag "[document]" []
    [Soup.Tag "html" []
       [Soup.Tag "body" []
          [Soup.Tag "div" [("data-lyrics-container", "true")]
             [Soup.NavigableString "The river runs below the silver bridge at dawn,";
              Soup.Tag "div" [("class", "ad-slot")]
                [Soup.NavigableString "Buy tickets now"];
              Soup.NavigableString "and every lantern on the water fades away."];
           Soup.Tag "div" [("data-lyrics-container", "true")]
             [Soup.NavigableString
                "The morning finds the harbour quiet, all the sails are down."]]]].


(** The recorded requests that are younger than the window at the instant
    [now], and the budget of a limiter: no more than [max_requests] of
    them. *)
Definition recent_requests (now : Z) (rl : RateLimiter.t) : list Z :=
  List.filter (fun req_time =>
                 now - req_time <? timedelta_seconds (RateLimiter.time_window rl))
              (RateLimiter.requests rl).

Definition within_budget (now : Z) (rl : RateLimiter.t) : Prop :=
  Z.of_nat (length (recent_requests now rl)) <= RateLimiter.max_requests rl.

(** The calls on a cache, and the cache that a call leaves; a [set] that
    raises leaves the cache as it was. *)
Inductive cache_call (V : Type) : Type :=
| CacheGet (now : Z) (key : string)
| CacheSet (now : Z) (key : string) (value : V)
| CacheClear.
Arguments CacheGet {V} now key.
Arguments CacheSet {V} now key value.
Arguments CacheClear {V}.

Definition cache_after {V : Type} (c : GeniusAPICache.t V) (call : cache_call V)
  : GeniusAPICache.t V :=
  match call with
  | CacheGet now key => snd (GeniusAPICache.get now key c)
  | CacheSet now key value =>
      match GeniusAPICache.set now key value c with
      | Ok c' => c'
      | Raise _ => c
      end
  | CacheClear => GeniusAPICache.clear c
  end.

(** The invariant of a cache created for [max] entries. *)
Definition cache_ok {V : Type} (max ttl : Z) (c : GeniusAPICache.t V) : Prop :=
  GeniusAPICache.max_size c = max ∧ GeniusAPICache.ttl_seconds c = ttl
  ∧ Z.of_nat (length (GeniusAPICache._cache c)) <= Z.max max 0
  ∧ NoDup (PyDict.keys (GeniusAPICache._cache c)).

(** The separator of the cache keys. *)
Definition colon : ascii := ":"%char.

(** A validated score: in range, a whole number of hundredths, and the
    rounded float value of the entry of [source] under the same key. *)
Definition validated_from (float_of_str : string -> option PyNum.pyfloat)
    (source : list (string * PyNum.pyval)) (e : string * Q) : Prop :=
  (0 <= snd e <= 100)%Q
  ∧ (exists k : Z, snd e = k # 100)
  ∧ exists score x,
      In (fst e, score) source
      ∧ PyNum.float float_of_str score = Ok (PyNum.Fin x)
      ∧ snd e = PyNum.round x 2.

(** A character that is not white space. *)
Definition nonspace (c : ascii) : bool := negb (Py.isspace c).

(** A search result that was built from the [result] object of one of the
    hits. *)
Definition found_in (hits : list PyNum.pyval)
    (sr : GeniusSearchSongs.RawSearchResult) : Prop :=
  exists hit song_data,
    In hit hits
    ∧ Groq.any_get "result" (PyNum.PDict []) hit = Ok song_data
    ∧ Groq.truthy song_data = true
    ∧ GeniusSearchSongs.parse_song_data song_data = Ok (Some sr).

(** The value a score has in a comparison of numbers ([nan], which is
    greater than nothing, where the score is no number). *)
Definition number_of (v : PyNum.pyval) : PyNum.pyfloat :=
  default PyNum.NaN (Validators.as_number v).

(** * Properties *)

(** ** Similarity score *)

Section SimilarityFacts.
Import Similarity.

Lemma word_set_empty_iff (s : string) :
  word_set s = ∅ ↔ Py.split (Py.lower s) = [].
Proof.
  unfold word_set. split.
  - destruct (Py.split (Py.lower s)) as [|w ws]; [done|].
    intros H. exfalso. cut (w ∈ (∅ : gset string)); [set_solver|].
    rewrite <- H. set_solver.
  - intros ->. done.
Qed.

Lemma ratio_bounds (a b : nat) :
  (a <= b)%nat -> (0 < b)%nat -> (0 <= ratio a b <= 1)%Q.
Proof.
  intros Hab Hb. unfold ratio, Qle. cbn [Qnum Qden].
  assert (Z.pos (Pos.of_nat b) = Z.of_nat b) as ->.
  { destruct b as [|b]; [lia|].
    rewrite <- Pos.of_nat_succ, Znat.Zpos_P_of_succ_nat. lia. }
  lia.
Qed.

Lemma similarity_ratio_case (a b : string) :
  word_set a ≠ ∅ -> word_set b ≠ ∅ ->
  _similarity_score a b =
    ratio (size (word_set a ∩ word_set b)) (size (word_set a ∪ word_set b)).
Proof.
  intros Ha Hb. unfold _similarity_score. cbn zeta.
  rewrite (bool_decide_eq_false_2 _ Ha), (bool_decide_eq_false_2 _ Hb). done.
Qed.

(** C6.  The similarity score of two strings lies in [0,1] and does not
    depend on the order of its arguments; it is 1 when neither string has
    a word (in particular for two empty strings), 0 when exactly one of
    them has no word, and otherwise the size of the intersection of the
    two lower-cased word sets divided by the size of their union. *)
Theorem similarity_score_jaccard (a b : string) :
  (0 <= _similarity_score a b <= 1)%Q
  ∧ _similarity_score a b = _similarity_score b a
  ∧ _similarity_score "" "" = 1%Q
  ∧ (Py.split (Py.lower a) = [] -> Py.split (Py.lower b) = [] ->
     _similarity_score a b = 1%Q)
  ∧ (Py.split (Py.lower a) = [] -> Py.split (Py.lower b) ≠ [] ->
     _similarity_score a b = 0%Q ∧ _similarity_score b a = 0%Q)
  ∧ (Py.split (Py.lower a) ≠ [] -> Py.split (Py.lower b) ≠ [] ->
     _similarity_score a b =
       ratio (size (word_set a ∩ word_set b)) (size (word_set a ∪ word_set b))).
Proof.
  assert (Hsym : _similarity_score a b = _similarity_score b a).
  { unfold _similarity_score. cbn zeta.
    rewrite (andb_comm (bool_decide (word_set a = ∅))).
    rewrite (orb_comm (bool_decide (word_set a = ∅))).
    by rewrite (intersection_comm_L (word_set a)), (union_comm_L (word_set a)). }
  split; [|split; [exact Hsym|split; [reflexivity|]]].
  - unfold _similarity_score. cbn zeta.
    destruct (bool_decide_reflect (word_set a = ∅)) as [Ha|Ha];
      destruct (bool_decide_reflect (word_set b = ∅)) as [Hb|Hb];
      cbn [andb orb]; try (split; discriminate).
    apply ratio_bounds.
    + apply subseteq_size. intros x.
      rewrite elem_of_intersection, elem_of_union. tauto.
    + assert (size (word_set a ∪ word_set b) ≠ 0%nat); [|lia].
      rewrite size_empty_iff. intros Hu. apply Ha. set_solver.
  - assert (Hone : forall x y, word_set x = ∅ -> word_set y ≠ ∅ ->
                _similarity_score x y = 0%Q).
    { intros x y Hx Hy. unfold _similarity_score. cbn zeta.
      by rewrite (bool_decide_eq_true_2 _ Hx), (bool_decide_eq_false_2 _ Hy). }
    rewrite <- !word_set_empty_iff. split; [|split].
    + intros Ha Hb. unfold _similarity_score. cbn zeta.
      by rewrite (bool_decide_eq_true_2 _ Ha), (bool_decide_eq_true_2 _ Hb).
    + intros Ha Hb. split; [|rewrite <- Hsym]; by apply Hone.
    + apply similarity_ratio_case.
Qed.

Lemma similarity_score_jaccard_witness :
  Similarity._similarity_score "" "x" = 0%Q
  ∧ Similarity._similarity_score "x" "" = 0%Q.
Proof.
  destruct (similarity_score_jaccard "" "x") as (_ & _ & _ & _ & H & _).
  apply H; [reflexivity | discriminate].
Defined.

End SimilarityFacts.

(** ** Choice of the best match during resolution *)

Section ResolveFacts.
Import Genius.

Variable search_songs : string -> Z -> result (list SearchResult.t).
Variable get_song_details : Z -> result SongData.SongMetadata.
Variable scrape_lyrics : option string -> result string.

Lemma find_none_of_all_false {A : Type} (f : A -> bool) (l : list A) :
  Forall (fun x => f x = false) l -> List.find f l = None.
Proof.
  induction 1 as [|x l Hx _ IH]; [done|]. cbn. by rewrite Hx.
Qed.

Lemma find_first_true {A : Type} (f : A -> bool) (pre post : list A) (r : A) :
  Forall (fun x => f x = false) pre -> f r = true ->
  List.find f (pre ++ r :: post)%list = Some r.
Proof.
  induction 1 as [|x l Hx _ IH]; intros Hr; cbn.
  - by rewrite Hr.
  - rewrite Hx. by apply IH.
Qed.

Lemma confident_iff (song_name artist_name : string) (r : SearchResult.t) :
  confident song_name artist_name r = true ↔
  (7 # 10 < Similarity._similarity_score
              (Py.lower song_name) (Py.lower (SearchResult.title r)))%Q
  ∧ (7 # 10 < Similarity._similarity_score
                (Py.lower artist_name) (Py.lower (SearchResult.artist_name r)))%Q.
Proof.
  unfold confident, threshold. cbn zeta.
  rewrite andb_true_iff, !negb_true_iff.
  assert (Hgt : forall x y : Q, Qle_bool x y = false ↔ (y < x)%Q).
  { intros x y. rewrite <- not_true_iff_false, Qle_bool_iff.
    split; [apply Qnot_le_lt | apply Qlt_not_le]. }
  by rewrite !Hgt.
Qed.

(** C9.  With validated names and the candidates the search returned:
    a candidate is confident exactly when its title similarity and its
    artist similarity both exceed 0.7; resolution goes on with the first
    confident candidate in search order; when no candidate is confident it
    goes on with the first candidate of the search; and when the search
    returned no candidate it fails with the not-found error. *)
Theorem find_and_fetch_song_best_match
    (song_name artist_name song artist : string) (now1 now2 : Z)
    (results : list SearchResult.t) :
  InputValidator.validate_song_name song_name = Ok song ->
  InputValidator.validate_artist_name artist_name = Ok artist ->
  search_songs (song ++ " " ++ artist) 10 = Ok results ->
  let resolve :=
    find_and_fetch_song search_songs get_song_details scrape_lyrics
      song_name artist_name now1 now2 in
  let go_on_with best :=
    fetch_song get_song_details scrape_lyrics song artist
      (song ++ " " ++ artist) best now1 now2 in
  (forall r, confident song artist r = true ↔
     (7 # 10 < Similarity._similarity_score
                 (Py.lower song) (Py.lower (SearchResult.title r)))%Q
     ∧ (7 # 10 < Similarity._similarity_score
                   (Py.lower artist) (Py.lower (SearchResult.artist_name r)))%Q)
  ∧ (forall pre r post,
       results = (pre ++ r :: post)%list ->
       Forall (fun x => confident song artist x = false) pre ->
       confident song artist r = true ->
       resolve = go_on_with r)
  ∧ (forall first rest,
       results = first :: rest ->
       Forall (fun x => confident song artist x = false) results ->
       resolve = go_on_with first)
  ∧ (results = [] -> resolve = Raise (LyricsNotFoundError song artist)).
Proof.
  intros Hs Ha Hq resolve go_on_with.
  assert (Hres : resolve =
    match results with
    | [] => Raise (LyricsNotFoundError song artist)
    | first :: _ => go_on_with (best_match song artist results first)
    end).
  { subst resolve go_on_with. unfold find_and_fetch_song.
    rewrite Hs. cbn [mbind result_bind]. rewrite Ha. cbn [mbind result_bind].
    rewrite Hq. reflexivity. }
  split; [intros r; apply confident_iff|].
  split; [|split].
  - intros pre r post -> Hpre Hr. rewrite Hres.
    assert (Hfind : List.find (confident song artist) (pre ++ r :: post)%list = Some r)
      by (by apply find_first_true).
    unfold best_match. rewrite Hfind.
    destruct pre; reflexivity.
  - intros first rest -> Hall. rewrite Hres.
    unfold best_match. by rewrite (find_none_of_all_false _ _ Hall).
  - intros ->. by rewrite Hres.
Qed.

End ResolveFacts.

(** A search that returns two candidates for "Hello" by "Adele": the
    second one matches title and artist, and is chosen. *)
Lemma find_and_fetch_song_best_match_witness :
  let r1 := SearchResult.mk 1 "Hello Goodbye" "The Beatles" "u1" None None in
  let r2 := SearchResult.mk 2 "Hello" "Adele" "u2" None None in
  let search := fun (_ : string) (_ : Z) => Ok [r1; r2] in
  let details := fun (_ : Z) => Raise GeniusAPIError in
  let scrape := fun (_ : option string) => Raise NetworkError in
  Genius.find_and_fetch_song search details scrape "Hello" "Adele" 0 0
  = Genius.fetch_song details scrape "Hello" "Adele" "Hello Adele" r2 0 0.
Proof.
  intros r1 r2 search details scrape.
  destruct (find_and_fetch_song_best_match search details scrape
              "Hello" "Adele" "Hello" "Adele" 0 0 [r1; r2])
    as (_ & H & _); [reflexivity | reflexivity | reflexivity |].
  apply (H [r1] r2 []); [reflexivity | | vm_compute; reflexivity].
  constructor; [vm_compute; reflexivity | constructor].
Defined.

(** ** Success rate of a history *)

Section HistoryFacts.
Import Session.

Lemma filter_length_le {A : Type} (f : A -> bool) (l : list A) :
  (length (List.filter f l) <= length l)%nat.
Proof.
  induction l as [|x l IH]; cbn; [lia|]. destruct (f x); cbn; lia.
Qed.

Lemma float_bound_gt_1 : 1 < 2 ^ 1024 - 2 ^ 970.
Proof. by vm_compute. Qed.

(** The division of a count by a total that is at least the count and is
    not zero returns the quotient, which lies in [0,1]. *)
Lemma truediv_counts (n t : nat) :
  (n <= t)%nat -> (0 < t)%nat ->
  PyNum.truediv (Z.of_nat n) (Z.of_nat t)
  = Ok (inject_Z (Z.of_nat n) / inject_Z (Z.of_nat t))%Q
  ∧ (0 <= inject_Z (Z.of_nat n) / inject_Z (Z.of_nat t) <= 1)%Q.
Proof.
  intros Hn Ht. split.
  - unfold PyNum.truediv.
    destruct (Z.eqb_spec (Z.of_nat t) 0) as [E|_]; [lia|].
    pose proof float_bound_gt_1 as Hb.
    set (bound := 2 ^ 1024 - 2 ^ 970) in *.
    destruct (Z.ltb_spec (Z.abs (Z.of_nat n)) (bound * Z.abs (Z.of_nat t))) as [_|H];
      [done|nia].
  - assert (Hpos : (0 < inject_Z (Z.of_nat t))%Q)
      by (unfold Qlt; cbn; lia).
    split.
    + apply Qle_shift_div_l; [exact Hpos|].
      rewrite Qmult_0_l. unfold Qle; cbn; lia.
    + apply Qle_shift_div_r; [exact Hpos|].
      rewrite Qmult_1_l. unfold Qle; cbn; lia.
Qed.

(** The success rate of every history, with the bounds it satisfies. *)
Lemma success_rate_value (h : AnalysisHistory) :
  success_rate h
  = Ok (match total_sessions h with
        | O => 0
        | S _ => inject_Z (Z.of_nat (successful_sessions_count h))
                 / inject_Z (Z.of_nat (total_sessions h))
        end)%Q.
Proof.
  unfold success_rate, total_sessions.
  destruct (sessions h) as [|s ss] eqn:Hs; [done|].
  rewrite <- Hs.
  assert (Hb : (successful_sessions_count h <= length (sessions h))%nat)
    by (unfold successful_sessions_count, get_successful_sessions;
        apply filter_length_le).
  assert (Ht : (0 < length (sessions h))%nat) by (rewrite Hs; cbn; lia).
  destruct (truediv_counts _ _ Hb Ht) as [-> _]. by rewrite Hs.
Qed.

(** C10.  [success_rate] returns on every history and never raises: for a
    history without sessions the guard answers 0 before the division is
    reached, where the division itself would raise [ZeroDivisionError];
    otherwise it is the number of successful sessions divided by the
    number of sessions; in both cases the value lies in [0,1]. *)
Theorem success_rate_total (h : AnalysisHistory) :
  (exists q : Q,
     success_rate h = Ok q
     ∧ (0 <= q <= 1)%Q
     ∧ (sessions h = [] -> q = 0%Q)
     ∧ (sessions h ≠ [] ->
        q = (inject_Z (Z.of_nat (successful_sessions_count h))
             / inject_Z (Z.of_nat (total_sessions h)))%Q))
  ∧ (sessions h = [] ->
     PyNum.truediv (Z.of_nat (successful_sessions_count h))
                   (Z.of_nat (total_sessions h))
     = Raise ZeroDivisionError).
Proof.
  split.
  - rewrite success_rate_value. eexists. split; [reflexivity|].
    assert (Hb : (successful_sessions_count h <= total_sessions h)%nat)
      by (unfold successful_sessions_count, get_successful_sessions;
          apply filter_length_le).
    pose proof (truediv_counts _ _ Hb) as Hq.
    unfold total_sessions in *. revert Hq.
    destruct (sessions h) as [|s ss]; cbn [length]; intros Hq.
    + split; [split; discriminate|]. by split.
    + destruct Hq as [_ Hq]; [lia|]. split; [exact Hq|]. by split.
  - intros Hs. unfold successful_sessions_count, get_successful_sessions,
      total_sessions. by rewrite Hs.
Qed.

End HistoryFacts.

(** ** Analysis sessions *)

Section SessionFacts.
Import Session.

Lemma run_snoc (ops : list op) (o : op) (s : AnalysisSession) :
  run (ops ++ [o])%list s = apply_op (run ops s) o.
Proof. unfold run. by rewrite fold_left_app. Qed.

(** C5 (as the code has it).  The session has no guard on its terminal
    states: each of [mark_completed], [mark_failed] and [mark_cached]
    applies from every status and overwrites status, result and error
    message, so after any sequence of these operations the session is in
    the state set by the last one: Completed or Cached with the given
    result and no error, or Failed with the given message and no result. *)
Theorem session_last_operation_wins (s : AnalysisSession) (ops : list op) (o : op) :
  let s' := run (ops ++ [o])%list s in
  status s' = target o
  ∧ is_terminal (status s') = true
  ∧ match o with
    | MarkCompleted _ r | MarkCached _ r =>
        analysis_result s' = Some r ∧ error_message s' = None
    | MarkFailed _ msg =>
        analysis_result s' = None ∧ error_message s' = Some msg
    end.
Proof.
  cbn zeta. rewrite run_snoc. destruct o; cbn; auto.
Qed.

End SessionFacts.

(** C5 as stated fails: a session that was marked completed is in a
    terminal state, and [mark_failed] then changes its status, drops its
    result and sets an error message. *)
Lemma session_terminal_state_left :
  let s := Session.mark_completed 1 sample_result
             (Session.AnalysisSession_new "s1" sample_song 0) in
  let s' := Session.run [Session.MarkFailed 2 "timeout"] s in
  Session.is_terminal (Session.status s) = true
  ∧ Session.status s' ≠ Session.status s
  ∧ Session.analysis_result s' ≠ Session.analysis_result s
  ∧ Session.error_message s' ≠ Session.error_message s.
Proof. cbn. repeat split; discriminate. Qed.

(** ** Rate limiter *)

Section RateLimiterFacts.
Import RateLimiter.

Lemma first_best_min {A : Type} (f : A -> Z) (best : A) (xs : list A) :
  let r := PyOrd.first_best (fun x b => f x <? f b) best xs in
  (r = best ∨ In r xs) ∧ f r <= f best ∧ Forall (fun x => f r <= f x) xs.
Proof.
  revert best. induction xs as [|x xs IH]; intros best; cbn zeta.
  - cbn. split; [by left|]. split; [lia|constructor].
  - cbn [PyOrd.first_best].
    specialize (IH (if f x <? f best then x else best)). cbn zeta in IH.
    destruct IH as (Hin & Hle & Hall).
    destruct (Z.ltb_spec (f x) (f best)) as [Hlt|Hge].
    + split; [right; destruct Hin as [->|Hin]; [by left|by right]|].
      split; [lia|]. constructor; [lia|done].
    + split; [destruct Hin as [->|Hin]; [by left|right; by right]|].
      split; [lia|]. constructor; [lia|done].
Qed.

Lemma admissible_no_wait (now1 now2 : Z) (rl : t) :
  fst (can_make_request now1 rl) = true ->
  fst (time_until_next_request now1 now2 rl) = Ok 0%Q.
Proof.
  unfold time_until_next_request.
  destruct (can_make_request now1 rl) as [ok rl'] eqn:E. cbn [fst].
  by intros ->.
Qed.

(** C8.  A limiter for 3 requests per 60 seconds on which three requests
    were recorded, asked within 10 seconds of the first one, refuses and
    reports a waiting time in (0,60] seconds; asked once 60 seconds have
    passed since the oldest timestamp it admits again (also after the
    earlier refusal); and whenever a limiter admits, its waiting time
    is 0. *)
Theorem rate_limiter_three_per_minute (t1 t2 t3 now1 now2 later : Z) :
  t1 <= t2 <= t3 ->
  t3 <= now1 <= now2 ->
  now2 <= t1 + timedelta_seconds 10 ->
  timedelta_seconds 60 <= later - t1 ->
  let rl := record_request t3 (record_request t2 (record_request t1 (init 3 60))) in
  fst (can_make_request now1 rl) = false
  ∧ (exists d, fst (time_until_next_request now1 now2 rl) = Ok d
               ∧ (0 < d)%Q ∧ (d <= 60)%Q)
  ∧ fst (can_make_request later rl) = true
  ∧ fst (can_make_request later (snd (can_make_request now1 rl))) = true
  ∧ (forall (rl' : t) (n1 n2 : Z),
       fst (can_make_request n1 rl') = true ->
       fst (time_until_next_request n1 n2 rl') = Ok 0%Q).
Proof.
  intros H12 Hn Hten Hlater rl. unfold timedelta_seconds in Hten, Hlater.
  assert (Hkeep : forall t, t1 <= t <= now1 -> (now1 - t <? 60 * 1000000) = true).
  { intros t Ht. apply Z.ltb_lt. lia. }
  assert (Hcan : can_make_request now1 rl = (false, rl)).
  { unfold can_make_request, rl, record_request, init, timedelta_seconds.
    cbn [requests time_window max_requests app List.filter].
    rewrite !Hkeep by lia. reflexivity. }
  assert (Hdrop : (later - t1 <? 60 * 1000000) = false) by (apply Z.ltb_ge; lia).
  split; [by rewrite Hcan|]. split; [|split; [|split]].
  - unfold time_until_next_request. rewrite Hcan. cbn [fst].
    unfold rl, record_request, init, oldest, PyOrd.min_by, PyOrd.extremum.
    cbn [requests time_window app PyOrd.first_best].
    assert (Ht2 : (t2 <? t1) = false) by (apply Z.ltb_ge; lia).
    assert (Ht3 : (t3 <? t1) = false) by (apply Z.ltb_ge; lia).
    rewrite Ht2, Ht3. eexists. split; [reflexivity|].
    unfold total_seconds, timedelta_seconds, Qlt, Qle. cbn [Qnum Qden]. lia.
  - unfold can_make_request, rl, record_request, init, timedelta_seconds.
    cbn [requests time_window max_requests app List.filter fst].
    rewrite Hdrop.
    destruct (later - t2 <? 60 * 1000000), (later - t3 <? 60 * 1000000);
      reflexivity.
  - rewrite Hcan. cbn [snd].
    unfold can_make_request, rl, record_request, init, timedelta_seconds.
    cbn [requests time_window max_requests app List.filter fst].
    rewrite Hdrop.
    destruct (later - t2 <? 60 * 1000000), (later - t3 <? 60 * 1000000);
      reflexivity.
  - intros rl' n1 n2. apply admissible_no_wait.
Qed.

(** Requests at seconds 0, 4 and 9, a check at second 10, another at
    second 61. *)
Lemma rate_limiter_three_per_minute_witness :
  let rl :=
    record_request 9000000 (record_request 4000000 (record_request 0 (init 3 60))) in
  fst (can_make_request 10000000 rl) = false
  ∧ fst (time_until_next_request 10000000 10000000 rl) = Ok (50000000 # 1000000)
  ∧ fst (can_make_request 61000000 rl) = true.
Proof.
  destruct (rate_limiter_three_per_minute 0 4000000 9000000 10000000 10000000 61000000)
    as (H1 & _ & H3 & _); [vm_compute; intuition discriminate ..|].
  cbn zeta in *. split; [exact H1|]. split; [reflexivity|exact H3].
Defined.

End RateLimiterFacts.

(** ** Response cache *)

Section DictFacts.
Context {K V : Type} `{EqDecision K}.
Implicit Types (d : PyDict.dict K V) (k : K) (v : V).

Lemma dict_get_set_eq k v d : PyDict.get k (PyDict.set k v d) = Some v.
Proof.
  induction d as [|[k' v'] d IH]; cbn.
  - by rewrite decide_True.
  - destruct (decide (k' = k)) as [->|Hne]; cbn.
    + by rewrite decide_True.
    + by rewrite decide_False.
Qed.

Lemma dict_get_set_ne k k' v d :
  k' ≠ k -> PyDict.get k (PyDict.set k' v d) = PyDict.get k d.
Proof.
  intros Hne. induction d as [|[k0 v0] d IH]; cbn.
  - by rewrite decide_False.
  - destruct (decide (k0 = k')) as [->|Hne0]; cbn.
    + by rewrite !decide_False.
    + destruct (decide (k0 = k)); [done|apply IH].
Qed.

Lemma dict_get_del_eq k d : PyDict.get k (PyDict.del k d) = None.
Proof.
  induction d as [|[k' v'] d IH]; cbn; [done|].
  destruct (decide (k' = k)) as [->|Hne]; cbn; [done|].
  by rewrite decide_False.
Qed.

Lemma dict_set_keys_nodup k v d :
  NoDup (PyDict.keys d) -> NoDup (PyDict.keys (PyDict.set k v d)).
Proof.
  unfold PyDict.keys.
  assert (Hin : forall x d, x ∈ map fst (PyDict.set k v d) -> x = k ∨ x ∈ map fst d).
  { intros x d'. induction d' as [|[k' v'] d' IH]; cbn.
    - rewrite list_elem_of_singleton. by left.
    - destruct (decide (k' = k)) as [->|Hne]; cbn; rewrite !elem_of_cons.
      + intros [->|Hx]; [by left|right; by right].
      + intros [->|Hx]; [right; by left|].
        destruct (IH Hx) as [->|Hx']; [by left|right; by right]. }
  induction d as [|[k' v'] d IH]; cbn; intros Hnd.
  - apply NoDup_singleton.
  - apply NoDup_cons in Hnd as [Hk' Hnd].
    destruct (decide (k' = k)) as [->|Hne]; cbn.
    + by apply NoDup_cons.
    + apply NoDup_cons. split; [|by apply IH].
      intros Hx. destruct (Hin _ _ Hx) as [->|Hx']; [done|by apply Hk'].
Qed.

Lemma dict_del_keys_nodup k d :
  NoDup (PyDict.keys d) -> NoDup (PyDict.keys (PyDict.del k d)).
Proof.
  unfold PyDict.keys.
  assert (Hin : forall x d, x ∈ map fst (PyDict.del k d) -> x ∈ map fst d).
  { intros x d'. induction d' as [|[k' v'] d' IH]; cbn; [done|].
    destruct (decide (k' = k)); cbn; rewrite !elem_of_cons.
    - intros Hx. right. by apply IH.
    - intros [->|Hx]; [by left|right; by apply IH]. }
  induction d as [|[k' v'] d IH]; cbn; intros Hnd; [done|].
  apply NoDup_cons in Hnd as [Hk' Hnd].
  destruct (decide (k' = k)); cbn; [by apply IH|].
  apply NoDup_cons. split; [|by apply IH].
  intros Hx. by apply Hk', Hin.
Qed.

End DictFacts.

Section CacheFacts.
Import GeniusAPICache.
Context {V : Type}.
Implicit Types (c : GeniusAPICache.t V) (key : string) (value : V).

(** The key that [set] evicts belongs to an entry whose insertion
    timestamp is minimal. *)
Lemma oldest_key_minimal (d : PyDict.dict string (V * Z)) :
  d ≠ [] ->
  exists k v ts,
    oldest_key d = Some k ∧ In (k, (v, ts)) d
    ∧ Forall (fun e => ts <= snd (snd e)) d.
Proof.
  destruct d as [|e d]; [done|]. intros _.
  pose proof (first_best_min (fun e : string * (V * Z) => snd (snd e)) e d)
    as (Hin & Hle & Hall). cbn zeta in *.
  set (r := PyOrd.first_best _ e d) in *.
  exists (fst r), (fst (snd r)), (snd (snd r)).
  split; [reflexivity|]. split.
  - replace (r.1, ((r.2).1, (r.2).2)) with r by (by destruct r as [? [? ?]]).
    destruct Hin as [->|Hin]; [by left|by right].
  - constructor; [exact Hle|exact Hall].
Qed.

(** The dictionary of a cache never holds a key twice. *)
Lemma set_keeps_dict (now : Z) key value c c' :
  NoDup (PyDict.keys (_cache c)) -> set now key value c = Ok c' ->
  NoDup (PyDict.keys (_cache c')).
Proof.
  unfold set. intros Hnd.
  destruct (max_size c <=? Z.of_nat (length (_cache c))); cbn.
  - destruct (oldest_key (_cache c)); cbn; [|discriminate].
    intros [= <-]. cbn. by apply dict_set_keys_nodup, dict_del_keys_nodup.
  - intros [= <-]. cbn. by apply dict_set_keys_nodup.
Qed.

(** C7.  On a cache of positive capacity, [set] succeeds; a [get] on the
    same key no later than the TTL after the insertion returns the stored
    value and leaves the cache as it is; a [get] after the TTL has elapsed
    returns a miss and removes the entry; and a [set] on a cache at
    capacity first deletes the entry found by the search for the oldest
    insertion timestamp (no entry is older), then stores the new one,
    while below capacity nothing is deleted. *)
Theorem cache_put_get_expire_evict (now now' : Z) key value c :
  0 < max_size c ->
  exists c',
    set now key value c = Ok c'
    ∧ (now' - now <= timedelta_seconds (ttl_seconds c) ->
       get now' key c' = (Some value, c'))
    ∧ (timedelta_seconds (ttl_seconds c) < now' - now ->
       exists c'', get now' key c' = (None, c'')
                   ∧ PyDict.get key (_cache c'') = None)
    ∧ (max_size c <= Z.of_nat (length (_cache c)) ->
       exists k v ts,
         In (k, (v, ts)) (_cache c)
         ∧ Forall (fun e => ts <= snd (snd e)) (_cache c)
         ∧ oldest_key (_cache c) = Some k
         ∧ _cache c' = PyDict.set key (value, now) (PyDict.del k (_cache c)))
    ∧ (Z.of_nat (length (_cache c)) < max_size c ->
       _cache c' = PyDict.set key (value, now) (_cache c)).
Proof.
  intros Hcap.
  assert (Hset : exists d,
    set now key value c = Ok (with_cache c (PyDict.set key (value, now) d))
    ∧ (max_size c <= Z.of_nat (length (_cache c)) ->
       exists k v ts,
         In (k, (v, ts)) (_cache c)
         ∧ Forall (fun e => ts <= snd (snd e)) (_cache c)
         ∧ oldest_key (_cache c) = Some k ∧ d = PyDict.del k (_cache c))
    ∧ (Z.of_nat (length (_cache c)) < max_size c -> d = _cache c)).
  { unfold set. destruct (Z.leb_spec (max_size c) (Z.of_nat (length (_cache c))))
      as [Hfull|Hroom].
    - assert (Hne : _cache c ≠ []) by (destruct (_cache c); [cbn in Hfull; lia|done]).
      destruct (oldest_key_minimal _ Hne) as (k & v & ts & Hk & Hin & Hall).
      rewrite Hk. cbn. eexists. split; [reflexivity|]. split; [|lia].
      intros _. by exists k, v, ts.
    - cbn. eexists. split; [reflexivity|]. split; [lia|done]. }
  destruct Hset as (d & Hset & Hfull & Hroom).
  eexists. split; [exact Hset|].
  assert (Hget : PyDict.get key (PyDict.set key (value, now) d) = Some (value, now))
    by apply dict_get_set_eq.
  split; [|split; [|split]].
  - intros Hfresh. unfold get. cbn [_cache ttl_seconds with_cache]. rewrite Hget.
    destruct (Z.ltb_spec (timedelta_seconds (ttl_seconds c)) (now' - now)); [lia|done].
  - intros Hold. unfold get. cbn [_cache ttl_seconds with_cache]. rewrite Hget.
    destruct (Z.ltb_spec (timedelta_seconds (ttl_seconds c)) (now' - now)); [|lia].
    eexists. split; [reflexivity|]. cbn. apply dict_get_del_eq.
  - intros H. destruct (Hfull H) as (k & v & ts & ? & ? & ? & ->).
    exists k, v, ts. by cbn.
  - intros H. cbn. by rewrite (Hroom H).
Qed.

End CacheFacts.

(** A cache for two entries with a TTL of one hour that holds "a"
    (inserted at second 1) and "b" (inserted at second 2): inserting "c" at
    second 3 evicts "a"; "c" is read back at once and is gone after the
    hour. *)
Lemma cache_put_get_expire_evict_witness :
  let c := GeniusAPICache.mk 2 3600 [("a", (1, 1000000)); ("b", (2, 2000000))] in
  exists c',
    GeniusAPICache.set 3000000 "c" 3 c = Ok c'
    ∧ GeniusAPICache._cache c' = [("b", (2, 2000000)); ("c", (3, 3000000))]
    ∧ GeniusAPICache.get 3000000 "c" c' = (Some 3, c').
Proof.
  intros c.
  destruct (cache_put_get_expire_evict 3000000 3000000 "c" 3 c)
    as (c' & Hset & Hget & _ & Hevict & _); [reflexivity|].
  exists c'. split; [exact Hset|]. split.
  - destruct Hevict as (k & v & ts & _ & _ & Hk & ->); [vm_compute; discriminate|].
    injection Hk as <-. reflexivity.
  - apply Hget. vm_compute. discriminate.
Defined.

(** ** Construction of an analysis result *)

Lemma bind_Ok {A B : Type} (m : result A) (k : A -> result B) (b : B) :
  (m ≫= k) = Ok b -> exists a, m = Ok a ∧ k a = Ok b.
Proof. destruct m as [a|e]; [by exists a|discriminate]. Qed.

Section RoundFacts.
Import PyNum.

Lemma round_half_even_between (n : Z) (d : positive) (a b : Z) :
  a * Z.pos d <= n <= b * Z.pos d -> a <= round_half_even n d <= b.
Proof.
  intros [Ha Hb]. unfold round_half_even.
  pose proof (Z.div_mod n (Z.pos d) ltac:(lia)) as Hdm.
  pose proof (Z.mod_pos_bound n (Z.pos d) ltac:(lia)) as Hm.
  set (f := n / Z.pos d) in *. set (m := n mod Z.pos d) in *.
  assert (a <= f) by nia.
  assert (f <= b) by nia.
  assert (0 < m -> f + 1 <= b) by nia.
  destruct (Z.ltb_spec (2 * m) (Z.pos d)); [lia|].
  destruct (Z.ltb_spec (Z.pos d) (2 * m)); [lia|].
  destruct (Z.even f); lia.
Qed.


(** [round(x, 2)] of a value in [0,100] is a number of hundredths in
    [0,100]. *)
Lemma round2_score (q : Q) :
  (0 <= q)%Q -> (q <= 100)%Q ->
  (0 <= round q 2 <= 100)%Q ∧ exists k : Z, round q 2 = k # 100.
Proof.
  unfold Qle. cbn [Qnum Qden]. intros H0 H100.
  change (round q 2) with (round_half_even (Qnum q * 100) (Qden q) # 100).
  pose proof (round_half_even_between (Qnum q * 100) (Qden q) 0 10000
                ltac:(lia)) as Hr.
  split; [|by eexists]. unfold Qle. cbn [Qnum Qden]. lia.
Qed.

(** [round(x, 3)] of a value in [0,1] is a number of thousandths in
    [0,1]. *)
Lemma round3_confidence (q : Q) :
  (0 <= q)%Q -> (q <= 1)%Q ->
  (0 <= round q 3 <= 1)%Q ∧ exists k : Z, round q 3 = k # 1000.
Proof.
  unfold Qle. cbn [Qnum Qden]. intros H0 H1.
  change (round q 3) with (round_half_even (Qnum q * 1000) (Qden q) # 1000).
  pose proof (round_half_even_between (Qnum q * 1000) (Qden q) 0 1000
                ltac:(lia)) as Hr.
  split; [|by eexists]. unfold Qle. cbn [Qnum Qden]. lia.
Qed.

Lemma fle_range (lo hi : Q) (x : pyfloat) :
  fle (Fin lo) x && fle x (Fin hi) = true ->
  exists q, x = Fin q ∧ (lo <= q)%Q ∧ (q <= hi)%Q.
Proof.
  destruct x as [q| | |]; cbn; try discriminate.
  rewrite andb_true_iff, !Qle_bool_iff. intros [? ?]. by exists q.
Qed.

End RoundFacts.

Section ArgmaxFacts.
Context {A : Type}.

(** [max(xs, key=f)] returns an element whose key no other key exceeds. *)
Lemma first_best_max (f : A -> Q) (best : A) (xs : list A) :
  let r := PyOrd.first_best (fun x b => negb (Qle_bool (f x) (f b))) best xs in
  (r = best ∨ In r xs) ∧ (f best <= f r)%Q ∧ Forall (fun x => (f x <= f r)%Q) xs.
Proof.
  revert best. induction xs as [|x xs IH]; intros best; cbn zeta.
  - cbn. split; [by left|]. split; [apply Qle_refl|constructor].
  - cbn [PyOrd.first_best].
    specialize (IH (if negb (Qle_bool (f x) (f best)) then x else best)).
    cbn zeta in IH. destruct IH as (Hin & Hle & Hall).
    destruct (Qle_bool (f x) (f best)) eqn:E; cbn [negb] in *.
    + apply Qle_bool_iff in E.
      split; [destruct Hin as [->|Hin]; [by left|right; by right]|].
      split; [done|]. constructor; [|done]. by eapply Qle_trans.
    + assert (f best < f x)%Q as Hlt.
      { apply Qnot_le_lt. intros Hc. apply Qle_bool_iff in Hc. congruence. }
      split; [right; destruct Hin as [->|Hin]; [by left|by right]|].
      split; [|by constructor].
      eapply Qle_trans; [apply Qlt_le_weak, Hlt|done].
Qed.

Lemma max_by_spec (f : A -> Q) (xs : list A) (r : A) :
  PyOrd.max_by f xs = Some r ->
  In r xs ∧ Forall (fun x => (f x <= f r)%Q) xs.
Proof.
  destruct xs as [|x xs]; [discriminate|].
  unfold PyOrd.max_by, PyOrd.extremum. intros [= <-].
  pose proof (first_best_max f x xs) as (Hin & Hle & Hall). cbn zeta in *.
  split; [destruct Hin as [->|Hin]; [by left|by right]|].
  by constructor.
Qed.

End ArgmaxFacts.

Section ResultFacts.
Import PyNum Emotion.
Variable float_of_str : string -> option pyfloat.

Lemma EmotionScore_new_ok (c : EmotionCategory) (x : pyfloat) (s : EmotionScore) :
  EmotionScore_new c x None None = Ok s -> score_entry_ok (c, s).
Proof.
  unfold EmotionScore_new.
  destruct (fle (Fin 0) x && fle x (Fin 100)) eqn:E; [|discriminate].
  apply fle_range in E as (q & -> & H0 & H100). cbn. intros [= <-].
  split; [done|]. cbn [snd score]. by apply round2_score.
Qed.

Lemma build_scores_ok api (cats : list EmotionCategory) d :
  build_scores float_of_str api cats = Ok d ->
  PyDict.keys d = cats ∧ Forall score_entry_ok d.
Proof.
  revert d. induction cats as [|c cats IH]; intros d; cbn.
  - intros [= <-]. by split.
  - destruct (float float_of_str _) as [x|]; [|discriminate]. cbn.
    destruct (EmotionScore_new c x None None) as [s|] eqn:Es; [|discriminate]. cbn.
    destruct (build_scores float_of_str api cats) as [d'|]; [|discriminate]. cbn.
    intros [= <-]. destruct (IH d' eq_refl) as [Hk Hall].
    split; [unfold PyDict.keys in *; cbn; by rewrite Hk|].
    constructor; [by apply (EmotionScore_new_ok c x)|done].
Qed.

Lemma validate_confidence_score_ok (v : pyval) (q : Q) :
  validate_confidence_score float_of_str v = Ok q ->
  (0 <= q <= 1)%Q ∧ exists k : Z, q = k # 1000.
Proof.
  unfold validate_confidence_score.
  destruct (float float_of_str v) as [x|e]; cbn [mbind result_bind].
  - destruct (fle (Fin 0) x && fle x (Fin 1)) eqn:E; [|discriminate].
    apply fle_range in E as (q' & -> & H0 & H1). intros [= <-].
    by apply round3_confidence.
  - destruct e; discriminate.
Qed.

(** The constructor does not look at the dominant category it is given
    beyond comparing it with the computed one. *)
Lemma claimed_dominant_ignored scores (claimed claimed' : EmotionCategory)
    (conf summary : pyval) (pt : option Q) (now : Z) :
  EmotionAnalysisResult_new float_of_str scores claimed conf summary pt now
  = EmotionAnalysisResult_new float_of_str scores claimed' conf summary pt now.
Proof.
  unfold EmotionAnalysisResult_new.
  destruct (validate_confidence_score float_of_str conf); [|done]. cbn.
  destruct (negb _); [done|].
  destruct (get_dominant_emotion scores) as [actual|]; [|done].
  by destruct (decide (claimed = actual)) as [->|], (decide (claimed' = actual)) as [->|].
Qed.

Lemma EmotionAnalysisResult_new_ok scores claimed conf summary pt now r :
  EmotionAnalysisResult_new float_of_str scores claimed conf summary pt now = Ok r ->
  emotion_scores r = scores
  ∧ ((0 <= overall_confidence r <= 1)%Q ∧ exists k : Z, overall_confidence r = k # 1000)
  ∧ get_dominant_emotion scores = Some (dominant_emotion r).
Proof.
  unfold EmotionAnalysisResult_new.
  destruct (validate_confidence_score float_of_str conf) as [q|] eqn:Ec; [|discriminate].
  cbn. destruct (negb _); [discriminate|].
  destruct (get_dominant_emotion scores) as [actual|]; [|discriminate].
  intros [= <-]. cbn. split; [done|].
  split; [by eapply validate_confidence_score_ok|].
  by destruct (decide (claimed = actual)) as [->|].
Qed.

(** C1.  Whenever an analysis result is constructed from a payload, it
    holds exactly the five categories (happiness, sadness, anger, fear,
    love, once each); every score lies in [0,100] and is a whole number of
    hundredths; the confidence lies in [0,1] and is a whole number of
    thousandths; the dominant category is the argmax of the scores (the
    first category whose score no other score exceeds); and the dominant
    category handed to the constructor has no influence on the outcome: a
    claimed category that disagrees is replaced, not rejected. *)
Theorem emotion_result_invariants api (pt : option Q) (now : Z) r :
  from_api_response float_of_str api pt now = Ok r ->
  PyDict.keys (emotion_scores r) = [HAPPINESS; SADNESS; ANGER; FEAR; LOVE]
  ∧ Forall score_entry_ok (emotion_scores r)
  ∧ (0 <= overall_confidence r <= 1)%Q
  ∧ (exists k : Z, overall_confidence r = k # 1000)
  ∧ get_dominant_emotion (emotion_scores r) = Some (dominant_emotion r)
  ∧ (exists s, In (dominant_emotion r, s) (emotion_scores r)
               ∧ Forall (fun e => (score (snd e) <= score s)%Q) (emotion_scores r))
  ∧ (forall claimed,
       EmotionAnalysisResult_new float_of_str (emotion_scores r) claimed
         (PyDict.get_default "confidence" (PFloat (Fin 0)) api)
         (PyDict.get_default "summary" PNone api) pt now = Ok r).
Proof.
  unfold from_api_response. intros H.
  apply bind_Ok in H as (scores & Eb & H).
  apply bind_Ok in H as (claimed_str & _ & H).
  apply bind_Ok in H as (claimed & _ & Hnew).
  destruct (EmotionAnalysisResult_new_ok _ _ _ _ _ _ _ Hnew) as (Hs & [Hc Hk] & Hd).
  destruct (build_scores_ok _ _ _ Eb) as [Hkeys Hall].
  rewrite Hs. repeat split; try done; try apply Hc.
  - unfold get_dominant_emotion in Hd.
    destruct (PyOrd.max_by _ scores) as [[c s]|] eqn:Em; [|discriminate].
    injection Hd as <-. apply max_by_spec in Em as [Hin Hmax].
    by exists s.
  - intros claimed'. rewrite <- Hnew. apply claimed_dominant_ignored.
Qed.

End ResultFacts.

(** A payload that claims "Sadness" as dominant while love has the
    highest score: the result is built, and its dominant category is
    love. *)
Lemma emotion_result_invariants_witness :
  let api := [("happiness", PyNum.PInt 10); ("love", PyNum.PFloat (PyNum.Fin (805 # 10)));
              ("dominant_emotion", PyNum.PStr "Sadness");
              ("confidence", PyNum.PFloat (PyNum.Fin (9 # 10)))] in
  exists r,
    Emotion.from_api_response (fun _ => None) api None 0 = Ok r
    ∧ Emotion.dominant_emotion r = Emotion.LOVE
    ∧ Emotion.get_dominant_emotion (Emotion.emotion_scores r)
      = Some (Emotion.dominant_emotion r).
Proof.
  intros api. eexists. split; [vm_compute; reflexivity|]. split; [reflexivity|].
  refine (proj1 (proj2 (proj2 (proj2 (proj2
    (emotion_result_invariants (fun _ => None) api None 0 _ _)))))).
  vm_compute. reflexivity.
Defined.

(** ** Fallback payload *)

Section FallbackFacts.
Import PyNum Emotion Groq.

Lemma prefix_iff (sub s : string) :
  String.prefix sub s = true ↔ exists post, s = sub ++ post.
Proof.
  revert sub. induction s as [|b s IH]; intros [|a sub]; simpl.
  - split; [by exists ""|done].
  - split; [done|intros [post [=]]].
  - split; [intros _; by exists (String b s)|done].
  - destruct (Ascii.ascii_dec a b) as [->|Hne].
    + rewrite IH. split; intros [post Hp]; exists post;
        [by rewrite Hp|by injection Hp].
    + split; [done|intros [post Hp]; injection Hp as Hab _; congruence].
Qed.

(** [Py.contains] is the substring test. *)
Lemma contains_iff (sub s : string) :
  Py.contains sub s = true ↔ exists pre post, s = pre ++ sub ++ post.
Proof.
  induction s as [|c s IH].
  - cbn [Py.contains]. rewrite orb_false_r, prefix_iff. split.
    + intros [post Hp]. by exists "", post.
    + intros (pre & post & Hp). destruct pre as [|? ?]; [|discriminate].
      by exists post.
  - cbn [Py.contains]. rewrite orb_true_iff, prefix_iff, IH. split.
    + intros [[post Hp]|(pre & post & Hp)].
      * by exists "", post.
      * exists (String c pre), post. simpl. by rewrite Hp.
    + intros (pre & post & Hp). destruct pre as [|c' pre].
      * left. by exists post.
      * right. exists pre, post. simpl in Hp. by injection Hp.
Qed.

Lemma any_in_iff (words : list string) (content_lower : string) :
  any_in words content_lower = true ↔
  exists word pre post, In word words ∧ content_lower = pre ++ word ++ post.
Proof.
  unfold any_in. rewrite existsb_exists. split.
  - intros (w & Hin & Hc). apply contains_iff in Hc as (pre & post & Hp).
    by exists w, pre, post.
  - intros (w & pre & post & Hin & Hp). exists w. split; [done|].
    apply contains_iff. by exists pre, post.
Qed.

(** C2 as stated fails: in the text "made" no token is a keyword of any
    category, yet the anger score is raised to 50 because "mad" occurs
    inside "made". *)
Lemma fallback_substring_not_token :
  forallb (fun c => negb (spec_token_hit (trigger_words c) "made")) all_categories = true
  ∧ PyDict.get "anger" (_create_fallback_response "made") = Some (PFloat (Fin 50)).
Proof. split; vm_compute; reflexivity. Qed.

(** C2 (as the code has it).  The fallback payload gives each category
    the baseline 20, raised by 30 exactly when one of the category's
    keywords occurs in the lower-cased text as a contiguous run of
    characters (inside a longer word or not); its dominant category is the
    first category of maximal score, its confidence is 0.6 and its summary
    is the fixed sentence followed by the dominant category.  For a text in
    which only keywords of love occur, the payload is
    {happiness 20, sadness 20, anger 20, fear 20, love 50}, dominant
    "love", confidence 0.6. *)
Theorem fallback_payload (content : string) :
  let payload := _create_fallback_response content in
  let hit c := any_in (trigger_words c) (Py.lower content) in
  (forall c, PyDict.get (value c) payload
             = Some (PFloat (Fin (if hit c then 20 + 30 else 20))))
  ∧ (forall c, hit c = true ↔
       exists word pre post,
         In word (trigger_words c) ∧ Py.lower content = pre ++ word ++ post)
  ∧ (exists d,
       PyDict.get "dominant_emotion" payload = Some (PStr (value d))
       ∧ PyDict.get "summary" payload = Some (PStr (FALLBACK_SUMMARY ++ value d))
       ∧ (forall c, implb (hit c) (hit d) = true)
       ∧ (forall c, (rank c < rank d)%nat -> hit c = false ∧ hit d = true))
  ∧ PyDict.get "confidence" payload = Some (PFloat (Fin (6 # 10)))
  ∧ (hit LOVE = true ->
     (forall c, c ≠ LOVE -> hit c = false) ->
     payload = [("happiness", PFloat (Fin 20)); ("sadness", PFloat (Fin 20));
                ("anger", PFloat (Fin 20)); ("fear", PFloat (Fin 20));
                ("love", PFloat (Fin (20 + 30)));
                ("dominant_emotion", PStr "love");
                ("confidence", PFloat (Fin (6 # 10)));
                ("summary", PStr (FALLBACK_SUMMARY ++ "love"))]).
Proof.
  cbn zeta. split; [|split; [|split; [|split]]].
  - intros c. unfold _create_fallback_response, fallback_scores, bump.
    destruct c; reflexivity.
  - intros c. apply any_in_iff.
  - unfold _create_fallback_response, fallback_scores, dominant_key, bump.
    cbn [trigger_words].
    destruct (any_in happiness_words (Py.lower content)) eqn:E1;
    destruct (any_in sadness_words (Py.lower content)) eqn:E2;
    destruct (any_in anger_words (Py.lower content)) eqn:E3;
    destruct (any_in fear_words (Py.lower content)) eqn:E4;
    destruct (any_in love_words (Py.lower content)) eqn:E5;
    match goal with
    | |- exists d, PyDict.get _ ?p = Some (PStr (value d)) ∧ _ =>
        let v := eval vm_compute in (PyDict.get "dominant_emotion" p) in
        match v with
        | Some (PStr "happiness") => exists HAPPINESS
        | Some (PStr "sadness") => exists SADNESS
        | Some (PStr "anger") => exists ANGER
        | Some (PStr "fear") => exists FEAR
        | Some (PStr "love") => exists LOVE
        end
    end;
    (split; [vm_compute; reflexivity|]); (split; [vm_compute; reflexivity|]);
    cbn [trigger_words]; rewrite ?E1, ?E2, ?E3, ?E4, ?E5;
    (split; [intros []; cbn [trigger_words];
             rewrite ?E1, ?E2, ?E3, ?E4, ?E5; reflexivity|]);
    intros []; cbn [rank trigger_words]; intros Hc; try lia;
    rewrite ?E1, ?E2, ?E3, ?E4, ?E5; by split.
  - reflexivity.
  - intros Hlove Hrest.
    pose proof (Hrest HAPPINESS ltac:(discriminate)) as H1.
    pose proof (Hrest SADNESS ltac:(discriminate)) as H2.
    pose proof (Hrest ANGER ltac:(discriminate)) as H3.
    pose proof (Hrest FEAR ltac:(discriminate)) as H4.
    cbn [trigger_words] in *.
    unfold _create_fallback_response, fallback_scores, dominant_key.
    rewrite H1, H2, H3, H4, Hlove. reflexivity.
Qed.

End FallbackFacts.

(** The text "I love you": only a keyword of love occurs in it. *)
Lemma fallback_payload_witness :
  Groq._create_fallback_response "I love you"
  = [("happiness", PyNum.PFloat (PyNum.Fin 20)); ("sadness", PyNum.PFloat (PyNum.Fin 20));
     ("anger", PyNum.PFloat (PyNum.Fin 20)); ("fear", PyNum.PFloat (PyNum.Fin 20));
     ("love", PyNum.PFloat (PyNum.Fin (20 + 30)));
     ("dominant_emotion", PyNum.PStr "love");
     ("confidence", PyNum.PFloat (PyNum.Fin (6 # 10)));
     ("summary", PyNum.PStr (Groq.FALLBACK_SUMMARY ++ "love"))].
Proof.
  apply (proj2 (proj2 (proj2 (proj2 (fallback_payload "I love you"))))).
  - vm_compute. reflexivity.
  - intros []; intros Hc; try (vm_compute; reflexivity). contradiction.
Defined.

(** ** Errors of the analysis entry point *)

Section AnalyzeFacts.
Import PyNum Emotion Groq.
Variable float_of_str : string -> option pyfloat.
Variable int_of_str : string -> option Z.
Variable json_loads : string -> result (PyDict.dict string pyval).
Variable session_post : string -> result response.

Lemma strip_empty_of_falsy (s : string) :
  Py.truthy s = false -> Py.strip s = "".
Proof. by destruct s. Qed.

Lemma guard_blank_iff (lyrics : string) :
  negb (Py.truthy lyrics) || negb (Py.truthy (Py.strip lyrics)) = true
  ↔ Py.strip lyrics = "".
Proof.
  split.
  - intros H. apply orb_true_iff in H as [H|H]; apply negb_true_iff in H.
    + by apply strip_empty_of_falsy.
    + by destruct (Py.strip lyrics).
  - intros ->. by rewrite orb_true_r.
Qed.

(** C3 (as the code has it).  [analyze_emotions] fails with
    [AnalysisError] without sending any request exactly when the lyrics
    are empty or white space only; for all other lyrics exactly one
    request is sent, with the prompt built from the stripped lyrics, and
    whatever fails afterwards leaves as one of [GroqAPIError],
    [NetworkError], [RateLimitError] or [AnalysisError]. *)
Theorem analyze_emotions_blank_lyrics (lyrics : string) (t0 t1 : Q) (now : Z) :
  let out :=
    analyze_emotions float_of_str int_of_str json_loads session_post
      lyrics t0 t1 now in
  (Py.strip lyrics = "" ↔ out = (Raise AnalysisError, []))
  ∧ (Py.strip lyrics ≠ "" ->
     snd out = [_create_analysis_prompt (Py.strip lyrics)])
  ∧ (forall e, fst out = Raise e -> reraised e = true).
Proof.
  cbn zeta. unfold analyze_emotions.
  destruct (negb (Py.truthy lyrics) || negb (Py.truthy (Py.strip lyrics))) eqn:G.
  - apply guard_blank_iff in G. split; [by split|]. split; [done|].
    cbn. by intros e [= <-].
  - assert (Hne : Py.strip lyrics ≠ "").
    { intros Hs. apply guard_blank_iff in Hs. congruence. }
    unfold _make_request.
    split; [split; [done|intros [= _ Hsent]; discriminate Hsent]|].
    split; [done|]. cbn [fst].
    intros e. match goal with |- context [match ?o with Ok _ => _ | Raise _ => _ end = _] =>
      destruct o as [r|e'] end; [discriminate|].
    destruct (reraised e') eqn:Er; intros [= <-]; done.
Qed.

(** A text without a brace pair, or one that [json.loads] rejects before
    and after the repairs, is answered by the fallback payload of the
    stripped text. *)
Lemma parse_falls_back (content : string) :
  content ≠ "" ->
  Rx.search_braces (Py.strip content) = None
  ∨ (exists json_str,
       Rx.search_braces (Py.strip content) = Some json_str
       ∧ json_loads json_str = Raise JSONDecodeError
       ∧ json_loads (_fix_json_format json_str) = Raise JSONDecodeError) ->
  _parse_analysis_response float_of_str json_loads (chat_response content)
  = Ok (_create_fallback_response (Py.strip content)).
Proof.
  intros Hne H.
  assert (Hbody : parse_body float_of_str json_loads (chat_response content)
    = if negb (Py.truthy content) then Raise AnalysisError
      else
        match Rx.search_braces (Py.strip content) with
        | None => Ok (_create_fallback_response (Py.strip content))
        | Some json_str =>
            match json_loads json_str with
            | Ok parsed_data => _ensure_required_fields float_of_str parsed_data
            | Raise JSONDecodeError =>
                match json_loads (_fix_json_format json_str) with
                | Ok parsed_data => _ensure_required_fields float_of_str parsed_data
                | Raise JSONDecodeError =>
                    Ok (_create_fallback_response (Py.strip content))
                | Raise e => Raise e
                end
            | Raise e => Raise e
            end
        end) by reflexivity.
  unfold _parse_analysis_response. rewrite Hbody.
  assert (Py.truthy content = true) as -> by (by destruct content).
  cbn [negb].
  destruct H as [->|(json_str & -> & -> & ->)]; reflexivity.
Qed.

(** An answer with status 401 leaves [analyze_emotions] as an
    [AnalysisError]: [AuthenticationError] is not among the exceptions
    that it raises again unchanged. *)
Lemma analyze_emotions_unauthorized (lyrics : string) (t0 t1 : Q) (now : Z)
    (r : response) :
  Py.strip lyrics ≠ "" ->
  session_post (_create_analysis_prompt (Py.strip lyrics)) = Ok r ->
  status_code r = 401 ->
  fst (analyze_emotions float_of_str int_of_str json_loads session_post
         lyrics t0 t1 now) = Raise AnalysisError.
Proof.
  intros Hne Hpost Hcode. unfold analyze_emotions.
  destruct (negb (Py.truthy lyrics) || negb (Py.truthy (Py.strip lyrics))) eqn:G.
  - by apply guard_blank_iff in G.
  - unfold _make_request. rewrite Hpost. cbn [mbind result_bind].
    rewrite Hcode. reflexivity.
Qed.

End AnalyzeFacts.

(** Lyrics of white space only: no request is sent. *)
Lemma analyze_emotions_blank_lyrics_witness :
  Groq.analyze_emotions (fun _ => None) (fun _ => None)
    (fun _ => Raise JSONDecodeError)
    (fun _ => Raise RequestsTimeout) "   " 0 1 0
  = (Raise AnalysisError, []).
Proof.
  apply (proj1 (analyze_emotions_blank_lyrics (fun _ => None) (fun _ => None)
                  (fun _ => Raise JSONDecodeError) (fun _ => Raise RequestsTimeout)
                  "   " 0 1 0)).
  reflexivity.
Defined.

(** C3 as stated fails: for lyrics that are not blank, a request is sent,
    the service answers with status 200 and a body without choices, and
    [analyze_emotions] fails with [AnalysisError]. *)
Lemma analyze_emotions_error_after_request :
  let post := fun _ : string =>
    Ok (Groq.mkResponse 200 (Ok (PyNum.PDict [])) true None) in
  let out :=
    Groq.analyze_emotions (fun _ => None) (fun _ => None)
      (fun _ => Raise JSONDecodeError) post "la la la" 0 1 0 in
  Py.strip "la la la" = "la la la"
  ∧ fst out = Raise AnalysisError
  ∧ length (snd out) = 1%nat.
Proof. cbv zeta. split; [reflexivity|]. split; vm_compute; reflexivity. Qed.

(** ** Lyrics extraction *)

Section ExtractionFacts.
Import Soup Rx Genius.

Lemma node_induction (P : node -> Prop) :
  (forall name attrs contents, Forall P contents -> P (Tag name attrs contents)) ->
  (forall s, P (NavigableString s)) ->
  (forall s, P (OtherString s)) ->
  P Decomposed ->
  forall n, P n.
Proof.
  intros HT HS HO HD. fix IH 1. intros [name attrs contents|s|s|].
  - apply HT. induction contents as [|c cs IHcs]; constructor; [apply IH|exact IHcs].
  - apply HS.
  - apply HO.
  - apply HD.
Qed.

Lemma alter_middle {A : Type} (f : A -> A) (pre : list A) (c : A) (post : list A) :
  alter f (length pre) (pre ++ c :: post)%list = (pre ++ f c :: post)%list.
Proof. induction pre as [|x pre IH]; [done|]. cbn. by f_equal. Qed.

Lemma destroy_gone (qs : list path) :
  fold_left destroy qs Decomposed = Decomposed.
Proof.
  induction qs as [|q qs IH]; [done|]. cbn [fold_left].
  unfold destroy at 2. by destruct q.
Qed.

(** Paths that start with the index of a child act on that child. *)
Lemma destroy_under_child name attrs (pre : list node) (c : node)
    (post : list node) (qs : list path) :
  fold_left destroy (map (cons (length pre)) qs) (Tag name attrs (pre ++ c :: post)%list)
  = Tag name attrs (pre ++ fold_left destroy qs c :: post)%list.
Proof.
  revert c. induction qs as [|q qs IH]; intros c; [done|].
  cbn [map fold_left]. unfold destroy at 2. cbn [replace].
  rewrite alter_middle. apply IH.
Qed.

Lemma destroy_children name attrs (cs pre : list node) :
  Forall (fun c => fold_left destroy (select unwanted c) c = prune c) cs ->
  fold_left destroy
    (select_children unwanted (select unwanted) (length pre) cs)
    (Tag name attrs (pre ++ cs)%list)
  = Tag name attrs
      (pre ++ map (fun c => if unwanted c then Decomposed else prune c) cs)%list.
Proof.
  intros Hcs. revert pre. induction Hcs as [|c cs Hc _ IH]; intros pre; [done|].
  cbn [select_children map]. rewrite !fold_left_app.
  assert (Hnext : forall c' : node,
            fold_left destroy
              (select_children unwanted (select unwanted) (S (length pre)) cs)
              (Tag name attrs (pre ++ c' :: cs)%list)
            = Tag name attrs
                (pre ++ c' :: map (fun c => if unwanted c then Decomposed
                                            else prune c) cs)%list).
  { intros c'. specialize (IH (pre ++ [c'])%list).
    rewrite length_app in IH. cbn [length] in IH.
    replace (length pre + 1)%nat with (S (length pre)) in IH by lia.
    by rewrite <- !app_assoc in IH. }
  destruct (unwanted c).
  - cbn [fold_left]. unfold destroy at 3. cbn [replace].
    rewrite alter_middle. cbn [replace].
    by rewrite destroy_under_child, destroy_gone.
  - cbn [fold_left]. by rewrite destroy_under_child, Hc.
Qed.

(** The loop that destroys the unwanted nodes of a container leaves the
    container pruned. *)
Lemma remove_unwanted_prune (n : node) : remove_unwanted n = prune n.
Proof.
  unfold remove_unwanted. fold destroy. induction n as [name attrs contents IH| | |]
    using node_induction; try done.
  cbn [select prune]. exact (destroy_children name attrs contents [] IH).
Qed.

Lemma unwanted_prune (n : node) : unwanted (prune n) = unwanted n.
Proof. by destruct n. Qed.

(** No unwanted node is left below a pruned node. *)
Lemma select_unwanted_prune (n : node) : select unwanted (prune n) = [].
Proof.
  induction n as [name attrs contents IH| | |] using node_induction; try done.
  cbn [prune select]. generalize O.
  induction IH as [|c cs Hc _ IHcs]; intros i; [done|].
  cbn [map select_children].
  destruct (unwanted c) eqn:Eu.
  - cbn. apply IHcs.
  - rewrite unwanted_prune, Eu, Hc. cbn. apply IHcs.
Qed.

Lemma append_empty_r (s : string) : s ++ "" = s.
Proof.
  induction s as [|c s IH]; [done|].
  change (String c (s ++ "") = String c s). by f_equal.
Qed.

Lemma append_assoc (a b c : string) : (a ++ b) ++ c = a ++ (b ++ c).
Proof.
  induction a as [|x a IH]; [done|].
  change (String x ((a ++ b) ++ c) = String x (a ++ (b ++ c))). by f_equal.
Qed.

Lemma concat_strings_app (l1 l2 : list string) :
  concat_strings (l1 ++ l2)%list = concat_strings l1 ++ concat_strings l2.
Proof.
  induction l1 as [|x l1 IH]; [done|].
  change (x ++ concat_strings (l1 ++ l2)%list
          = (x ++ concat_strings l1) ++ concat_strings l2).
  by rewrite IH, append_assoc.
Qed.

Lemma carried_snoc (texts : list string) (t : string) :
  carried (texts ++ [t])%list
  = carried texts ++ (if long_enough t then t ++ lf else "").
Proof.
  unfold carried. rewrite List.filter_app, List.map_app, concat_strings_app.
  f_equal. cbn [List.filter]. destruct (long_enough t); [|done].
  cbn [map concat_strings]. apply append_empty_r.
Qed.

Lemma visit_container_split (soup : node) (acc : string) (p : path) :
  visit_container (soup, acc) p
  = (fst (visit_container (soup, "") p), acc ++ appended soup p).
Proof.
  unfold visit_container, appended, candidate_text, long_enough.
  destruct (subtree p soup) as [[name attrs contents| | |]|]; simpl;
    try (by rewrite append_empty_r).
  destruct (Py.truthy _ && _); simpl; [done|by rewrite append_empty_r].
Qed.

Lemma visit_containers_noted (ps : list path) (soup : node) (acc : string)
    (texts : list string) :
  acc = carried texts ->
  let st := fold_left visit_container ps (soup, acc) in
  let nt := fold_left note_container ps (soup, texts) in
  fst st = fst nt ∧ snd st = carried (snd nt).
Proof.
  revert soup acc texts. induction ps as [|p ps IH]; intros soup acc texts Hacc.
  - by cbn.
  - cbn [fold_left]. rewrite visit_container_split.
    unfold note_container at 2. cbn [fst snd]. apply IH.
    rewrite carried_snoc, Hacc. reflexivity.
Qed.

Lemma visit_selectors_noted (sels : list (node -> bool)) (soup : node)
    (acc : string) (texts : list string) :
  acc = carried texts ->
  let st := fold_left visit_selector sels (soup, acc) in
  let nt := fold_left note_selector sels (soup, texts) in
  fst st = fst nt ∧ snd st = carried (snd nt).
Proof.
  revert soup acc texts. induction sels as [|sel sels IH]; intros soup acc texts Hacc.
  - by cbn.
  - cbn [fold_left].
    assert (H1 : fst (visit_selector (soup, acc) sel)
                 = fst (note_selector (soup, texts) sel)
                 ∧ snd (visit_selector (soup, acc) sel)
                   = carried (snd (note_selector (soup, texts) sel))).
    { unfold visit_selector, note_selector. cbn [fst].
      by apply visit_containers_noted. }
    destruct (visit_selector (soup, acc) sel) as [soup1 acc1].
    destruct (note_selector (soup, texts) sel) as [soup2 texts1].
    cbn [fst snd] in H1. destruct H1 as [<- H2]. by apply IH.
Qed.

(** *** Pages without nested containers *)

Lemma subtree_app (p q : path) (n : node) :
  subtree (p ++ q)%list n = subtree p n ≫= subtree q.
Proof.
  revert n. induction p as [|i p IH]; intros n; [done|].
  cbn [app subtree]. destruct n as [name attrs contents| | |]; try done.
  destruct (contents !! i); [apply IH|done].
Qed.

Lemma subtree_replace_same (p : path) (new n c : node) :
  subtree p n = Some c -> subtree p (replace p new n) = Some new.
Proof.
  revert n. induction p as [|i p IH]; intros n; [done|].
  cbn [subtree replace]. destruct n as [name attrs contents| | |]; try done.
  destruct (contents !! i) as [ci|] eqn:Ei; [|done]. intros Hc.
  cbn [subtree]. rewrite list_lookup_alter_eq, Ei. cbn. by apply IH.
Qed.

Lemma subtree_replace_apart (p p' : path) (new n : node) :
  (forall q, p' ≠ (p ++ q)%list) -> (forall q, p ≠ (p' ++ q)%list) ->
  subtree p' (replace p new n) = subtree p' n.
Proof.
  revert p' n. induction p as [|i p IH]; intros p' n H1 H2.
  - by destruct (H1 p').
  - destruct p' as [|j p']; [by destruct (H2 (i :: p))|].
    cbn [subtree replace]. destruct n as [name attrs contents| | |]; try done.
    cbn [subtree]. destruct (decide (i = j)) as [->|Hne].
    + rewrite list_lookup_alter_eq. destruct (contents !! j) as [cj|]; [|done].
      cbn. apply IH.
      * intros q Hq. apply (H1 q). cbn. by rewrite Hq.
      * intros q Hq. apply (H2 q). cbn. by rewrite Hq.
    + by rewrite list_lookup_alter_ne.
Qed.

Lemma shallow_div_attr_contains a sub : shallow (div_attr_contains a sub).
Proof. split; [done|by intros []]. Qed.

Lemma shallow_div_attr_equals a v : shallow (div_attr_equals a v).
Proof. split; [done|by intros []]. Qed.

Lemma lyrics_selectors_shallow sel :
  In sel lyrics_selectors -> shallow sel ∧ forall n, sel n = true -> lyric_container n = true.
Proof.
  unfold lyric_container, lyrics_selectors. cbn [In existsb].
  intros [<-|[<-|[<-|[<-|[]]]]];
    (split; [first [apply shallow_div_attr_contains|apply shallow_div_attr_equals]|]);
    intros n ->; by rewrite ?orb_true_r.
Qed.

Lemma shallow_replace sel (p : path) (new n : node) :
  shallow sel -> p ≠ [] -> sel (replace p new n) = sel n.
Proof.
  intros [Hs _] Hp. destruct p as [|i p]; [done|].
  destruct n; cbn [replace]; [apply Hs|done..].
Qed.

Lemma shallow_prune sel (n : node) : shallow sel -> sel (prune n) = sel n.
Proof. intros [Hs _]. destruct n; cbn [prune]; [apply Hs|done..]. Qed.

Lemma select_children_alter sel (f : node -> node) (cs : list node)
    (i k : nat) (ci : node) :
  cs !! i = Some ci -> sel (f ci) = sel ci -> select sel (f ci) = select sel ci ->
  select_children sel (select sel) k (alter f i cs)
  = select_children sel (select sel) k cs.
Proof.
  revert i k. induction cs as [|c cs IH]; intros i k Hi Hsel Hunder; [done|].
  destruct i as [|i].
  - injection Hi as ->. cbn [alter list_alter select_children].
    by rewrite Hsel, Hunder.
  - cbn [alter list_alter select_children]. f_equal. f_equal. by apply IH.
Qed.

Lemma select_replace sel (p : path) (new n c : node) :
  shallow sel -> p ≠ [] -> subtree p n = Some c ->
  sel new = sel c -> select sel new = select sel c ->
  select sel (replace p new n) = select sel n.
Proof.
  intros Hsh. revert n. induction p as [|i p IH]; intros n Hp Hc Hsel Hunder; [done|].
  cbn [subtree] in Hc. destruct n as [name attrs contents| | |]; try done.
  destruct (contents !! i) as [ci|] eqn:Ei; [|done].
  cbn [replace select]. apply (select_children_alter _ _ _ _ _ ci Ei).
  - destruct p as [|j p]; [by injection Hc as ->|]. by apply shallow_replace.
  - destruct p as [|j p]; [by injection Hc as ->|]. by apply IH.
Qed.

Lemma select_children_nil sel (under : node -> list path) (i : nat) (cs : list node) :
  select_children sel under i cs = [] ↔
  Forall (fun c => sel c = false ∧ under c = []) cs.
Proof.
  revert i. induction cs as [|c cs IH]; intros i; [by split|].
  cbn [select_children]. split.
  - intros H. apply app_eq_nil in H as [H1 H]. apply app_eq_nil in H as [H2 H3].
    constructor; [|by apply (IH (S i))].
    split; [by destruct (sel c)|by destruct (under c)].
  - intros H. apply Forall_cons in H as [[-> ->] H]. cbn. by apply IH.
Qed.

(** Matches are found at non-empty paths that lead to matching nodes. *)
Lemma select_children_sound sel (i : nat) (cs : list node) (p : path) :
  Forall (fun c => forall q, In q (select sel c) ->
                   q ≠ [] ∧ exists d, subtree q c = Some d ∧ sel d = true) cs ->
  In p (select_children sel (select sel) i cs) ->
  exists j q c, p = ((i + j)%nat :: q) ∧ cs !! j = Some c
                ∧ exists d, subtree q c = Some d ∧ sel d = true.
Proof.
  intros Hcs. revert i. induction Hcs as [|c cs Hc _ IH]; intros i; [done|].
  cbn [select_children]. rewrite !in_app_iff. intros [H|[H|H]].
  - destruct (sel c) eqn:Es; [|done]. destruct H as [<-|[]].
    exists O, [], c. rewrite Nat.add_0_r. by eauto.
  - apply in_map_iff in H as (q & <- & Hq). destruct (Hc q Hq) as (_ & d & Hd & Hs).
    exists O, q, c. rewrite Nat.add_0_r. by eauto.
  - destruct (IH (S i) H) as (j & q & c' & -> & Hj & Hd).
    exists (S j), q, c'. split; [f_equal; lia|]. by split.
Qed.

Lemma select_sound sel (n : node) (p : path) :
  In p (select sel n) ->
  p ≠ [] ∧ exists d, subtree p n = Some d ∧ sel d = true.
Proof.
  revert p. induction n as [name attrs contents IH| | |] using node_induction;
    intros p; try done.
  cbn [select]. intros H.
  destruct (select_children_sound sel O contents p IH H)
    as (j & q & c & -> & Hj & d & Hd & Hs).
  split; [done|]. exists d. cbn [subtree Nat.add]. by rewrite Hj.
Qed.

Lemma prune_idempotent (n : node) : prune (prune n) = prune n.
Proof.
  induction n as [name attrs contents IH| | |] using node_induction; try done.
  cbn [prune]. f_equal. rewrite map_map.
  induction IH as [|c cs Hc _ IHcs]; [done|]. cbn [map]. f_equal; [|done].
  destruct (unwanted c) eqn:Eu; [done|]. by rewrite unwanted_prune, Eu.
Qed.

Lemma prune_no_new_match sel (n : node) :
  shallow sel -> select sel n = [] -> select sel (prune n) = [].
Proof.
  intros Hsh. induction n as [name attrs contents IH| | |] using node_induction;
    try done.
  cbn [select prune]. rewrite !select_children_nil. intros Hn.
  induction IH as [|c cs Hc _ IHcs]; [done|].
  apply Forall_cons in Hn as [[Hs Hu] Hn]. cbn [map].
  constructor; [|by apply IHcs].
  destruct (unwanted c).
  - split; [|done]. destruct (sel Decomposed) eqn:E; [|done].
    by apply Hsh in E.
  - rewrite shallow_prune by done. split; [done|by apply Hc].
Qed.

Lemma flat_no_match_below (soup0 : node) (p : path) (c0 : node) sel :
  flat soup0 -> In sel lyrics_selectors ->
  subtree p soup0 = Some c0 -> lyric_container c0 = true ->
  select sel c0 = [].
Proof.
  intros Hflat Hin Hc0 Hlc.
  destruct (select sel c0) as [|q qs] eqn:E; [done|]. exfalso.
  assert (Hq : In q (select sel c0)) by (rewrite E; by left).
  apply select_sound in Hq as (Hne & d & Hd & Hs).
  apply (lyrics_selectors_shallow _ Hin) in Hs.
  by rewrite (Hflat p q c0 d Hc0 Hlc Hne Hd) in Hs.
Qed.

Lemma visit_container_flat (soup0 soup : node) sel (p : path) :
  flat soup0 -> reached soup0 soup ->
  In sel lyrics_selectors -> In p (select sel soup0) ->
  candidate_text soup p = pruned_text soup0 p
  ∧ reached soup0 (fst (visit_container (soup, "") p)).
Proof.
  intros Hflat [Hsel Hsub] Hin Hp.
  destruct (lyrics_selectors_shallow _ Hin) as [Hsh Hlc].
  apply select_sound in Hp as (Hne & c0 & Hc0 & Hs).
  pose proof (Hlc _ Hs) as Hlc0.
  assert (Htag : is_tag c0 = true) by (by apply Hsh).
  assert (Hc : exists c, subtree p soup = Some c ∧ is_tag c = true
                         ∧ prune c = prune c0).
  { destruct (Hsub p c0 Hc0 Hlc0) as [H|H]; eexists; (split; [exact H|]).
    - by split.
    - split; [by destruct c0|apply prune_idempotent]. }
  destruct Hc as (c & Hc & Htc & Hpc).
  unfold candidate_text, pruned_text, visit_container. rewrite Hc, Hc0.
  destruct c as [name attrs contents| | |]; try done.
  rewrite remove_unwanted_prune, Hpc. split; [done|]. cbn [fst].
  split.
  - intros sel' Hin'. rewrite <- (Hsel sel' Hin').
    destruct (lyrics_selectors_shallow _ Hin') as [Hsh' _].
    apply (select_replace sel' p _ _ _ Hsh' Hne Hc).
    + rewrite <- Hpc. by apply shallow_prune.
    + rewrite <- Hpc at 1.
      destruct (Hsub p c0 Hc0 Hlc0) as [H|H]; rewrite Hc in H; injection H as H.
      * rewrite H. rewrite (flat_no_match_below soup0 p c0 sel') by done.
        apply prune_no_new_match; [done|].
        by apply (flat_no_match_below soup0 p c0 sel').
      * by rewrite H, prune_idempotent.
  - intros p' c0' Hc0' Hlc0'.
    destruct (decide (p' = p)) as [->|Hpp].
    + rewrite Hc0 in Hc0'. injection Hc0' as <-. right.
      by apply (subtree_replace_same p _ soup _ Hc).
    + rewrite subtree_replace_apart; [by apply Hsub| |].
      * intros q ->. destruct q as [|x q]; [by rewrite app_nil_r in Hpp|].
        rewrite subtree_app, Hc0 in Hc0'. cbn in Hc0'.
        by rewrite (Hflat p (x :: q) c0 c0' Hc0 Hlc0 ltac:(done) Hc0') in Hlc0'.
      * intros q ->. destruct q as [|x q]; [by rewrite app_nil_r in Hpp|].
        rewrite subtree_app, Hc0' in Hc0. cbn in Hc0.
        by rewrite (Hflat p' (x :: q) c0' c0 Hc0' Hlc0' ltac:(done) Hc0) in Hlc0.
Qed.

Lemma note_containers_flat (soup0 : node) sel (ps : list path) (soup : node)
    (texts : list string) :
  flat soup0 -> In sel lyrics_selectors ->
  (forall p, In p ps -> In p (select sel soup0)) ->
  reached soup0 soup ->
  let nt := fold_left note_container ps (soup, texts) in
  reached soup0 (fst nt) ∧ snd nt = (texts ++ map (pruned_text soup0) ps)%list.
Proof.
  intros Hflat Hin. revert soup texts.
  induction ps as [|p ps IH]; intros soup texts Hps Hr.
  - cbn. by rewrite app_nil_r.
  - cbn zeta. cbn [fold_left].
    change (note_container (soup, texts) p)
      with (fst (visit_container (soup, "") p),
            (texts ++ [candidate_text soup p])%list).
    destruct (visit_container_flat soup0 soup sel p Hflat Hr Hin) as [Ht Hr'];
      [apply Hps; by left|].
    rewrite Ht.
    destruct (IH (fst (visit_container (soup, "") p))
                 (texts ++ [pruned_text soup0 p])%list) as [H1 H2];
      [intros q Hq; apply Hps; by right|done|].
    cbn zeta in H1, H2. split; [exact H1|]. rewrite H2.
    by rewrite <- app_assoc.
Qed.

Lemma note_selectors_flat (soup0 : node) (sels : list (node -> bool))
    (soup : node) (texts : list string) :
  flat soup0 -> (forall sel, In sel sels -> In sel lyrics_selectors) ->
  reached soup0 soup ->
  snd (fold_left note_selector sels (soup, texts))
  = (texts ++ flat_map (fun sel => map (pruned_text soup0) (select sel soup0)) sels)%list.
Proof.
  intros Hflat. revert soup texts.
  induction sels as [|sel sels IH]; intros soup texts Hsels Hr.
  - cbn. by rewrite app_nil_r.
  - cbn [fold_left flat_map].
    change (note_selector (soup, texts) sel)
      with (fold_left note_container (select sel soup) (soup, texts)).
    assert (Hin : In sel lyrics_selectors) by (apply Hsels; by left).
    destruct Hr as [Hsel Hsub]. rewrite (Hsel sel Hin).
    destruct (note_containers_flat soup0 sel (select sel soup0) soup texts
                Hflat Hin ltac:(done) (conj Hsel Hsub)) as [H1 H2].
    cbn zeta in H1, H2.
    destruct (fold_left note_container _ _) as [soup1 texts1].
    cbn [fst snd] in H1, H2. subst texts1.
    rewrite IH; [by rewrite <- app_assoc| |done].
    intros s' Hs'. apply Hsels. by right.
Qed.

Lemma select_children_complete sel (under : node -> list path) (cs : list node)
    (i j : nat) (c : node) (q : path) :
  cs !! j = Some c ->
  (q = [] ∧ sel c = true) ∨ In q (under c) ->
  In ((i + j)%nat :: q) (select_children sel under i cs).
Proof.
  revert i j. induction cs as [|c0 cs IH]; intros i j Hj Hq; [done|].
  cbn [select_children]. rewrite !in_app_iff. destruct j as [|j].
  - injection Hj as ->. rewrite Nat.add_0_r. destruct Hq as [[-> ->]|Hq].
    + left. by left.
    + right. left. by apply in_map.
  - right. right. replace (i + S j)%nat with (S i + j)%nat by lia. by apply IH.
Qed.

(** Every matching node below the root is found. *)
Lemma select_complete sel (n : node) (p : path) (d : node) :
  p ≠ [] -> subtree p n = Some d -> sel d = true -> In p (select sel n).
Proof.
  revert p. induction n as [name attrs contents IH| | |] using node_induction;
    intros p Hp Hd Hs; destruct p as [|j q]; try done.
  cbn [subtree] in Hd. destruct (contents !! j) as [c|] eqn:Ej; [|done].
  cbn [select]. apply (select_children_complete sel _ contents O j c q Ej).
  destruct q as [|x q]; [left; by injection Hd as ->|right].
  rewrite Forall_forall in IH. apply (IH c); [|done..].
  by eapply list_elem_of_lookup_2.
Qed.

Lemma all_nodes_subtree (P : node -> bool) (p : path) (n c : node) :
  all_nodes P n = true -> subtree p n = Some c -> P c = true.
Proof.
  revert n. induction p as [|i p IH]; intros n Hn Hc.
  - injection Hc as <-. destruct n; cbn in Hn; by apply andb_true_iff in Hn as [? _].
  - cbn [subtree] in Hc. destruct n as [name attrs contents| | |]; try done.
    destruct (contents !! i) as [ci|] eqn:Ei; [|done].
    cbn [all_nodes] in Hn. apply andb_true_iff in Hn as [_ Hn].
    rewrite forallb_forall in Hn. apply (IH ci); [|done].
    apply Hn, list_elem_of_In. by eapply list_elem_of_lookup_2.
Qed.

Lemma flat_check_sound (soup : node) : flat_check soup = true -> flat soup.
Proof.
  intros Hcheck p q c d Hc Hlc Hq Hd.
  pose proof (all_nodes_subtree _ p soup c Hcheck Hc) as H. cbn beta in H.
  rewrite Hlc in H. cbn [negb orb] in H.
  destruct (lyric_container d) eqn:Ed; [|done].
  pose proof (select_complete lyric_container c q d Hq Hd Ed) as Hin.
  by destruct (select lyric_container c).
Qed.

Lemma two_container_page_flat : flat two_container_page.
Proof. apply flat_check_sound. vm_compute. reflexivity. Qed.

(** On a page without nested containers the candidates are the matches
    in order, each read from the fetched page and pruned. *)
Lemma candidates_flat (soup : node) :
  flat soup -> candidates soup = matches_in_order soup.
Proof.
  intros Hflat. unfold candidates, matches_in_order.
  rewrite (note_selectors_flat soup lyrics_selectors soup [] Hflat);
    [done|done|].
  split; [done|]. intros p c0 H _. by left.
Qed.

(** C4 as stated fails: on the page with two lyric containers the text
    that goes to the clean-up is both candidates, one after the other, and
    not the first of them. *)
Lemma scrape_lyrics_concatenates_candidates :
  let first := "The river runs below the silver bridge at dawn," ++ lf
               ++ "and every lantern on the water fades away." in
  let second := "The morning finds the harbour quiet, all the sails are down." in
  candidates two_container_page = [first; second]
  ∧ spec_first_candidate two_container_page = first
  ∧ raw_lyrics_text two_container_page = first ++ lf ++ second ++ lf
  ∧ raw_lyrics_text two_container_page ≠ spec_first_candidate two_container_page.
Proof.
  cbv zeta. split; [vm_compute; reflexivity|].
  split; [vm_compute; reflexivity|]. split; [vm_compute; reflexivity|].
  vm_compute. discriminate.
Qed.

Section Scrape.
Variable fetch_soup : string -> result node.

(** C4 (as the code has it).  The selector loop visits the matches of
    each selector in priority order and carries to the clean-up every
    candidate text of more than 50 characters, each followed by a line
    feed, one after the other (when no candidate qualifies, the text of
    the fallback scan is carried instead).  A candidate is the text of a
    match once the loop has destroyed its advertisement, script and style
    nodes, after which none is left below it; on a page without nested
    containers the candidates are the matches of the first selector in
    document order, then those of the second, and so on, as the fetched
    page has them.  Extraction fails with the lyrics-not-found error when
    the carried text is empty or the cleaned text, stripped, has fewer
    than 20 characters, and returns the cleaned text otherwise. *)
Theorem scrape_lyrics_carries_all (genius_url : string) (soup : node) :
  genius_url ≠ "" ->
  fetch_soup genius_url = Ok soup ->
  let raw := raw_lyrics_text soup in
  let cleaned := _clean_lyrics raw in
  snd (gather soup) = carried (candidates soup)
  ∧ (carried (candidates soup) ≠ "" -> raw = carried (candidates soup))
  ∧ (forall c, remove_unwanted c = prune c ∧ select unwanted (prune c) = [])
  ∧ (flat soup -> candidates soup = matches_in_order soup)
  ∧ ((String.length (Py.strip cleaned) < 20)%nat ->
     scrape_lyrics fetch_soup (Some genius_url) = Raise (LyricsNotFoundError "" ""))
  ∧ (raw = "" ->
     scrape_lyrics fetch_soup (Some genius_url) = Raise (LyricsNotFoundError "" ""))
  ∧ (raw ≠ "" -> (20 <= String.length (Py.strip cleaned))%nat ->
     scrape_lyrics fetch_soup (Some genius_url) = Ok cleaned).
Proof.
  intros Hurl Hfetch raw cleaned.
  assert (Hg : snd (gather soup) = carried (candidates soup)).
  { unfold gather, candidates.
    by destruct (visit_selectors_noted lyrics_selectors soup "" [] eq_refl). }
  assert (Hscrape : scrape_lyrics fetch_soup (Some genius_url) =
    if negb (Py.truthy raw) then Raise (LyricsNotFoundError "" "")
    else if (String.length (Py.strip cleaned) <? 20)%nat
         then Raise (LyricsNotFoundError "" "") else Ok cleaned).
  { unfold scrape_lyrics, scrape_body. destruct genius_url; [done|].
    rewrite Hfetch. cbn [mbind result_bind]. fold raw.
    destruct (negb (Py.truthy raw)); [done|]. fold cleaned.
    by destruct (_ <? 20)%nat. }
  split; [exact Hg|]. split; [|split; [|split; [|split; [|split]]]].
  - intros Hne. subst raw. unfold raw_lyrics_text.
    destruct (gather soup) as [soup' text]. cbn [snd] in Hg. subst text.
    by destruct (carried (candidates soup)).
  - intros c. split; [apply remove_unwanted_prune|apply select_unwanted_prune].
  - apply candidates_flat.
  - intros Hshort. rewrite Hscrape. destruct (negb (Py.truthy raw)); [done|].
    by destruct (Nat.ltb_spec (String.length (Py.strip cleaned)) 20); [|lia].
  - intros Hraw. rewrite Hscrape, Hraw. done.
  - intros Hraw Hlong. rewrite Hscrape.
    destruct raw; [done|]. cbn [Py.truthy negb].
    by destruct (Nat.ltb_spec (String.length (Py.strip cleaned)) 20); [lia|].
Qed.

End Scrape.
End ExtractionFacts.

(** The page with two lyric containers, fetched from a song URL: it has
    no nested containers, both candidates reach the clean-up and the
    cleaned text is returned. *)
Lemma scrape_lyrics_carries_all_witness :
  let fetch := fun _ : string => Ok two_container_page in
  snd (Genius.gather two_container_page)
  = carried (Genius.candidates two_container_page)
  ∧ Genius.candidates two_container_page = matches_in_order two_container_page
  ∧ Genius.scrape_lyrics fetch (Some "https://genius.com/song")
    = Ok (Genius._clean_lyrics (Genius.raw_lyrics_text two_container_page)).
Proof.
  intros fetch.
  destruct (scrape_lyrics_carries_all fetch "https://genius.com/song"
              two_container_page) as (H1 & _ & _ & H4 & _ & _ & H7);
    [discriminate | reflexivity |].
  split; [exact H1|]. split; [exact (H4 two_container_page_flat)|].
  apply H7; vm_compute; [discriminate|lia].
Defined.

(** * Further properties of the code *)

(** ** Sorting *)

Section SortedFacts.
Context {A : Type}.
Implicit Types (l : list A) (before : A -> A -> bool).

Lemma insert_perm before (x : A) l :
  Permutation (x :: l) (PySorted.insert before x l).
Proof.
  induction l as [|y l IH]; cbn; [done|].
  destruct (before x y); [|done].
  rewrite perm_swap. by constructor.
Qed.

Lemma sorted_by_perm before l : Permutation l (PySorted.sorted_by before l).
Proof.
  induction l as [|x l IH]; cbn; [done|].
  rewrite <- insert_perm. by constructor.
Qed.

Lemma insert_head before (x : A) l :
  head (PySorted.insert before x l)
  = match head l with
    | None => Some x
    | Some y => if before x y then Some y else Some x
    end.
Proof. destruct l as [|y l]; cbn; [done|]. by destruct (before x y). Qed.

Lemma insert_sorted (R : A -> A -> Prop) before (x : A) l :
  (forall a b, before a b = true -> R b a) ->
  (forall a b, before a b = false -> R a b) ->
  (forall a b c, R a b -> R b c -> R a c) ->
  StronglySorted R l -> StronglySorted R (PySorted.insert before x l).
Proof.
  intros Ht Hf Htrans Hl.
  induction Hl as [|y sl Hsl IHsl Hy]; cbn [PySorted.insert].
  - repeat constructor.
  - destruct (before x y) eqn:E.
    + constructor; [done|].
      eapply Permutation_Forall; [apply insert_perm|].
      constructor; [by apply Ht|done].
    + constructor; [by constructor|].
      constructor; [by apply Hf|].
      eapply Forall_impl; [exact Hy|]. cbn. intros a Ha.
      eapply Htrans; [by apply Hf|done].
Qed.

Lemma sorted_by_sorted (R : A -> A -> Prop) before l :
  (forall a b, before a b = true -> R b a) ->
  (forall a b, before a b = false -> R a b) ->
  (forall a b c, R a b -> R b c -> R a c) ->
  StronglySorted R (PySorted.sorted_by before l).
Proof.
  intros Ht Hf Htrans. induction l as [|x l IH]; [constructor|].
  change (PySorted.sorted_by before (x :: l))
    with (PySorted.insert before x (PySorted.sorted_by before l)).
  by apply insert_sorted.
Qed.

(** Descending order of integer keys after the sort. *)
Lemma sorted_reverse_Z_sorted (key : A -> Z) l :
  StronglySorted (fun a b => key b <= key a) (PySorted.sorted_reverse_Z key l).
Proof.
  apply sorted_by_sorted; cbn.
  - intros a b H. apply Z.ltb_lt in H. lia.
  - intros a b H. apply Z.ltb_ge in H. lia.
  - intros; lia.
Qed.

(** Descending order of rational keys after the sort. *)
Lemma sorted_reverse_Q_sorted (key : A -> Q) l :
  StronglySorted (fun a b => (key b <= key a)%Q) (PySorted.sorted_reverse_Q key l).
Proof.
  apply sorted_by_sorted; cbn.
  - intros a b H. apply negb_true_iff in H. apply Qlt_le_weak, Qnot_le_lt.
    intros Hc. apply Qle_bool_iff in Hc. congruence.
  - intros a b H. apply negb_false_iff in H. by apply Qle_bool_iff.
  - intros a b c H1 H2. by eapply Qle_trans.
Qed.

(** The first element after the sort is the first maximal one. *)
Lemma first_best_step (key : A -> Q) (b y : A) (rest : list A) :
  let better := fun x best => negb (Qle_bool (key x) (key best)) in
  PyOrd.first_best better b (y :: rest)
  = let m := PyOrd.first_best better y rest in
    if better m b then m else b.
Proof.
  cbn zeta. revert b y. induction rest as [|z rest IH]; intros b y.
  - reflexivity.
  - change (PyOrd.first_best _ b (y :: z :: rest))
      with (PyOrd.first_best (fun x best => negb (Qle_bool (key x) (key best)))
              (if negb (Qle_bool (key y) (key b)) then y else b) (z :: rest)).
    rewrite IH. rewrite (IH y z).
    set (m' := PyOrd.first_best _ z rest). clearbody m'.
    destruct (Qle_bool (key y) (key b)) eqn:E1;
      destruct (Qle_bool (key m') (key y)) eqn:E2;
      destruct (Qle_bool (key m') (key b)) eqn:E3; cbn [negb];
      rewrite ?E1, ?E2, ?E3; cbn [negb]; try reflexivity; exfalso;
      repeat match goal with
      | H : Qle_bool _ _ = true |- _ => apply Qle_bool_iff in H
      | H : Qle_bool ?a ?b = false |- _ =>
          assert (b < a)%Q by (apply Qnot_le_lt; intros Hc;
                               apply Qle_bool_iff in Hc; congruence);
          clear H
      end; lra.
Qed.

Lemma sorted_reverse_Q_head (key : A -> Q) l :
  head (PySorted.sorted_reverse_Q key l) = PyOrd.max_by key l.
Proof.
  unfold PySorted.sorted_reverse_Q, PyOrd.max_by.
  induction l as [|x l IH]; [done|].
  cbn [PySorted.sorted_by foldr]. rewrite insert_head.
  change (foldr _ [] l) with (PySorted.sorted_by
    (fun x y => negb (Qle_bool (key y) (key x))) l).
  rewrite IH. destruct l as [|y rest]; [done|].
  cbn [PyOrd.extremum]. rewrite first_best_step. cbn zeta.
  by destruct (negb _).
Qed.

Lemma slice_to_length (n : Z) l :
  0 <= n -> length (PySorted.slice_to n l) = Nat.min (Z.to_nat n) (length l).
Proof.
  intros Hn. unfold PySorted.slice_to.
  destruct (Z.leb_spec 0 n); [|lia]. apply length_firstn.
Qed.

End SortedFacts.

Section SliceFacts.
Context {A : Type}.
Implicit Types (l : list A) (before : A -> A -> bool).

(** The sort is stable: elements that no [before] separates keep their
    order. *)
Lemma insert_filter before (p : A -> bool) (x : A) l :
  (forall a b, before a b = true -> p a = true -> p b = true -> False) ->
  List.filter p (PySorted.insert before x l) = List.filter p (x :: l).
Proof.
  intros Hsep. induction l as [|y l IH]; [done|].
  cbn [PySorted.insert]. destruct (before x y) eqn:E; [|done].
  cbn [List.filter] in *. rewrite IH.
  destruct (p x) eqn:Ex, (p y) eqn:Ey; try done.
  exfalso. by eapply Hsep.
Qed.

Lemma sorted_by_filter before (p : A -> bool) l :
  (forall a b, before a b = true -> p a = true -> p b = true -> False) ->
  List.filter p (PySorted.sorted_by before l) = List.filter p l.
Proof.
  intros Hsep. induction l as [|x l IH]; [done|].
  change (PySorted.sorted_by before (x :: l))
    with (PySorted.insert before x (PySorted.sorted_by before l)).
  rewrite insert_filter by done. cbn [List.filter]. by rewrite IH.
Qed.

Lemma filter_firstn_prefix (p : A -> bool) (n : nat) l :
  List.filter p (firstn n l) `prefix_of` List.filter p l.
Proof.
  exists (List.filter p (skipn n l)).
  by rewrite <- List.filter_app, firstn_skipn.
Qed.

Lemma sorted_app_le (R : A -> A -> Prop) (l1 l2 : list A) :
  StronglySorted R (l1 ++ l2)%list ->
  forall a b, In a l1 -> In b l2 -> R a b.
Proof.
  induction l1 as [|x l1 IH]; [by intros _ a b []|].
  cbn. intros Hs a b [<-|Ha] Hb.
  - apply StronglySorted_inv in Hs as [_ Hall].
    rewrite List.Forall_forall in Hall. apply Hall, in_or_app. by right.
  - apply StronglySorted_inv in Hs as [Hs _]. by apply IH.
Qed.

Lemma sorted_firstn (R : A -> A -> Prop) (n : nat) l :
  StronglySorted R l -> StronglySorted R (firstn n l).
Proof.
  intros Hs. revert n. induction Hs as [|x l Hs IH Hall]; intros [|n]; cbn;
    try constructor; [apply IH|].
  rewrite List.Forall_forall in *. intros y Hy. apply Hall.
  rewrite <- (firstn_skipn n l). apply in_or_app. by left.
Qed.

(** The first [n] elements of a sorted list: their number, their order,
    and what is left behind them. *)
Lemma slice_sorted (R : A -> A -> Prop) before (n : Z) l :
  (forall a b, before a b = true -> R b a) ->
  (forall a b, before a b = false -> R a b) ->
  (forall a b c, R a b -> R b c -> R a c) ->
  0 <= n ->
  let top := PySorted.slice_to n (PySorted.sorted_by before l) in
  length top = Nat.min (Z.to_nat n) (length l)
  ∧ StronglySorted R top
  ∧ (exists rest, Permutation (top ++ rest)%list l
       ∧ forall a b, In a top -> In b rest -> R a b).
Proof.
  intros Ht Hf Htrans Hn. cbn zeta. unfold PySorted.slice_to.
  destruct (Z.leb_spec 0 n); [|lia].
  pose proof (sorted_by_sorted R before l Ht Hf Htrans) as Hs.
  pose proof (sorted_by_perm before l) as Hp.
  split; [|split].
  - rewrite length_firstn. by rewrite <- (Permutation_length Hp).
  - by apply sorted_firstn.
  - exists (skipn (Z.to_nat n) (PySorted.sorted_by before l)). split.
    + by rewrite firstn_skipn.
    + apply sorted_app_le. by rewrite firstn_skipn.
Qed.

Lemma head_slice_to (n : Z) l : 1 <= n -> head (PySorted.slice_to n l) = head l.
Proof.
  intros Hn. unfold PySorted.slice_to. destruct (Z.leb_spec 0 n); [|lia].
  destruct (Z.to_nat n) as [|k] eqn:E; [lia|]. by destruct l.
Qed.

End SliceFacts.

(** ** Ranking of the emotions of a result *)

Section TopEmotionsFacts.
Import PyNum Emotion EmotionMethods.

(** X1.  [get_top_emotions(count)] for [count >= 1] returns
    [min(count, number of scores)] entries of the score dictionary in
    descending order of score; every entry left out scores no more than
    every entry returned; the first entry is the category that
    [get_dominant_emotion] computes; and entries with equal scores keep
    the order of the dictionary. *)
Theorem get_top_emotions_ranking (r : EmotionAnalysisResult) (count : Z) :
  1 <= count ->
  let top := get_top_emotions r count in
  length top = Nat.min (Z.to_nat count) (length (emotion_scores r))
  ∧ StronglySorted (fun a b => (score (snd b) <= score (snd a))%Q) top
  ∧ (exists rest, Permutation (top ++ rest)%list (emotion_scores r)
       ∧ forall a b, In a top -> In b rest -> (score (snd b) <= score (snd a))%Q)
  ∧ fst <$> head top = get_dominant_emotion (emotion_scores r)
  ∧ (forall q,
       List.filter (fun e => Qeq_bool (score (snd e)) q) top
       `prefix_of` List.filter (fun e => Qeq_bool (score (snd e)) q) (emotion_scores r)).
Proof.
  intros Hc. cbn zeta. unfold get_top_emotions, PySorted.sorted_reverse_Q.
  destruct (slice_sorted (fun a b => (score (snd b) <= score (snd a))%Q)
              (fun x y => negb (Qle_bool (score (snd y)) (score (snd x))))
              count (emotion_scores r)) as (Hlen & Hsorted & Hrest); try lia.
  { intros a b H. apply negb_true_iff in H. apply Qlt_le_weak, Qnot_le_lt.
    intros Hle. apply Qle_bool_iff in Hle. congruence. }
  { intros a b H. apply negb_false_iff in H. by apply Qle_bool_iff. }
  { intros a b c H1 H2. by eapply Qle_trans. }
  split; [done|]. split; [done|]. split; [done|]. split.
  - rewrite head_slice_to by done.
    unfold get_dominant_emotion.
    by rewrite <- (sorted_reverse_Q_head (fun e => score (snd e))).
  - intros q. unfold PySorted.slice_to. destruct (Z.leb_spec 0 count); [|lia].
    rewrite <- (sorted_by_filter
      (fun x y => negb (Qle_bool (score (snd y)) (score (snd x))))
      (fun e => Qeq_bool (score (snd e)) q) (emotion_scores r)).
    + apply filter_firstn_prefix.
    + intros a b Hlt Ha Hb. apply negb_true_iff in Hlt.
      apply Qeq_bool_iff in Ha, Hb.
      assert (Qle_bool (score (snd b)) (score (snd a)) = true); [|congruence].
      apply Qle_bool_iff. rewrite Ha, Hb. apply Qle_refl.
Qed.

End TopEmotionsFacts.

(** The three best of the sample result: love (50) first, then two of
    the categories with score 20. *)
Lemma get_top_emotions_ranking_witness :
  let top := EmotionMethods.get_top_emotions sample_result 3 in
  length top = 3%nat
  ∧ fst <$> head top = Emotion.get_dominant_emotion (Emotion.emotion_scores sample_result).
Proof.
  intros top.
  destruct (get_top_emotions_ranking sample_result 3) as (Hlen & _ & _ & Hhead & _);
    [lia|].
  split; [exact Hlen | exact Hhead].
Defined.

(** ** Scores of a constructed result *)

Section ScoreLookupFacts.
Import PyNum Emotion EmotionMethods.
Variable float_of_str : string -> option pyfloat.

Lemma dict_get_of_in {K V : Type} `{EqDecision K} (k : K) (v : V)
    (d : PyDict.dict K V) :
  NoDup (PyDict.keys d) -> In (k, v) d -> PyDict.get k d = Some v.
Proof.
  unfold PyDict.keys. induction d as [|[k' v'] d IH]; [done|].
  cbn. intros Hnd [Heq|Hin].
  - injection Heq as -> ->. by rewrite decide_True.
  - apply NoDup_cons in Hnd as [Hk' Hnd].
    destruct (decide (k' = k)) as [->|Hne]; [|by apply IH].
    exfalso. apply Hk'. apply list_elem_of_In.
    change k with (fst (k, v)). by apply in_map.
Qed.

Lemma dict_get_in {K V : Type} `{EqDecision K} (k : K) (v : V)
    (d : PyDict.dict K V) :
  PyDict.get k d = Some v -> In (k, v) d.
Proof.
  induction d as [|[k' v'] d IH]; [done|]. cbn.
  destruct (decide (k' = k)) as [->|Hne]; [intros [= ->]; by left|].
  intros H. right. by apply IH.
Qed.

(** X2.  On a result constructed from a payload no score lookup fails:
    [get_emotion_score] returns, for each of the five categories, a score
    in [0,100], and [dominant_score] returns a score that none of them
    exceeds. *)
Theorem constructed_result_scores api (pt : option Q) (now : Z) r :
  from_api_response float_of_str api pt now = Ok r ->
  (forall e, exists q, get_emotion_score r e = Ok q ∧ (0 <= q <= 100)%Q)
  ∧ exists top, dominant_score r = Ok top
      ∧ forall e q, get_emotion_score r e = Ok q -> (q <= top)%Q.
Proof.
  unfold from_api_response. intros H.
  apply bind_Ok in H as (scores & Eb & H).
  apply bind_Ok in H as (claimed_str & _ & H).
  apply bind_Ok in H as (claimed & _ & Hnew).
  destruct (EmotionAnalysisResult_new_ok _ _ _ _ _ _ _ _ Hnew) as (Hs & _ & Hd).
  destruct (build_scores_ok _ _ _ _ Eb) as [Hkeys Hall].
  assert (Hnd : NoDup (PyDict.keys scores)).
  { rewrite Hkeys. unfold all_categories.
    apply (bool_decide_unpack _). by vm_compute. }
  assert (Hget : forall e, exists s, PyDict.get e scores = Some s).
  { intros e.
    assert (He : In e (PyDict.keys scores)) by (rewrite Hkeys; destruct e; cbn; tauto).
    unfold PyDict.keys in He. apply in_map_iff in He as ([k s] & <- & Hin).
    exists s. by apply dict_get_of_in. }
  unfold dominant_score, get_emotion_score. rewrite Hs. split.
  - intros e. destruct (Hget e) as [s Es]. rewrite Es. exists (score s).
    split; [done|]. apply dict_get_in in Es.
    rewrite List.Forall_forall in Hall. by destruct (Hall _ Es) as (_ & Hrange & _).
  - unfold get_dominant_emotion in Hd.
    destruct (PyOrd.max_by _ scores) as [[c s]|] eqn:Em; [|discriminate].
    injection Hd as <-. apply max_by_spec in Em as [Hin Hmax].
    rewrite (dict_get_of_in _ _ _ Hnd Hin). exists (score s). split; [done|].
    intros e q. destruct (Hget e) as [s' Es]. rewrite Es. intros [= <-].
    apply dict_get_in in Es. rewrite List.Forall_forall in Hmax.
    apply (Hmax _ Es).
Qed.

End ScoreLookupFacts.

(** The payload of the earlier example: love scores 80.5 and is the
    dominant category. *)
Lemma constructed_result_scores_witness :
  let api := [("happiness", PyNum.PInt 10); ("love", PyNum.PFloat (PyNum.Fin (805 # 10)));
              ("dominant_emotion", PyNum.PStr "Sadness");
              ("confidence", PyNum.PFloat (PyNum.Fin (9 # 10)))] in
  exists r top,
    Emotion.from_api_response (fun _ => None) api None 0 = Ok r
    ∧ EmotionMethods.dominant_score r = Ok top
    ∧ forall e q, EmotionMethods.get_emotion_score r e = Ok q -> (q <= top)%Q.
Proof.
  intros api. eexists.
  destruct (constructed_result_scores (fun _ => None) api None 0 _ eq_refl)
    as (_ & top & Htop & Hmax).
  exists top. split; [reflexivity|]. split; [exact Htop | exact Hmax].
Defined.

(** ** Queries on the history *)

Section HistoryQueryFacts.
Import Session HistoryMethods.

Lemma find_split {A : Type} (f : A -> bool) (l : list A) :
  match List.find f l with
  | Some x => exists pre post,
      l = (pre ++ x :: post)%list ∧ f x = true ∧ Forall (fun y => f y = false) pre
  | None => Forall (fun y => f y = false) l
  end.
Proof.
  induction l as [|y l IH]; cbn; [constructor|].
  destruct (f y) eqn:Ey.
  - exists [], l. by repeat split.
  - destruct (List.find f l) as [x|].
    + destruct IH as (pre & post & -> & Hx & Hpre).
      exists (y :: pre), post. repeat split; [done|by constructor].
    + by constructor.
Qed.

(** X3.  [get_recent_sessions(count)] for [count >= 0] returns
    [min(count, number of sessions)] sessions, latest start first; every
    session left out started no later than every session returned; and
    sessions that started at the same instant keep the order in which
    they were added. *)
Theorem get_recent_sessions_order (h : AnalysisHistory) (count : Z) :
  0 <= count ->
  let recent := get_recent_sessions h count in
  length recent = Nat.min (Z.to_nat count) (total_sessions h)
  ∧ StronglySorted (fun a b => started_at b <= started_at a) recent
  ∧ (exists rest, Permutation (recent ++ rest)%list (sessions h)
       ∧ forall a b, In a recent -> In b rest -> started_at b <= started_at a)
  ∧ (forall t,
       List.filter (fun s => started_at s =? t) recent
       `prefix_of` List.filter (fun s => started_at s =? t) (sessions h)).
Proof.
  intros Hc. cbn zeta. unfold get_recent_sessions, PySorted.sorted_reverse_Z, total_sessions.
  destruct (slice_sorted (fun a b => started_at b <= started_at a)
              (fun x y => started_at x <? started_at y)
              count (sessions h)) as (Hlen & Hsorted & Hrest); try lia.
  split; [done|]. split; [done|]. split; [done|].
  intros t. unfold PySorted.slice_to. destruct (Z.leb_spec 0 count); [|lia].
  rewrite <- (sorted_by_filter (fun x y => started_at x <? started_at y)
                (fun s => started_at s =? t) (sessions h)).
  - apply filter_firstn_prefix.
  - intros a b Hlt Ha Hb. apply Z.ltb_lt in Hlt. apply Z.eqb_eq in Ha, Hb. lia.
Qed.

(** X4.  [get_session_by_song] compares titles and artist names after
    lower-casing both sides, so the answer depends only on the lower-cased
    query; it returns the session that was added first among those that
    match, and [None] exactly when no session matches. *)
Theorem get_session_by_song_first_match (h : AnalysisHistory)
    (song_title artist_name : string) :
  let matches := fun s =>
    Py.lower (SongData.title (SongData.metadata (song s))) = Py.lower song_title
    ∧ Py.lower (SongData.artist_name (SongData.metadata (song s))) = Py.lower artist_name in
  (forall song_title' artist_name',
     Py.lower song_title' = Py.lower song_title ->
     Py.lower artist_name' = Py.lower artist_name ->
     get_session_by_song h song_title' artist_name'
     = get_session_by_song h song_title artist_name)
  ∧ match get_session_by_song h song_title artist_name with
    | Some s => exists pre post,
        sessions h = (pre ++ s :: post)%list ∧ matches s
        ∧ Forall (fun x => ¬ matches x) pre
    | None => Forall (fun x => ¬ matches x) (sessions h)
    end.
Proof.
  cbn zeta.
  assert (Hiff : forall s, same_song song_title artist_name s = true ↔
    Py.lower (SongData.title (SongData.metadata (song s))) = Py.lower song_title
    ∧ Py.lower (SongData.artist_name (SongData.metadata (song s))) = Py.lower artist_name).
  { intros s. unfold same_song. by rewrite andb_true_iff, !String.eqb_eq. }
  assert (Hno : forall l, Forall (fun y => same_song song_title artist_name y = false) l ->
    Forall (fun x => ¬ (Py.lower (SongData.title (SongData.metadata (song x))) = Py.lower song_title
      ∧ Py.lower (SongData.artist_name (SongData.metadata (song x))) = Py.lower artist_name)) l).
  { intros l Hl. eapply Forall_impl; [exact Hl|].
    intros s Hs Hm. apply Hiff in Hm. congruence. }
  split.
  - intros t' a' Ht Ha. unfold get_session_by_song, same_song. by rewrite Ht, Ha.
  - unfold get_session_by_song.
    pose proof (find_split (same_song song_title artist_name) (sessions h)) as Hf.
    destruct (List.find _ (sessions h)) as [s|].
    + destruct Hf as (pre & post & Hl & Hs & Hpre).
      exists pre, post. split; [done|]. split; [by apply Hiff|by apply Hno].
    + by apply Hno.
Qed.

Lemma is_successful_apply_op (s : AnalysisSession) (o : op) :
  is_successful (apply_op s o)
  = match o with MarkCompleted _ _ => true | _ => false end.
Proof. by destruct o. Qed.

(** X5.  Adding a session to the history after one of the three marks:
    the history grows by one session; the session joins the successful ones
    exactly when the mark was [mark_completed] (a session marked cached
    carries a result but does not count as successful); the success rate
    is returned before and after, and it does not fall in the first case
    and does not rise in the two others;
    and the duration of the marked session is the time from its start to
    the mark. *)
Theorem history_add_marked_session (h : AnalysisHistory) (s : AnalysisSession) (o : op) :
  let s' := apply_op s o in
  let h' := add_session s' h in
  total_sessions h' = S (total_sessions h)
  ∧ get_successful_sessions h'
    = (get_successful_sessions h
       ++ match o with MarkCompleted _ _ => [s'] | _ => [] end)%list
  ∧ (exists q q' : Q,
       success_rate h = Ok q ∧ success_rate h' = Ok q'
       ∧ match o with
         | MarkCompleted _ _ => (q <= q')%Q
         | _ => (q' <= q)%Q
         end)
  ∧ match o with
    | MarkCompleted now _ | MarkFailed now _ | MarkCached now _ =>
        duration s' = Some (total_seconds (now - started_at s))
    end.
Proof.
  cbn zeta.
  assert (Hdur : match o with
    | MarkCompleted now _ | MarkFailed now _ | MarkCached now _ =>
        duration (apply_op s o) = Some (total_seconds (now - started_at s))
    end) by (by destruct o).
  assert (Hsucc : get_successful_sessions (add_session (apply_op s o) h)
    = (get_successful_sessions h
       ++ match o with MarkCompleted _ _ => [apply_op s o] | _ => [] end)%list).
  { unfold get_successful_sessions, add_session. cbn [sessions].
    rewrite List.filter_app. cbn [List.filter]. rewrite is_successful_apply_op.
    by destruct o. }
  assert (Htot : total_sessions (add_session (apply_op s o) h) = S (total_sessions h)).
  { unfold total_sessions, add_session. cbn. rewrite length_app. cbn. lia. }
  split; [done|]. split; [done|]. split; [|exact Hdur]. clear Hdur.
  pose proof (filter_length_le is_successful (sessions h)) as Hle.
  do 2 eexists. split; [apply success_rate_value|].
  split; [apply success_rate_value|].
  rewrite Htot. unfold successful_sessions_count.
  rewrite Hsucc, length_app. fold (total_sessions h) in Hle.
  set (a := length (get_successful_sessions h)) in *.
  assert (Ha : (a <= total_sessions h)%nat) by exact Hle.
  destruct (total_sessions h) as [|n].
  - assert (a = O) as -> by lia. destruct o; by vm_compute.
  - assert (Hn : (0 < inject_Z (Z.of_nat (S n)))%Q) by (unfold Qlt; cbn; lia).
    assert (Hn' : (0 < inject_Z (Z.of_nat (S (S n))))%Q) by (unfold Qlt; cbn; lia).
    destruct o; cbn [length].
    + apply Qle_shift_div_l; [exact Hn|].
      unfold Qdiv. rewrite <- Qmult_assoc, (Qmult_comm (/ _)), Qmult_assoc.
      apply Qle_shift_div_r; [exact Hn'|].
      unfold Qle, Qmult, inject_Z. cbn [Qnum Qden]. nia.
    + apply Qle_shift_div_l; [exact Hn'|].
      unfold Qdiv. rewrite <- Qmult_assoc, (Qmult_comm (/ _)), Qmult_assoc.
      apply Qle_shift_div_r; [exact Hn|].
      unfold Qle, Qmult, inject_Z. cbn [Qnum Qden]. nia.
    + apply Qle_shift_div_l; [exact Hn'|].
      unfold Qdiv. rewrite <- Qmult_assoc, (Qmult_comm (/ _)), Qmult_assoc.
      apply Qle_shift_div_r; [exact Hn|].
      unfold Qle, Qmult, inject_Z. cbn [Qnum Qden]. nia.
Qed.

End HistoryQueryFacts.

(** Two sessions of which the later one is asked for: it comes back
    alone. *)
Lemma get_recent_sessions_order_witness :
  let s1 := Session.AnalysisSession_new "a" sample_song 10 in
  let s2 := Session.AnalysisSession_new "b" sample_song 20 in
  let h := Session.mkHistory [s1; s2] 0 in
  length (HistoryMethods.get_recent_sessions h 1) = 1%nat
  ∧ HistoryMethods.get_recent_sessions h 1 = [s2].
Proof.
  intros s1 s2 h.
  destruct (get_recent_sessions_order h 1) as (Hlen & _); [lia|].
  split; [exact Hlen | reflexivity].
Defined.

(** ** Requests to the Genius API *)

Section GeniusRequestFacts.
Import RateLimiter GeniusRequest.
Variable int_of_str : string -> option Z.
Variable request : Type.
Variable session_get : request -> result response.

Lemma filter_filter_length {A : Type} (p q : A -> bool) (l : list A) :
  (length (List.filter p (List.filter q l)) <= length (List.filter q l))%nat.
Proof. apply filter_length_le. Qed.

Lemma filter_drops {A : Type} (p : A -> bool) (x : A) (l : list A) :
  In x l -> p x = false -> (length (List.filter p l) < length l)%nat.
Proof.
  induction l as [|y l IH]; [done|]. cbn. intros [->|Hin] Hx.
  - rewrite Hx. pose proof (filter_length_le p l). lia.
  - specialize (IH Hin Hx). destruct (p y); cbn; lia.
Qed.

Lemma filter_all {A : Type} (p : A -> bool) (l : list A) :
  Forall (fun x => p x = true) l -> List.filter p l = l.
Proof. induction 1 as [|x l Hx _ IH]; [done|]. cbn. by rewrite Hx, IH. Qed.

Lemma oldest_in (reqs : list Z) (o : Z) : oldest reqs = Some o -> In o reqs.
Proof.
  destruct reqs as [|x xs]; [discriminate|].
  unfold oldest, PyOrd.min_by, PyOrd.extremum. intros [= <-].
  destruct (first_best_min (fun x => x) x xs) as ([->|Hin] & _); [by left|by right].
Qed.

Lemma oldest_none (reqs : list Z) : oldest reqs = None -> reqs = [].
Proof. by destruct reqs. Qed.

(** What the gate leaves: the same limits, and a list of timestamps that
    is within budget from the last clock reading on. *)
Lemma gate_spec (t1 t2 t3 : Z) (rl : RateLimiter.t) :
  within_budget t1 rl ->
  let '(g, rl') := gate t1 t2 t3 rl in
  max_requests rl' = max_requests rl
  ∧ time_window rl' = time_window rl
  ∧ (Z.of_nat (length (requests rl')) <= max_requests rl)
  ∧ match g with
    | Ok _ =>
        Z.of_nat (length (requests rl')) < max_requests rl
        ∨ exists o, In o (requests rl')
                    ∧ o + timedelta_seconds (time_window rl) <= t3
    | Raise e => e = RateLimitError ∨ e = ValueError
    end.
Proof.
  unfold within_budget, recent_requests, gate, can_make_request,
    time_until_next_request, can_make_request.
  cbn [requests max_requests time_window].
  set (W := timedelta_seconds (time_window rl)).
  set (k1 := List.filter (fun r => t1 - r <? W) (requests rl)).
  set (k2 := List.filter (fun r => t2 - r <? W) k1).
  intros Hb.
  assert (Hk2 : (length k2 <= length k1)%nat) by apply filter_length_le.
  destruct (Z.ltb_spec (Z.of_nat (length k1)) (max_requests rl)) as [H1|H1].
  { cbn. repeat split; lia. }
  destruct (Z.ltb_spec (Z.of_nat (length k2)) (max_requests rl)) as [H2|H2].
  { change (Qle_bool 0 0) with true. cbn. repeat split; lia. }
  destruct (oldest k2) as [o|] eqn:Eo; cbn [requests max_requests time_window].
  - destruct (Qle_bool (total_seconds (o + W - t3)) 0) eqn:Ew; cbn.
    + repeat split; try lia. right. exists o. split; [by apply oldest_in|].
      apply Qle_bool_iff in Ew. unfold total_seconds, Qle in Ew. cbn in Ew. lia.
    + repeat split; try lia. by left.
  - cbn. repeat split; try lia. by right.
Qed.

Lemma recent_length_snoc (t t4 : Z) (rl : RateLimiter.t) :
  (length (recent_requests t (record_request t4 rl))
   <= length (recent_requests t rl) + 1)%nat.
Proof.
  unfold recent_requests, record_request. cbn [requests time_window].
  rewrite List.filter_app, length_app. cbn. destruct (_ <? _); cbn; lia.
Qed.

(** X6.  A call of [_make_request] keeps the limiter within its budget:
    if no more than [max_requests] recorded requests are younger than the
    window when the call starts, then after the call, whatever its
    outcome, no more than [max_requests] recorded requests are younger
    than the window at any instant from the last clock reading of the gate
    on; the limits themselves are unchanged. *)
Theorem make_request_keeps_budget (req : request) (t1 t2 t3 t4 : Z)
    (rl : RateLimiter.t) :
  within_budget t1 rl ->
  let '(_, rl', _) := _make_request int_of_str request session_get req t1 t2 t3 t4 rl in
  max_requests rl' = max_requests rl
  ∧ time_window rl' = time_window rl
  ∧ forall t, t3 <= t -> within_budget t rl'.
Proof.
  intros Hb. unfold _make_request.
  pose proof (gate_spec t1 t2 t3 rl Hb) as Hg.
  destruct (gate t1 t2 t3 rl) as [g rl1].
  destruct Hg as (Hmax & Hwin & Hlen & Hg).
  assert (Hkeep : forall t, within_budget t rl1).
  { intros t. unfold within_budget, recent_requests. rewrite Hmax.
    pose proof (filter_length_le
      (fun r => t - r <? timedelta_seconds (time_window rl1)) (requests rl1)). lia. }
  destruct g as [[]|e]; [|by repeat split].
  destruct (session_get req) as [resp|e]; [|by repeat split].
  cbn [record_request max_requests time_window]. repeat split; try done.
  intros t Ht. unfold within_budget.
  pose proof (recent_length_snoc t t4 rl1) as Hsnoc.
  cbn [record_request max_requests]. rewrite Hmax.
  pose proof (filter_length_le
    (fun r => t - r <? timedelta_seconds (time_window rl1)) (requests rl1)) as Hle.
  fold (recent_requests t rl1) in Hle.
  destruct Hg as [Hlt|(o & Hin & Ho)]; [lia|].
  assert (length (recent_requests t rl1) < length (requests rl1))%nat; [|lia].
  apply (filter_drops _ o); [done|]. rewrite Hwin. apply Z.ltb_ge. lia.
Qed.

(** X7.  When every recorded request is younger than the window at the
    clock readings of the gate and there are at least [max_requests] of
    them (and at least one), [_make_request] raises [RateLimitError],
    hands nothing to the session and leaves the limiter as it was. *)
Theorem make_request_refused (req : request) (t1 t2 t3 t4 : Z) (rl : RateLimiter.t) :
  t1 <= t3 -> t2 <= t3 ->
  Forall (fun r => t3 - r < timedelta_seconds (time_window rl)) (requests rl) ->
  max_requests rl <= Z.of_nat (length (requests rl)) ->
  requests rl ≠ [] ->
  _make_request int_of_str request session_get req t1 t2 t3 t4 rl
  = (Raise RateLimitError, rl, []).
Proof.
  intros H13 H23 Hall Hfull Hne.
  assert (Hfilter : forall t, t <= t3 ->
    List.filter (fun r => t - r <? timedelta_seconds (time_window rl)) (requests rl)
    = requests rl).
  { intros t Ht. apply filter_all. eapply Forall_impl; [exact Hall|].
    cbn. intros r Hr. apply Z.ltb_lt. lia. }
  unfold _make_request, gate, time_until_next_request, can_make_request.
  cbn [requests max_requests time_window].
  rewrite !Hfilter by done.
  destruct (Z.ltb_spec (Z.of_nat (length (requests rl))) (max_requests rl)); [lia|].
  cbn [requests time_window].
  destruct (oldest (requests rl)) as [o|] eqn:Eo;
    [|by apply oldest_none in Eo].
  apply oldest_in in Eo. rewrite List.Forall_forall in Hall. specialize (Hall _ Eo).
  destruct (Qle_bool _ 0) eqn:Ew.
  - apply Qle_bool_iff in Ew. unfold total_seconds, Qle in Ew. cbn in Ew. lia.
  - cbn. by destruct rl.
Qed.

Lemma make_request_no_capacity (req : request) (t1 t2 t3 t4 : Z) (rl : RateLimiter.t) :
  max_requests rl <= 0 ->
  requests rl = [] ->
  _make_request int_of_str request session_get req t1 t2 t3 t4 rl
  = (Raise ValueError, rl, []).
Proof.
  intros Hmax Hreq.
  unfold _make_request, gate, time_until_next_request, can_make_request.
  rewrite Hreq. cbn [List.filter length requests max_requests time_window].
  destruct (Z.ltb_spec (Z.of_nat 0) (max_requests rl)); [lia|].
  cbn. destruct rl; cbn in *. by subst.
Qed.

(** X8.  A service configured with a rate limit below 60 gets a limiter
    without capacity ([min(genius_rate_limit // 60, 60)] is then 0 or
    negative): every [_make_request] fails with [ValueError] (from [min]
    of an empty list) before anything is handed to the session, and the
    limiter stays as it was, so that every later call fails alike. *)
Theorem make_request_zero_capacity (genius_rate_limit : Z) (req : request)
    (t1 t2 t3 t4 : Z) :
  genius_rate_limit < 60 ->
  let rl := rate_limiter_of_config genius_rate_limit in
  _make_request int_of_str request session_get req t1 t2 t3 t4 rl
  = (Raise ValueError, rl, []).
Proof.
  intros Hlimit rl. apply make_request_no_capacity; [|done].
  unfold rl, rate_limiter_of_config, init. cbn [max_requests].
  pose proof (Z.div_lt_upper_bound genius_rate_limit 60 1 ltac:(lia) ltac:(lia)).
  lia.
Qed.

Lemma gate_raises (t1 t2 t3 : Z) (rl rl1 : RateLimiter.t) (e : exn) :
  gate t1 t2 t3 rl = (Raise e, rl1) -> e = RateLimitError ∨ e = ValueError.
Proof.
  unfold gate, time_until_next_request.
  destruct (can_make_request t1 rl) as [ok ra]. destruct ok; [discriminate|].
  destruct (can_make_request t2 ra) as [ok rb]. destruct ok; [discriminate|].
  destruct (oldest (requests rb)); [|intros [= <- _]; by right].
  destruct (negb _); [intros [= <- _]; by left|discriminate].
Qed.

Lemma make_request_gate_raises (req : request) (t1 t2 t3 t4 : Z)
    (rl rl1 : RateLimiter.t) (e : exn) :
  gate t1 t2 t3 rl = (Raise e, rl1) ->
  _make_request int_of_str request session_get req t1 t2 t3 t4 rl
  = (Raise e, rl1, []).
Proof. unfold _make_request. by intros ->. Qed.

(** X9.  What [_make_request] does with the session: at most one request
    is handed over, and none when the gate raises; a value is returned
    only for an answer with status 200 whose body decodes to that value;
    the request is recorded in the limiter exactly when the session
    answered, whatever the status; and no transport exception leaves the
    call (they leave as [NetworkError]). *)
Theorem make_request_outcome (req : request) (t1 t2 t3 t4 : Z) (rl : RateLimiter.t) :
  let '(r, rl', sent) := _make_request int_of_str request session_get req t1 t2 t3 t4 rl in
  let '(g, rl1) := gate t1 t2 t3 rl in
  match g with
  | Raise e => r = Raise e ∧ sent = [] ∧ rl' = rl1
  | Ok _ =>
      sent = [req]
      ∧ match session_get req with
        | Ok resp =>
            rl' = record_request t4 rl1
            ∧ (forall v, r = Ok v -> status_code resp = 200 ∧ json resp = Ok v)
        | Raise e => rl' = rl1 ∧ r = Raise (as_network_error e)
        end
  end
  ∧ r ≠ Raise RequestsTimeout ∧ r ≠ Raise RequestsConnectionError
  ∧ r ≠ Raise RequestException.
Proof.
  unfold _make_request.
  destruct (gate t1 t2 t3 rl) as [g rl1] eqn:Eg.
  destruct g as [[]|e].
  - destruct (session_get req) as [resp|e].
    + split; [split; [done|split; [done|]]|].
      * intros v. unfold answer.
        destruct (status_code resp =? 200) eqn:E200.
        { apply Z.eqb_eq in E200. destruct (json resp); [by intros [= ->]|discriminate]. }
        repeat (destruct (status_code resp =? _); [try discriminate|]);
          try discriminate.
        destruct (int_of_str _); discriminate.
      * destruct (answer int_of_str resp) as [v|e]; [done|].
        destruct e; cbn; repeat split; discriminate.
    + split; [done|]. destruct e; cbn; repeat split; discriminate.
  - split; [done|].
    destruct (gate_raises _ _ _ _ _ _ Eg) as [->| ->]; repeat split; discriminate.
Qed.

(** X10.  [validate_connection] returns [True] or raises
    [AuthenticationError] or [NetworkError], nothing else: also a refusal
    by the local rate limiter, where nothing was handed to the session,
    is reported as [NetworkError]. *)
Theorem validate_connection_errors (req : request) (t1 t2 t3 t4 : Z) (rl : RateLimiter.t) :
  let '(r, rl', sent) :=
    validate_connection int_of_str request session_get req t1 t2 t3 t4 rl in
  (r = Ok true ∨ r = Raise AuthenticationError ∨ r = Raise NetworkError)
  ∧ (fst (gate t1 t2 t3 rl) ≠ Ok tt -> r = Raise NetworkError ∧ sent = []).
Proof.
  unfold validate_connection.
  destruct (gate t1 t2 t3 rl) as [g rl1] eqn:Eg.
  destruct g as [u|e].
  - destruct (_make_request int_of_str request session_get req t1 t2 t3 t4 rl)
      as [[r rl'] sent].
    split; [|by destruct u].
    destruct r as [v|e]; [by left|]. destruct e; auto.
  - rewrite (make_request_gate_raises _ _ _ _ _ _ _ _ Eg).
    destruct (gate_raises _ _ _ _ _ _ Eg) as [-> | ->]; split; auto.
Qed.

End GeniusRequestFacts.

(** A limiter for one request per minute that recorded a request at
    second 0: a call at second 61 is answered, and the limiter is within
    budget afterwards. *)
Lemma make_request_keeps_budget_witness :
  let rl := RateLimiter.mk 1 60 [0] in
  let session := fun _ : string =>
    Ok (GeniusRequest.mkResponse 200 (Ok PyNum.PNone) None) in
  let out := GeniusRequest._make_request (fun _ => None) string session "/search"
               61000000 61000000 61000000 61000000 rl in
  fst (fst out) = Ok PyNum.PNone
  ∧ RateLimiter.requests (snd (fst out)) = [61000000]
  ∧ within_budget 61000000 (snd (fst out)).
Proof.
  intros rl session out.
  destruct (make_request_keeps_budget (fun _ => None) string session "/search"
              61000000 61000000 61000000 61000000 rl) as (_ & _ & Hb);
    [vm_compute; discriminate|].
  split; [reflexivity|]. split; [reflexivity|].
  apply Hb. vm_compute. discriminate.
Defined.

(** The same limiter asked again at second 10: the call is refused. *)
Lemma make_request_refused_witness :
  let rl := RateLimiter.mk 1 60 [0] in
  let session := fun _ : string =>
    Ok (GeniusRequest.mkResponse 200 (Ok PyNum.PNone) None) in
  GeniusRequest._make_request (fun _ => None) string session "/search"
    10000000 10000000 10000000 10000000 rl
  = (Raise RateLimitError, rl, []).
Proof.
  intros rl session.
  apply (make_request_refused (fun _ => None) string session "/search"
           10000000 10000000 10000000 10000000 rl).
  - vm_compute. discriminate.
  - vm_compute. discriminate.
  - repeat constructor.
  - vm_compute. discriminate.
  - discriminate.
Defined.

(** A rate limit of 30 requests. *)
Lemma make_request_zero_capacity_witness :
  let rl := GeniusRequest.rate_limiter_of_config 30 in
  let session := fun _ : string =>
    Ok (GeniusRequest.mkResponse 200 (Ok PyNum.PNone) None) in
  RateLimiter.max_requests rl = 0
  ∧ GeniusRequest._make_request (fun _ => None) string session "/search" 0 0 0 0 rl
    = (Raise ValueError, rl, []).
Proof.
  intros rl session. split; [reflexivity|].
  apply (make_request_zero_capacity (fun _ => None) string session 30 "/search" 0 0 0 0).
  reflexivity.
Defined.

(** ** The cache over sequences of calls *)

Section CacheInvariantFacts.
Import GeniusAPICache.
Context {V : Type}.
Implicit Types (c : GeniusAPICache.t V) (d : PyDict.dict string (V * Z)).

Lemma dict_set_length {K W : Type} `{EqDecision K} (k : K) (w : W)
    (d : PyDict.dict K W) :
  length (PyDict.set k w d)
  = if PyDict.contains k d then length d else S (length d).
Proof.
  unfold PyDict.contains. induction d as [|[k' w'] d IH]; [done|]. cbn.
  destruct (decide (k' = k)); [done|]. cbn. rewrite IH.
  by destruct (PyDict.get k d).
Qed.

Lemma dict_del_length_le {K W : Type} `{EqDecision K} (k : K) (d : PyDict.dict K W) :
  (length (PyDict.del k d) <= length d)%nat.
Proof.
  induction d as [|[k' w'] d IH]; [done|]. cbn.
  destruct (decide (k' = k)); cbn; lia.
Qed.

Lemma dict_del_length_lt {K W : Type} `{EqDecision K} (k : K) (w : W)
    (d : PyDict.dict K W) :
  In (k, w) d -> (length (PyDict.del k d) < length d)%nat.
Proof.
  induction d as [|[k' w'] d IH]; [done|]. cbn. intros [Heq|Hin].
  - injection Heq as -> ->. rewrite decide_True by done.
    pose proof (dict_del_length_le k d). lia.
  - specialize (IH Hin). destruct (decide (k' = k)); cbn; lia.
Qed.

Lemma dict_get_del_ne {K W : Type} `{EqDecision K} (k k' : K) (d : PyDict.dict K W) :
  k' ≠ k -> PyDict.get k (PyDict.del k' d) = PyDict.get k d.
Proof.
  intros Hne. induction d as [|[k0 w0] d IH]; [done|]. cbn.
  destruct (decide (k0 = k')) as [->|Hne0]; cbn.
  - by rewrite decide_False.
  - by destruct (decide (k0 = k)).
Qed.

Lemma dict_del_absent {K W : Type} `{EqDecision K} (k : K) (d : PyDict.dict K W) :
  PyDict.get k d = None -> PyDict.del k d = d.
Proof.
  induction d as [|[k0 w0] d IH]; [done|]. cbn.
  destruct (decide (k0 = k)); [discriminate|]. intros H. by rewrite IH.
Qed.

Lemma dict_del_length_nodup {K W : Type} `{EqDecision K} (k : K) (w : W)
    (d : PyDict.dict K W) :
  NoDup (PyDict.keys d) -> In (k, w) d -> S (length (PyDict.del k d)) = length d.
Proof.
  unfold PyDict.keys. induction d as [|[k' w'] d IH]; [done|]. cbn.
  intros Hnd Hin. apply NoDup_cons in Hnd as [Hk' Hnd].
  destruct (decide (k' = k)) as [->|Hne].
  - rewrite dict_del_absent; [done|].
    destruct (PyDict.get k d) as [w0|] eqn:E; [|done].
    exfalso. apply Hk'. apply list_elem_of_In.
    change k with (fst (k, w0)). apply in_map.
    clear -E. induction d as [|[k1 w1] d IH]; [done|]. cbn in *.
    destruct (decide (k1 = k)) as [->|]; [injection E as ->; by left|right; by apply IH].
  - destruct Hin as [Heq|Hin]; [by injection Heq as -> ->|].
    cbn. by rewrite IH.
Qed.

Lemma cache_after_ok (max ttl : Z) c (call : cache_call V) :
  cache_ok max ttl c -> cache_ok max ttl (cache_after c call).
Proof.
  intros (Hmax & Httl & Hlen & Hnd). destruct call as [now key|now key value|]; cbn.
  - unfold get. destruct (PyDict.get key (_cache c)) as [[v ts]|]; [|done].
    destruct (_ <? _); [|done]. cbn [snd].
    unfold cache_ok. cbn [max_size ttl_seconds _cache with_cache].
    repeat split; try done.
    + pose proof (dict_del_length_le key (_cache c)). lia.
    + by apply dict_del_keys_nodup.
  - destruct (set now key value c) as [c'|e] eqn:Es; [|done].
    pose proof (set_keeps_dict _ _ _ _ _ Hnd Es) as Hnd'.
    unfold set in Es.
    destruct (Z.leb_spec (max_size c) (Z.of_nat (length (_cache c)))) as [Hfull|Hroom].
    + assert (Hne : _cache c ≠ []).
      { intros E. rewrite E in Es. discriminate. }
      destruct (oldest_key_minimal _ Hne) as (k & v & ts & Hk & Hin & _).
      rewrite Hmax in Hfull. rewrite Hk in Es.
      cbn [mbind result_bind] in Es. injection Es as <-.
      unfold cache_ok. cbn [max_size ttl_seconds _cache with_cache].
      repeat split; try done.
      rewrite dict_set_length.
      pose proof (dict_del_length_lt k (v, ts) _ Hin).
      destruct (PyDict.contains _ _); lia.
    + rewrite Hmax in Hroom. cbn in Es. injection Es as <-.
      unfold cache_ok. cbn [max_size ttl_seconds _cache with_cache].
      repeat split; try done.
      rewrite dict_set_length. destruct (PyDict.contains _ _); lia.
  - unfold cache_ok, clear. cbn [max_size ttl_seconds _cache with_cache length].
    repeat split; [done|done|lia|constructor].
Qed.

(** X11.  Whatever calls of [get], [set] and [clear] are made on a cache
    created for [max_size] entries, and at whatever times, the cache never
    holds more than [max_size] entries (none at all when [max_size] is not
    positive), never holds a key twice, and keeps its two limits. *)
Theorem cache_capacity_invariant (max ttl : Z) (calls : list (cache_call V)) :
  let c := fold_left cache_after calls (init max ttl) in
  max_size c = max ∧ ttl_seconds c = ttl
  ∧ Z.of_nat (length (_cache c)) <= Z.max max 0
  ∧ NoDup (PyDict.keys (_cache c)).
Proof.
  cbn zeta. change (cache_ok max ttl (fold_left cache_after calls (init max ttl))).
  assert (H0 : cache_ok max ttl (init (V := V) max ttl)).
  { repeat split; cbn; [lia|constructor]. }
  revert H0. generalize (init (V := V) max ttl).
  induction calls as [|call calls IH]; intros c Hc; [done|].
  cbn. by apply IH, cache_after_ok.
Qed.

(** X12.  Storing under a key that a full cache already holds still
    evicts the entry with the oldest timestamp: when that is an entry
    under another key, that entry is lost, the cache ends one entry
    smaller, and the entries under all other keys are untouched. *)
Theorem cache_update_evicts (now : Z) (key k : string) (value : V) c :
  NoDup (PyDict.keys (_cache c)) ->
  max_size c <= Z.of_nat (length (_cache c)) ->
  PyDict.contains key (_cache c) = true ->
  oldest_key (_cache c) = Some k ->
  k ≠ key ->
  exists c',
    set now key value c = Ok c'
    ∧ PyDict.get k (_cache c') = None
    ∧ PyDict.get key (_cache c') = Some (value, now)
    ∧ S (length (_cache c')) = length (_cache c)
    ∧ forall k', k' ≠ k -> k' ≠ key ->
        PyDict.get k' (_cache c') = PyDict.get k' (_cache c).
Proof.
  intros Hnd Hfull Hhas Hk Hne. unfold set.
  destruct (Z.leb_spec (max_size c) (Z.of_nat (length (_cache c)))); [|lia].
  rewrite Hk. cbn. eexists. split; [reflexivity|]. cbn [_cache with_cache].
  assert (Hin : exists w, In (k, w) (_cache c)).
  { destruct (_cache c) as [|e0 d0] eqn:Ed; [discriminate|].
    destruct (oldest_key_minimal (e0 :: d0) ltac:(done)) as (k0 & v & ts & Hk0 & Hin & _).
    rewrite Hk in Hk0. injection Hk0 as <-. by exists (v, ts). }
  destruct Hin as [w Hin].
  split; [|split; [|split]].
  - rewrite dict_get_set_ne by done. apply dict_get_del_eq.
  - apply dict_get_set_eq.
  - rewrite dict_set_length. unfold PyDict.contains in *.
    rewrite dict_get_del_ne by done.
    destruct (PyDict.get key (_cache c)); [|discriminate].
    by apply (dict_del_length_nodup k w).
  - intros k' Hk' Hkey. rewrite dict_get_set_ne by done. by apply dict_get_del_ne.
Qed.

End CacheInvariantFacts.

(** A cache for two entries that holds "a" (older) and "b": storing "b"
    again evicts "a". *)
Lemma cache_update_evicts_witness :
  let c := GeniusAPICache.mk 2 3600 [("a", (1, 1000000)); ("b", (2, 2000000))] in
  exists c',
    GeniusAPICache.set 3000000 "b" 5 c = Ok c'
    ∧ GeniusAPICache._cache c' = [("b", (5, 3000000))].
Proof.
  intros c.
  destruct (cache_update_evicts 3000000 "b" "a" 5 c) as (c' & Hset & _);
    [apply (bool_decide_unpack _); by vm_compute | vm_compute; discriminate
    | reflexivity | reflexivity | discriminate |].
  exists c'. split; [exact Hset|].
  vm_compute in Hset. injection Hset as <-. reflexivity.
Defined.

(** ** The caching service *)

Section CachedServiceFacts.
Import GeniusAPICache CachedGenius.
Implicit Types (cache : GeniusAPICache.t cached) (key : string).

Lemma set_ok {V : Type} (now : Z) key (value : V) (c : GeniusAPICache.t V) :
  0 < max_size c ->
  exists d, set now key value c = Ok (with_cache c (PyDict.set key (value, now) d)).
Proof.
  intros Hcap. unfold set.
  destruct (Z.leb_spec (max_size c) (Z.of_nat (length (_cache c)))) as [Hfull|Hroom].
  - assert (Hne : _cache c ≠ []) by (destruct (_cache c); [cbn in Hfull; lia|done]).
    destruct (oldest_key_minimal _ Hne) as (k & v & ts & Hk & _).
    rewrite Hk. cbn. by eexists.
  - cbn. by eexists.
Qed.

Lemma get_miss_keeps {V : Type} (now : Z) key (c : GeniusAPICache.t V) :
  fst (get now key c) = None ->
  max_size (snd (get now key c)) = max_size c
  ∧ ttl_seconds (snd (get now key c)) = ttl_seconds c
  ∧ PyDict.get key (_cache (snd (get now key c))) = None.
Proof.
  unfold get. destruct (PyDict.get key (_cache c)) as [[v ts]|] eqn:E; [|done].
  destruct (_ <? _); [|done]. intros _. cbn. repeat split. apply dict_get_del_eq.
Qed.

Lemma through_cache_miss key (v : cached) (g1 s1 : Z) cache :
  0 < max_size cache ->
  fst (get g1 key cache) = None ->
  exists cache1,
    through_cache key (Ok v) g1 s1 cache = (Ok v, cache1)
    ∧ ttl_seconds cache1 = ttl_seconds cache
    ∧ PyDict.get key (_cache cache1) = Some (v, s1).
Proof.
  intros Hcap Hmiss. unfold through_cache.
  destruct (get_miss_keeps g1 key cache Hmiss) as (Hmax & Httl & _).
  destruct (get g1 key cache) as [r c'] eqn:Eg. cbn in *. subst r.
  destruct (set_ok s1 key v c') as [d Hset]; [lia|].
  rewrite Hset. eexists. split; [reflexivity|]. cbn. split; [done|].
  apply dict_get_set_eq.
Qed.

Lemma through_cache_hit key (v : cached) (computed : result cached)
    (g2 s2 s1 : Z) cache :
  PyDict.get key (_cache cache) = Some (v, s1) ->
  g2 - s1 <= timedelta_seconds (ttl_seconds cache) ->
  through_cache key computed g2 s2 cache = (Ok v, cache).
Proof.
  intros Hget Hfresh. unfold through_cache, get. rewrite Hget.
  destruct (Z.ltb_spec (timedelta_seconds (ttl_seconds cache)) (g2 - s1)); [lia|done].
Qed.

Lemma through_cache_failure key (e : exn) (g s : Z) cache :
  fst (get g key cache) = None ->
  through_cache key (Raise e) g s cache = (Raise e, snd (get g key cache)).
Proof.
  unfold through_cache. destruct (get g key cache) as [r c']. cbn. by intros ->.
Qed.

(** X13.  A search that missed the cache and succeeded is answered from
    the cache when it is asked again, with the same limit and the same
    query up to letter case, no later than the TTL after the insertion:
    the answer is the stored one whatever the base service would return
    now, and the cache is left as it is. *)
Theorem cached_search_songs_hit
    (base base' : string -> Z -> result (list SearchResult.t))
    (query query' : string) (limit : Z) (results : list SearchResult.t)
    (g1 s1 g2 s2 : Z) cache :
  0 < max_size cache ->
  fst (get g1 (search_key query limit) cache) = None ->
  base query limit = Ok results ->
  Py.lower query' = Py.lower query ->
  g2 - s1 <= timedelta_seconds (ttl_seconds cache) ->
  exists cache1,
    search_songs base query limit g1 s1 cache = (Ok (Results results), cache1)
    ∧ search_songs base' query' limit g2 s2 cache1 = (Ok (Results results), cache1).
Proof.
  intros Hcap Hmiss Hbase Hlower Hfresh. unfold search_songs. rewrite Hbase.
  cbn [mbind result_bind].
  destruct (through_cache_miss (search_key query limit) (Results results)
              g1 s1 cache Hcap Hmiss) as (cache1 & H1 & Httl & Hget).
  exists cache1. split; [exact H1|].
  assert (search_key query' limit = search_key query limit) as ->
    by (unfold search_key; by rewrite Hlower).
  apply (through_cache_hit _ _ _ _ _ s1); [done|]. by rewrite Httl.
Qed.

Lemma search_without_capacity
    (base : string -> Z -> result (list SearchResult.t))
    (query : string) (limit : Z) (results : list SearchResult.t)
    (cache_size cache_ttl g s : Z) :
  cache_size <= 0 ->
  base query limit = Ok results ->
  search_songs base query limit g s (init cache_size cache_ttl)
  = (Raise ValueError, init cache_size cache_ttl).
Proof.
  intros Hsize Hbase. unfold search_songs, through_cache, get, set, init.
  rewrite Hbase. cbn. change (Z.of_nat 0) with 0.
  destruct (Z.leb_spec cache_size 0); [done|lia].
Qed.

(** X14.  What the caching service does not store.  A failure of the
    base service is not stored: each of the three caching methods that
    misses the cache passes the exception on and leaves no entry under its
    key, so that the next call asks the base service again.  And a service
    created with a cache size that is not positive stores nothing at all:
    a search that the base service answers then fails with [ValueError]
    ([min] of an empty dictionary), the answer is lost, and the cache
    stays empty, so that every call fails alike. *)
Theorem cached_nothing_stored
    (base_search_songs : string -> Z -> result (list SearchResult.t))
    (base_get_song_details : Z -> result SongData.SongMetadata)
    (base_scrape_lyrics : option string -> result string)
    (e : exn) (g s : Z) cache :
  (forall query limit,
     fst (get g (search_key query limit) cache) = None ->
     base_search_songs query limit = Raise e ->
     exists cache1,
       search_songs base_search_songs query limit g s cache = (Raise e, cache1)
       ∧ PyDict.get (search_key query limit) (_cache cache1) = None)
  ∧ (forall song_id,
     fst (get g (song_key song_id) cache) = None ->
     base_get_song_details song_id = Raise e ->
     exists cache1,
       get_song_details base_get_song_details song_id g s cache = (Raise e, cache1)
       ∧ PyDict.get (song_key song_id) (_cache cache1) = None)
  ∧ (forall genius_url,
     fst (get g (lyrics_key genius_url) cache) = None ->
     base_scrape_lyrics genius_url = Raise e ->
     exists cache1,
       scrape_lyrics base_scrape_lyrics genius_url g s cache = (Raise e, cache1)
       ∧ PyDict.get (lyrics_key genius_url) (_cache cache1) = None)
  ∧ (forall query limit results cache_size cache_ttl,
     cache_size <= 0 ->
     base_search_songs query limit = Ok results ->
     search_songs base_search_songs query limit g s (init cache_size cache_ttl)
     = (Raise ValueError, init cache_size cache_ttl)).
Proof.
  split; [|split; [|split]].
  - intros query limit Hmiss Hbase. unfold search_songs. rewrite Hbase.
    cbn [mbind result_bind]. rewrite through_cache_failure by done.
    eexists. split; [reflexivity|]. by apply get_miss_keeps.
  - intros song_id Hmiss Hbase. unfold get_song_details. rewrite Hbase.
    cbn [mbind result_bind]. rewrite through_cache_failure by done.
    eexists. split; [reflexivity|]. by apply get_miss_keeps.
  - intros url Hmiss Hbase. unfold scrape_lyrics. rewrite Hbase.
    cbn [mbind result_bind]. rewrite through_cache_failure by done.
    eexists. split; [reflexivity|]. by apply get_miss_keeps.
  - intros query limit results cache_size cache_ttl Hsize Hbase.
    by apply (search_without_capacity _ _ _ results).
Qed.

End CachedServiceFacts.

(** A search for "Hello Adele" is stored at second 1; the search for
    "HELLO ADELE" at second 2 is answered from the cache although the base
    service would now fail. *)
Lemma cached_search_songs_hit_witness :
  let r := SearchResult.mk 2 "Hello" "Adele" "u2" None None in
  let base := fun (_ : string) (_ : Z) => Ok [r] in
  let base' := fun (_ : string) (_ : Z) => Raise NetworkError in
  let cache := GeniusAPICache.init 100 3600 in
  exists cache1,
    CachedGenius.search_songs base "Hello Adele" 10 1000000 1000000 cache
    = (Ok (CachedGenius.Results [r]), cache1)
    ∧ CachedGenius.search_songs base' "HELLO ADELE" 10 2000000 2000000 cache1
      = (Ok (CachedGenius.Results [r]), cache1).
Proof.
  intros r base base' cache.
  apply (cached_search_songs_hit base base' "Hello Adele" "HELLO ADELE" 10 [r]
           1000000 1000000 2000000 2000000 cache).
  - reflexivity.
  - reflexivity.
  - reflexivity.
  - reflexivity.
  - vm_compute. discriminate.
Defined.

(** A service created with cache size 0. *)
Lemma cached_nothing_stored_witness :
  let r := SearchResult.mk 2 "Hello" "Adele" "u2" None None in
  let base := fun (_ : string) (_ : Z) => Ok [r] in
  CachedGenius.search_songs base "Hello Adele" 10 0 0 (GeniusAPICache.init 0 3600)
  = (Raise ValueError, GeniusAPICache.init 0 3600).
Proof.
  intros r base.
  apply (proj2 (proj2 (proj2
    (cached_nothing_stored base (fun _ => Raise GeniusAPIError)
       (fun _ => Raise NetworkError) NetworkError 0 0 (GeniusAPICache.init 0 3600))))
    "Hello Adele" 10 [r] 0 3600).
  - lia.
  - reflexivity.
Defined.

(** ** Cache keys *)

Section CacheKeyFacts.
Import CachedGenius.

Lemma pretty_N_char_not_colon (x : N) : pretty_N_char x ≠ colon.
Proof. unfold pretty_N_char. by repeat case_match. Qed.

Lemma pretty_N_go_no_colon (x : N) (s : string) :
  ¬ In colon (list_ascii_of_string s) ->
  ¬ In colon (list_ascii_of_string (pretty_N_go x s)).
Proof.
  revert s. induction (N.lt_wf_0 x) as [x _ IH]; intros s Hs.
  assert (x = 0 ∨ 0 < x)%N as [->|Hpos] by lia.
  - by rewrite pretty_N_go_0.
  - rewrite pretty_N_go_step by done. apply IH; [by apply N.div_lt|].
    cbn. intros [Hc|Hin]; [by apply (pretty_N_char_not_colon (x `mod` 10))|done].
Qed.

Lemma pretty_N_no_colon (x : N) : ¬ In colon (list_ascii_of_string (pretty x)).
Proof.
  unfold pretty, pretty_N. destruct (decide (x = 0%N)).
  - cbn. intros [H|[]]. discriminate.
  - apply pretty_N_go_no_colon. by intros [].
Qed.

Lemma pretty_Z_no_colon (z : Z) : ¬ In colon (list_ascii_of_string (pretty z)).
Proof.
  unfold pretty, pretty_Z. destruct z as [|p|p].
  - cbn. intros [H|[]]. discriminate.
  - apply (pretty_N_no_colon (N.pos p)).
  - change ("-" +:+ pretty p) with (String "-" (pretty (N.pos p))).
    cbn. intros [H|Hin]; [discriminate|]. by apply (pretty_N_no_colon (N.pos p)).
Qed.

Lemma append_cons (c : ascii) (s t : string) :
  (String c s ++ t)%string = String c (s ++ t)%string.
Proof. reflexivity. Qed.

Lemma in_append_r (c : ascii) (s t : string) :
  In c (list_ascii_of_string t) -> In c (list_ascii_of_string (s ++ t)%string).
Proof.
  intros Hin. induction s as [|a s IH]; [done|]. rewrite append_cons. by right.
Qed.

(** A text without colon after the last colon determines both parts. *)
Lemma split_at_last_colon (s s' t t' : string) :
  ¬ In colon (list_ascii_of_string t) ->
  ¬ In colon (list_ascii_of_string t') ->
  (s ++ String colon t)%string = (s' ++ String colon t')%string ->
  s = s' ∧ t = t'.
Proof.
  intros Ht Ht'. revert s'. induction s as [|a s IH]; intros [|a' s'].
  - intros [= ->]. done.
  - rewrite append_cons. intros [= <- ->]. exfalso. apply Ht.
    apply in_append_r. by left.
  - rewrite append_cons. intros [= -> <-]. exfalso. apply Ht'.
    apply in_append_r. by left.
  - rewrite !append_cons. intros [= -> H]. by destruct (IH _ H) as [-> ->].
Qed.

Lemma append_inj_l (p s t : string) : (p ++ s)%string = (p ++ t)%string -> s = t.
Proof.
  induction p as [|a p IH]; [done|]. rewrite !append_cons. intros [= H]. by apply IH.
Qed.

(** X15.  The cache keys of the three caching methods never coincide
    across methods, so that one method is never answered with the entry
    of another; two searches share a key exactly when their limits are
    equal and their queries are equal up to letter case; two songs share a
    key exactly when their identifiers are equal; and two page addresses
    share a key exactly when they are equal. *)
Theorem cache_keys_separate (query query' : string) (limit limit' song_id song_id' : Z)
    (genius_url genius_url' : string) (any_url : option string) :
  search_key query limit ≠ song_key song_id
  ∧ search_key query limit ≠ lyrics_key any_url
  ∧ song_key song_id ≠ lyrics_key any_url
  ∧ (search_key query limit = search_key query' limit'
     ↔ Py.lower query = Py.lower query' ∧ limit = limit')
  ∧ (song_key song_id = song_key song_id' ↔ song_id = song_id')
  ∧ (lyrics_key (Some genius_url) = lyrics_key (Some genius_url')
     ↔ genius_url = genius_url').
Proof.
  unfold search_key, song_key, lyrics_key.
  split; [|split; [|split; [|split; [|split]]]].
  - intros H. apply (f_equal (String.get 1)) in H. vm_compute in H. discriminate.
  - intros H. apply (f_equal (String.get 0)) in H. vm_compute in H. discriminate.
  - intros H. apply (f_equal (String.get 0)) in H. vm_compute in H. discriminate.
  - split; [|by intros [-> ->]].
    intros H. apply append_inj_l in H.
    change (":" ++ pretty limit)%string with (String colon (pretty limit)) in H.
    change (":" ++ pretty limit')%string with (String colon (pretty limit')) in H.
    apply split_at_last_colon in H as [Hq Hl]; try apply pretty_Z_no_colon.
    split; [done|]. by apply (inj pretty).
  - split; [|by intros ->]. intros H. apply append_inj_l in H. by apply (inj pretty).
  - split; [|by intros ->]. intros H. cbn [default] in H. by apply append_inj_l in H.
Qed.

End CacheKeyFacts.

(** ** Stripping *)

Section StripFacts.

Lemma rstrip_cons (c : ascii) (s : string) :
  Py.rstrip (String c s)
  = match Py.rstrip s with
    | EmptyString => if Py.isspace c then EmptyString else String c EmptyString
    | r => String c r
    end.
Proof. reflexivity. Qed.

Lemma rstrip_idem (s : string) : Py.rstrip (Py.rstrip s) = Py.rstrip s.
Proof.
  induction s as [|c s IH]; [done|]. rewrite rstrip_cons.
  destruct (Py.rstrip s) as [|c' r] eqn:E.
  - destruct (Py.isspace c) eqn:Ec; [done|]. cbn. by rewrite Ec.
  - by rewrite (rstrip_cons c (String c' r)), IH.
Qed.

Lemma lstrip_head (s : string) :
  match Py.lstrip s with
  | EmptyString => True
  | String c _ => Py.isspace c = false
  end.
Proof.
  induction s as [|c s IH]; [done|]. cbn.
  destruct (Py.isspace c) eqn:Ec; [done|]. by rewrite Ec.
Qed.

Lemma rstrip_head (c : ascii) (s : string) :
  Py.isspace c = false -> exists r, Py.rstrip (String c s) = String c r.
Proof.
  intros Hc. cbn. destruct (Py.rstrip s); [|by eexists].
  rewrite Hc. by eexists.
Qed.

Lemma lstrip_fixed (c : ascii) (s : string) :
  Py.isspace c = false -> Py.lstrip (String c s) = String c s.
Proof. intros Hc. cbn. by rewrite Hc. Qed.

(** [strip] is idempotent. *)
Lemma strip_idem (s : string) : Py.strip (Py.strip s) = Py.strip s.
Proof.
  unfold Py.strip. pose proof (lstrip_head s) as Hh.
  destruct (Py.lstrip s) as [|c t]; [done|].
  destruct (rstrip_head c t Hh) as [r Hr]. rewrite Hr.
  rewrite lstrip_fixed by done. rewrite <- Hr. apply rstrip_idem.
Qed.

End StripFacts.

(** ** Validation of the input *)

Section InputValidationFacts.
Import InputValidator Validators.

Lemma validate_song_name_Ok (song_name r : string) :
  validate_song_name song_name = Ok r ->
  r = Py.strip song_name
  ∧ (1 <= String.length r <= 200)%nat
  ∧ Forall (fun c => song_char c = true) (list_ascii_of_string r).
Proof.
  unfold validate_song_name, MIN_SONG_NAME_LENGTH, MAX_SONG_NAME_LENGTH.
  destruct (negb (Py.truthy song_name)); [discriminate|].
  destruct (Nat.ltb_spec (String.length (Py.strip song_name)) 1); [discriminate|].
  destruct (Nat.ltb_spec 200 (String.length (Py.strip song_name))); [discriminate|].
  destruct (all_chars song_char (Py.strip song_name)) eqn:E; [|discriminate].
  intros [= <-]. split; [done|]. split; [lia|].
  unfold all_chars in E. apply andb_true_iff in E as [_ E].
  apply List.Forall_forall. by apply forallb_forall.
Qed.

Lemma validate_artist_name_Ok (artist_name r : string) :
  validate_artist_name artist_name = Ok r ->
  r = Py.strip artist_name
  ∧ (1 <= String.length r <= 100)%nat
  ∧ Forall (fun c => artist_char c = true) (list_ascii_of_string r).
Proof.
  unfold validate_artist_name, MIN_ARTIST_NAME_LENGTH, MAX_ARTIST_NAME_LENGTH.
  destruct (negb (Py.truthy artist_name)); [discriminate|].
  destruct (Nat.ltb_spec (String.length (Py.strip artist_name)) 1); [discriminate|].
  destruct (Nat.ltb_spec 100 (String.length (Py.strip artist_name))); [discriminate|].
  destruct (all_chars artist_char (Py.strip artist_name)) eqn:E; [|discriminate].
  intros [= <-]. split; [done|]. split; [lia|].
  unfold all_chars in E. apply andb_true_iff in E as [_ E].
  apply List.Forall_forall. by apply forallb_forall.
Qed.

Lemma truthy_of_length (s : string) : (1 <= String.length s)%nat -> Py.truthy s = true.
Proof. destruct s; cbn; [lia|done]. Qed.

Lemma validate_song_name_idem (song_name r : string) :
  validate_song_name song_name = Ok r -> validate_song_name r = Ok r.
Proof.
  intros H. destruct (validate_song_name_Ok _ _ H) as (Hr & Hlen & _).
  assert (Hs : Py.strip r = r) by (rewrite Hr; apply strip_idem).
  revert H. unfold validate_song_name.
  rewrite (truthy_of_length r) by lia. cbn [negb]. rewrite Hs.
  destruct (negb (Py.truthy song_name)); [discriminate|]. rewrite <- Hr.
  by repeat (destruct (_ : bool); [discriminate|]).
Qed.

Lemma validate_artist_name_idem (artist_name r : string) :
  validate_artist_name artist_name = Ok r -> validate_artist_name r = Ok r.
Proof.
  intros H. destruct (validate_artist_name_Ok _ _ H) as (Hr & Hlen & _).
  assert (Hs : Py.strip r = r) by (rewrite Hr; apply strip_idem).
  revert H. unfold validate_artist_name.
  rewrite (truthy_of_length r) by lia. cbn [negb]. rewrite Hs.
  destruct (negb (Py.truthy artist_name)); [discriminate|]. rewrite <- Hr.
  by repeat (destruct (_ : bool); [discriminate|]).
Qed.

Lemma validate_song_name_error (song_name : string) (e : exn) :
  validate_song_name song_name = Raise e -> e = ValidationError.
Proof.
  unfold validate_song_name.
  repeat (destruct (_ : bool); [by intros [= <-]|]). discriminate.
Qed.

Lemma validate_artist_name_error (artist_name : string) (e : exn) :
  validate_artist_name artist_name = Raise e -> e = ValidationError.
Proof.
  unfold validate_artist_name.
  repeat (destruct (_ : bool); [by intros [= <-]|]). discriminate.
Qed.

(** X16.  [validate_song_input] either raises [ValidationError] or
    returns the two names stripped of surrounding white space, the song
    name of 1 to 200 and the artist name of 1 to 100 characters, all of
    them from the allowed character classes; validated names pass the
    validation again unchanged. *)
Theorem validate_song_input_result (song_name artist_name : string) :
  match validate_song_input song_name artist_name with
  | Raise e => e = ValidationError
  | Ok (song_name', artist_name') =>
      song_name' = Py.strip song_name ∧ artist_name' = Py.strip artist_name
      ∧ (1 <= String.length song_name' <= 200)%nat
      ∧ (1 <= String.length artist_name' <= 100)%nat
      ∧ Forall (fun c => song_char c = true) (list_ascii_of_string song_name')
      ∧ Forall (fun c => artist_char c = true) (list_ascii_of_string artist_name')
      ∧ validate_song_input song_name' artist_name' = Ok (song_name', artist_name')
  end.
Proof.
  unfold validate_song_input.
  destruct (validate_song_name song_name) as [s|e] eqn:Es; cbn [mbind result_bind];
    [|by apply validate_song_name_error in Es].
  destruct (validate_artist_name artist_name) as [a|e] eqn:Ea; cbn [mbind result_bind];
    [|by apply validate_artist_name_error in Ea].
  destruct (validate_song_name_Ok _ _ Es) as (? & ? & ?).
  destruct (validate_artist_name_Ok _ _ Ea) as (? & ? & ?).
  repeat split; try done; try lia.
  by rewrite (validate_song_name_idem _ _ Es), (validate_artist_name_idem _ _ Ea).
Qed.

(** X17.  Validating the names before the call changes nothing:
    [find_and_fetch_song] on names that [validate_song_input] returned
    does what it does on the raw names. *)
Theorem find_and_fetch_song_validated
    (search_songs : string -> Z -> result (list SearchResult.t))
    (get_song_details : Z -> result SongData.SongMetadata)
    (scrape_lyrics : option string -> result string)
    (song_name artist_name song_name' artist_name' : string) (now1 now2 : Z) :
  validate_song_input song_name artist_name = Ok (song_name', artist_name') ->
  Genius.find_and_fetch_song search_songs get_song_details scrape_lyrics
    song_name' artist_name' now1 now2
  = Genius.find_and_fetch_song search_songs get_song_details scrape_lyrics
      song_name artist_name now1 now2.
Proof.
  unfold validate_song_input. intros H.
  apply bind_Ok in H as (s & Es & H). apply bind_Ok in H as (a & Ea & H).
  injection H as <- <-. unfold Genius.find_and_fetch_song.
  by rewrite (validate_song_name_idem _ _ Es), (validate_artist_name_idem _ _ Ea), Es, Ea.
Qed.

(** X18.  [validate_lyrics_content] accepts nothing: empty and blank
    lyrics are rejected with [ValidationError], and for all other lyrics
    the length check reads [ValidationConstants.MAX_LYRICS_LENGTH], an
    attribute that the class does not have, so the call ends in
    [AttributeError]. *)
Theorem validate_lyrics_content_never_returns (lyrics : string) :
  validate_lyrics_content lyrics
  = if Py.truthy (Py.strip lyrics) then Raise AttributeError
    else Raise ValidationError.
Proof.
  unfold validate_lyrics_content.
  destruct (Py.truthy lyrics) eqn:E; cbn [negb].
  - by destruct (Py.truthy (Py.strip lyrics)).
  - by rewrite (strip_empty_of_falsy _ E).
Qed.

End InputValidationFacts.

(** The names of the running example, with white space around them. *)
Lemma find_and_fetch_song_validated_witness :
  let search := fun (_ : string) (_ : Z) => Ok [] in
  let details := fun (_ : Z) => Raise GeniusAPIError in
  let scrape := fun (_ : option string) => Raise NetworkError in
  Validators.validate_song_input "  Hello " " Adele  " = Ok ("Hello", "Adele")
  ∧ Genius.find_and_fetch_song search details scrape "Hello" "Adele" 0 0
    = Genius.find_and_fetch_song search details scrape "  Hello " " Adele  " 0 0.
Proof.
  intros search details scrape. split; [reflexivity|].
  apply (find_and_fetch_song_validated search details scrape "  Hello " " Adele  ").
  reflexivity.
Defined.

(** ** Validation of analysis results *)

Section ScoreValidationFacts.
Import PyNum Emotion Validators.
Variable float_of_str : string -> option pyfloat.

Lemma dict_set_fresh {K W : Type} `{EqDecision K} (k : K) (w : W)
    (d : PyDict.dict K W) :
  ¬ In k (PyDict.keys d) -> PyDict.set k w d = (d ++ [(k, w)])%list.
Proof.
  unfold PyDict.keys. induction d as [|[k' w'] d IH]; [done|]. cbn. intros Hk.
  destruct (decide (k' = k)) as [->|Hne]; [exfalso; apply Hk; by left|].
  rewrite IH; [done|]. intros Hin. apply Hk. by right.
Qed.

Lemma dict_get_of_key {K W : Type} `{EqDecision K} (k : K) (d : PyDict.dict K W) :
  In k (PyDict.keys d) -> exists w, PyDict.get k d = Some w.
Proof.
  unfold PyDict.keys. induction d as [|[k' w'] d IH]; [done|]. cbn.
  destruct (decide (k' = k)); [by eexists|]. intros [?|Hin]; [done|by apply IH].
Qed.

Lemma dict_contains_key {K W : Type} `{EqDecision K} (k : K) (d : PyDict.dict K W) :
  PyDict.contains k d = true -> In k (PyDict.keys d).
Proof.
  unfold PyDict.contains. destruct (PyDict.get k d) as [w|] eqn:E; [|discriminate].
  intros _. apply dict_get_in in E. unfold PyDict.keys.
  change k with (fst (k, w)). by apply in_map.
Qed.

Lemma float_error (v : pyval) (e : exn) :
  float float_of_str v = Raise e ->
  e = OverflowError ∨ e = ValueError ∨ e = TypeError.
Proof.
  destruct v; cbn; try (intros [= <-]; tauto); try discriminate.
  - destruct (_ <? _); [discriminate|intros [= <-]; tauto].
  - destruct (float_of_str _); [discriminate|intros [= <-]; tauto].
Qed.

Lemma validate_scores_loop_spec (source items : list (string * pyval))
    (acc v : PyDict.dict string Q) :
  NoDup (PyDict.keys acc ++ map fst items)%list ->
  (forall e, In e items -> In e source) ->
  validate_scores_loop float_of_str items acc = Ok v ->
  exists added,
    v = (acc ++ added)%list
    ∧ map fst added = List.filter is_expected (map fst items)
    ∧ Forall (validated_from float_of_str source) added.
Proof.
  revert acc. induction items as [|[emotion score] items IH]; intros acc Hnd Hsrc.
  - cbn. intros [= <-]. exists []. by rewrite app_nil_r.
  - cbn [validate_scores_loop map List.filter fst].
    assert (Hnd' : forall w : Q,
      NoDup (PyDict.keys (acc ++ [(emotion, w)])%list ++ map fst items)%list).
    { intros w. unfold PyDict.keys in *. rewrite map_app. cbn.
      by rewrite <- app_assoc. }
    assert (Hfresh : ¬ In emotion (PyDict.keys acc)).
    { intros Hin. cbn in Hnd. apply NoDup_app in Hnd as (_ & Hdisj & _).
      apply (Hdisj emotion); [by apply list_elem_of_In|]. by left. }
    assert (Hnd0 : NoDup (PyDict.keys acc ++ map fst items)%list).
    { cbn in Hnd. apply NoDup_app in Hnd as (H1 & H2 & H3).
      apply NoDup_app. split; [done|]. split.
      - intros x Hx Hx'. apply (H2 x Hx). by right.
      - by apply NoDup_cons in H3 as [_ ?]. }
    assert (Hsrc' : forall e, In e items -> In e source).
    { intros e He. apply Hsrc. by right. }
    destruct (is_expected emotion) eqn:Eexp; cbn [negb].
    + destruct (float float_of_str score) as [f|e] eqn:Ef; cbn [mbind result_bind];
        [|destruct e; discriminate].
      destruct (fle (Fin 0) f && fle f (Fin 100)) eqn:Er; [|discriminate].
      apply fle_range in Er as (q & -> & H0 & H100).
      rewrite dict_set_fresh by done. intros Hloop.
      destruct (IH _ (Hnd' _) Hsrc' Hloop) as (added & -> & Hkeys & Hall).
      exists ((emotion, round q 2) :: added). split; [by rewrite <- app_assoc|].
      split; [cbn [map fst]; by rewrite Hkeys|].
      constructor; [|done].
      destruct (round2_score q H0 H100) as [Hrange Hk].
      split; [done|]. split; [done|].
      exists score, q. split; [apply Hsrc; by left|done].
    + intros Hloop. exact (IH acc Hnd0 Hsrc' Hloop).
Qed.

(** X19.  [validate_emotion_scores] on a dictionary: when it returns,
    the result holds, in the order of the input, exactly those keys of the
    input that name a category (all five are among them, other keys are
    dropped), each with the float value of its entry rounded to
    hundredths, which lies in [0,100]; it raises [ValidationError] when a
    category is missing, and otherwise fails only with [ValidationError]
    or the [OverflowError] of the conversion. *)
Theorem validate_emotion_scores_result (emotion_scores : PyDict.dict string pyval) :
  NoDup (PyDict.keys emotion_scores) ->
  match validate_emotion_scores float_of_str emotion_scores with
  | Ok v =>
      PyDict.keys v = List.filter is_expected (PyDict.keys emotion_scores)
      ∧ (forall c, exists q, PyDict.get (value c) v = Some q)
      ∧ Forall (validated_from float_of_str emotion_scores) v
  | Raise e => e = ValidationError ∨ e = OverflowError
  end
  ∧ ((exists c, PyDict.contains (value c) emotion_scores = false) ->
     validate_emotion_scores float_of_str emotion_scores = Raise ValidationError).
Proof.
  intros Hnd. unfold validate_emotion_scores.
  destruct (forallb _ expected_emotions) eqn:Eall; cbn [negb].
  - split.
    + destruct (validate_scores_loop float_of_str emotion_scores []) as [v|e] eqn:El.
      * destruct (validate_scores_loop_spec emotion_scores emotion_scores [] v)
          as (added & -> & Hkeys & Hall); [done|done|done|].
        cbn [app]. split; [done|]. split; [|done].
        intros c. apply dict_get_of_key. unfold PyDict.keys at 1. rewrite Hkeys.
        apply filter_In. split.
        -- rewrite forallb_forall in Eall. apply dict_contains_key, Eall.
           unfold expected_emotions. apply in_map. destruct c; cbn; tauto.
        -- by destruct c.
      * clear -El. revert El. generalize (@nil (string * Q)).
        induction emotion_scores as [|[k s] items IH]; intros acc; [discriminate|].
        cbn [validate_scores_loop].
        destruct (is_expected k); cbn [negb]; [|apply IH].
        destruct (float float_of_str s) as [f|e'] eqn:Ef; cbn [mbind result_bind].
        -- destruct (fle (Fin 0) f && fle f (Fin 100)); [|intros [= <-]; by left].
           destruct f; try (intros [= <-]; by left). apply IH.
        -- destruct (float_error s e' Ef) as [->|[->| ->]];
             intros [= <-]; auto.
    + intros [c Hc]. rewrite forallb_forall in Eall.
      rewrite Eall in Hc; [discriminate|].
      unfold expected_emotions. apply in_map. destruct c; cbn; tauto.
  - split; [by left|done].
Qed.

Section DominantFacts.
Variable list_gt : list pyval -> list pyval -> result bool.

Lemma is_expected_iff (d : string) :
  is_expected d = true ↔ exists c, d = value c.
Proof.
  unfold is_expected, expected_emotions. rewrite existsb_exists. split.
  - intros (x & Hin & Heq). apply String.eqb_eq in Heq. subst x.
    apply in_map_iff in Hin as (c & Hc & _). by exists c.
  - intros [c Hc]. exists (value c). split; [|by apply String.eqb_eq].
    apply in_map. destruct c; cbn; tauto.
Qed.

Lemma any_gt_numbers (a b : pyval) :
  is_Some (as_number a) -> is_Some (as_number b) ->
  any_gt list_gt a b = Ok (fgt (number_of a) (number_of b)).
Proof.
  unfold any_gt, number_of. intros [x ->] [y ->]. done.
Qed.

(** A number and a string have no order, whichever comes first. *)
Lemma any_gt_number_str (a : pyval) (s : string) :
  is_Some (as_number a) ->
  any_gt list_gt (PStr s) a = Raise TypeError
  ∧ any_gt list_gt a (PStr s) = Raise TypeError.
Proof. intros [x Hx]. by destruct a. Qed.

(** Over numbers the search for the maximum never fails, and finds the
    first entry with the greatest score. *)
Lemma max_key_loop_numbers (maxitem : string * pyval) (items : list (string * pyval)) :
  Forall (fun e => is_Some (as_number (snd e))) (maxitem :: items) ->
  max_key_loop list_gt maxitem items
  = Ok (PyOrd.first_best
          (fun x best => fgt (number_of (snd x)) (number_of (snd best)))
          maxitem items).
Proof.
  revert maxitem. induction items as [|item rest IH]; intros maxitem Hall; [done|].
  apply Forall_cons in Hall as [Hm Hall]. apply Forall_cons in Hall as [Hi Hrest].
  cbn [max_key_loop PyOrd.first_best].
  rewrite (any_gt_numbers _ _ Hi Hm). cbn [mbind result_bind].
  apply IH. constructor; [|done]. by destruct (fgt _ _).
Qed.

(** A failure of the search is the failure of one comparison of two of
    the scores. *)
Lemma max_key_loop_failure (maxitem : string * pyval)
    (items : list (string * pyval)) (e : exn) :
  max_key_loop list_gt maxitem items = Raise e ->
  exists a b, In a items ∧ (b = maxitem ∨ In b items)
              ∧ any_gt list_gt (snd a) (snd b) = Raise e.
Proof.
  revert maxitem. induction items as [|item rest IH]; intros maxitem; [discriminate|].
  cbn [max_key_loop].
  destruct (any_gt list_gt (snd item) (snd maxitem)) as [greater|e'] eqn:Eg;
    cbn [mbind result_bind].
  - intros H. destruct (IH _ H) as (a & b & Ha & Hb & Hab).
    exists a, b. split; [by right|]. split; [|done].
    destruct Hb as [-> | Hb]; [|by right; right].
    destruct greater; [right; by left|by left].
  - intros [= ->]. exists item, maxitem. split; [by left|]. split; [by left|done].
Qed.

(** X20.  [validate_dominant_emotion] on the scores as its caller hands
    them over, undecoded.  A name that is not the name of a category
    after lower-casing and stripping is refused with [ValidationError]
    whatever the scores are.  For the name of a category: with no score
    or a single one nothing is compared and the normalised name is
    returned; with scores that are all numbers (booleans, integers,
    floats) the normalised name is returned as well, also when another
    category scores highest, which only logs a warning, exactly when the
    first entry with the greatest score has another key; but when the
    first two scores are a number and a string, in either order, the
    search for the maximum raises [TypeError]; and in general the
    function either returns the normalised name or fails with the failure
    of a comparison of two of the scores. *)
Theorem validate_dominant_emotion_outcome (dominant_emotion : string)
    (emotion_scores : PyDict.dict string pyval) :
  let d := Py.strip (Py.lower dominant_emotion) in
  let outcome := validate_dominant_emotion list_gt dominant_emotion emotion_scores in
  (is_expected d = true ↔ exists c, d = value c)
  ∧ (is_expected d = false -> outcome = (Raise ValidationError, false))
  ∧ (is_expected d = true ->
     (fst outcome = Ok d
      ∨ exists e a b,
          fst outcome = Raise e
          ∧ In a emotion_scores ∧ In b emotion_scores
          ∧ any_gt list_gt (snd a) (snd b) = Raise e)
     ∧ (emotion_scores = [] -> outcome = (Ok d, false))
     ∧ (forall entry, emotion_scores = [entry] ->
        outcome = (Ok d, negb (String.eqb d (fst entry))))
     ∧ (Forall (fun e => is_Some (as_number (snd e))) emotion_scores ->
        fst outcome = Ok d
        ∧ (snd outcome = true
           ↔ exists actual,
               PyOrd.max_by_float (fun e => number_of (snd e)) emotion_scores
               = Some actual
               ∧ fst actual ≠ d))
     ∧ (forall k1 v1 k2 v2 rest,
          emotion_scores = (k1, v1) :: (k2, v2) :: rest ->
          (is_Some (as_number v1) ∧ exists s, v2 = PStr s)
          ∨ (is_Some (as_number v2) ∧ exists s, v1 = PStr s) ->
          outcome = (Raise TypeError, false))).
Proof.
  cbn zeta. unfold validate_dominant_emotion.
  set (d := Py.strip (Py.lower dominant_emotion)).
  split; [apply is_expected_iff|]. split; [by intros ->|].
  intros ->. cbn [negb]. split; [|split; [by intros ->|split; [by intros entry ->|split]]].
  - destruct emotion_scores as [|first rest]; [by left|].
    destruct (max_key_loop list_gt first rest) as [actual|e] eqn:Em; [by left|].
    right. destruct (max_key_loop_failure _ _ _ Em) as (a & b & Ha & Hb & Hab).
    exists e, a, b. split; [done|]. split; [by right|]. split; [|done].
    destruct Hb as [-> | Hb]; [by left|by right].
  - intros Hall. destruct emotion_scores as [|first rest].
    + split; [done|]. split; [discriminate|]. by intros (actual & H & _).
    + rewrite (max_key_loop_numbers _ _ Hall). cbn [fst snd]. split; [done|].
      unfold PyOrd.max_by_float, PyOrd.extremum.
      set (actual := PyOrd.first_best _ first rest). split.
      * intros H. apply negb_true_iff, String.eqb_neq in H. exists actual.
        split; [done|]. by intros Heq.
      * intros (actual' & [= <-] & Hne). apply negb_true_iff, String.eqb_neq.
        by intros Heq.
  - intros k1 v1 k2 v2 rest -> Hmixed. cbn [max_key_loop snd].
    destruct Hmixed as [[Hn [s ->]] | [Hn [s ->]]].
    + by rewrite (proj1 (any_gt_number_str v1 s Hn)).
    + by rewrite (proj2 (any_gt_number_str v2 s Hn)).
Qed.

End DominantFacts.

End ScoreValidationFacts.

(** Scores given as an integer, a float, a string and so on, with a key
    that names no category. *)
Lemma validate_emotion_scores_result_witness :
  let scores := [("love", PyNum.PFloat (PyNum.Fin (80567 # 1000)));
                 ("mood", PyNum.PStr "blue");
                 ("happiness", PyNum.PInt 10); ("sadness", PyNum.PInt 0);
                 ("anger", PyNum.PBool true); ("fear", PyNum.PInt 3)] in
  Validators.validate_emotion_scores (fun _ => None) scores
  = Ok [("love", 8057 # 100); ("happiness", 1000 # 100); ("sadness", 0 # 100);
        ("anger", 100 # 100); ("fear", 300 # 100)]
  ∧ PyDict.keys [("love", 8057 # 100); ("happiness", 1000 # 100); ("sadness", 0 # 100);
        ("anger", 100 # 100); ("fear", 300 # 100)]
    = List.filter Validators.is_expected (PyDict.keys scores).
Proof.
  intros scores. split; [vm_compute; reflexivity|].
  pose proof (validate_emotion_scores_result (fun _ => None) scores) as H.
  assert (Hv : Validators.validate_emotion_scores (fun _ => None) scores
    = Ok [("love", 8057 # 100); ("happiness", 1000 # 100); ("sadness", 0 # 100);
          ("anger", 100 # 100); ("fear", 300 # 100)]) by (vm_compute; reflexivity).
  rewrite Hv in H. apply H. apply (bool_decide_unpack _). by vm_compute.
Defined.

(** ** The JSON object in an answer *)

Section BraceFacts.
Import Rx.

Lemma through_last_close_none (s : string) :
  through_last_close s = None ↔ ¬ In "}"%char (list_ascii_of_string s).
Proof.
  induction s as [|c s IH]; [cbn; tauto|]. cbn.
  destruct (through_last_close s) as [p|].
  - split; [discriminate|]. intros H. exfalso.
    assert (Hs : ¬ In "}"%char (list_ascii_of_string s)) by tauto.
    apply IH in Hs. discriminate.
  - assert (Hs : ¬ In "}"%char (list_ascii_of_string s)) by (by apply IH).
    unfold is_char. destruct (Ascii.eqb_spec c (ascii_of_nat 125)) as [->|Hne].
    + split; [discriminate|]. intros H. exfalso. apply H. by left.
    + split; [|done]. intros _ [Hc|Hin]; [|done]. by apply Hne.
Qed.

Lemma through_last_close_intro (mid post : string) :
  ¬ In "}"%char (list_ascii_of_string post) ->
  through_last_close (mid ++ String "}" post) = Some (mid ++ String "}" "")%string.
Proof.
  intros Hpost. induction mid as [|m mid IH].
  - change (through_last_close (String "}" post) = Some (String "}" "")).
    cbn [through_last_close]. apply through_last_close_none in Hpost.
    by rewrite Hpost.
  - rewrite !append_cons. cbn [through_last_close]. by rewrite IH.
Qed.

Lemma through_last_close_elim (s p : string) :
  through_last_close s = Some p ->
  exists mid post,
    s = (mid ++ String "}" post)%string ∧ p = (mid ++ String "}" "")%string
    ∧ ¬ In "}"%char (list_ascii_of_string post).
Proof.
  revert p. induction s as [|c s IH]; intros p; [discriminate|].
  cbn [through_last_close].
  destruct (through_last_close s) as [p'|] eqn:E.
  - intros [= <-]. destruct (IH p' eq_refl) as (mid & post & -> & -> & Hpost).
    by exists (String c mid), post.
  - apply through_last_close_none in E. unfold is_char.
    destruct (Ascii.eqb_spec c (ascii_of_nat 125)) as [->|Hne]; [|discriminate].
    intros [= <-]. by exists "", s.
Qed.

Lemma search_braces_intro (pre mid post : string) :
  ¬ In "{"%char (list_ascii_of_string pre) ->
  ¬ In "}"%char (list_ascii_of_string post) ->
  search_braces (pre ++ String "{" (mid ++ String "}" post))
  = Some (String "{" (mid ++ String "}" "")).
Proof.
  intros Hpre Hpost. induction pre as [|a pre IH].
  - change (search_braces (String "{" (mid ++ String "}" post))
            = Some (String "{" (mid ++ String "}" ""))).
    cbn [search_braces]. change (is_char 123 "{") with true. cbn iota.
    by rewrite through_last_close_intro.
  - rewrite append_cons. cbn [search_braces]. unfold is_char.
    destruct (Ascii.eqb_spec a (ascii_of_nat 123)) as [->|Hne].
    + exfalso. apply Hpre. by left.
    + apply IH. intros Hin. apply Hpre. by right.
Qed.

Lemma search_braces_elim (content json_str : string) :
  search_braces content = Some json_str ->
  exists pre mid post,
    content = (pre ++ String "{" (mid ++ String "}" post))%string
    ∧ json_str = String "{" (mid ++ String "}" "")
    ∧ ¬ In "{"%char (list_ascii_of_string pre)
    ∧ ¬ In "}"%char (list_ascii_of_string post).
Proof.
  induction content as [|c s IH]; [discriminate|].
  cbn [search_braces]. unfold is_char.
  destruct (Ascii.eqb_spec c (ascii_of_nat 123)) as [->|Hne].
  - destruct (through_last_close s) as [p|] eqn:E; [|discriminate].
    intros [= <-]. apply through_last_close_elim in E as (mid & post & -> & -> & Hpost).
    exists "", mid, post. repeat split; try done. by intros [].
  - intros H. destruct (IH H) as (pre & mid & post & -> & -> & Hpre & Hpost).
    exists (String c pre), mid, post. repeat split; try done.
    cbn. intros [Hc|Hin]; [by apply Hne|done].
Qed.

(** An opening brace with a closing brace somewhere after it is enough
    for the search to succeed. *)
Lemma search_braces_found (pre mid post : string) :
  exists j, search_braces (pre ++ String "{" (mid ++ String "}" post)) = Some j.
Proof.
  induction pre as [|a pre IH].
  - change (exists j, search_braces (String "{" (mid ++ String "}" post)) = Some j).
    cbn [search_braces]. change (is_char 123 "{") with true. cbn iota.
    destruct (through_last_close (mid ++ String "}" post)) as [p|] eqn:E; [by eexists|].
    exfalso. apply through_last_close_none in E. apply E.
    apply in_append_r. by left.
  - rewrite append_cons. cbn [search_braces].
    destruct (is_char 123 a); [|done].
    destruct (through_last_close (pre ++ String "{" (mid ++ String "}" post)))
      as [p|] eqn:E; [by eexists|].
    exfalso. apply through_last_close_none in E. apply E.
    apply in_append_r. right. apply in_append_r. by left.
Qed.

(** X21.  The search for a JSON object in an answer,
    [re.search(r'\{.*\}', content, re.DOTALL)], finds the text from the
    first opening brace to the last closing brace: it succeeds exactly
    when a closing brace follows an opening brace, and then yields
    everything from the first opening brace to the last closing brace,
    other braces and line breaks included. *)
Theorem search_braces_first_to_last (content : string) :
  (forall json_str,
     search_braces content = Some json_str ↔
     exists pre mid post,
       content = (pre ++ "{" ++ mid ++ "}" ++ post)%string
       ∧ json_str = ("{" ++ mid ++ "}")%string
       ∧ ¬ In "{"%char (list_ascii_of_string pre)
       ∧ ¬ In "}"%char (list_ascii_of_string post))
  ∧ (search_braces content = None ↔
     ¬ exists pre mid post, content = (pre ++ "{" ++ mid ++ "}" ++ post)%string).
Proof.
  split.
  - intros json_str. split.
    + intros H. apply search_braces_elim in H as (pre & mid & post & -> & -> & Hpre & Hpost).
      by exists pre, mid, post.
    + intros (pre & mid & post & -> & -> & Hpre & Hpost).
      by apply search_braces_intro.
  - split.
    + intros Hn (pre & mid & post & ->).
      destruct (search_braces_found pre mid post) as [j Hj].
      change (pre ++ "{" ++ mid ++ "}" ++ post)%string
        with (pre ++ String "{" (mid ++ String "}" post))%string in Hn.
      congruence.
    + intros Hn. destruct (search_braces content) as [j|] eqn:E; [|done].
      exfalso. apply Hn.
      apply search_braces_elim in E as (pre & mid & post & -> & _).
      by exists pre, mid, post.
Qed.

End BraceFacts.

(** ** Completion of a decoded payload *)

Section RequiredFieldsFacts.
Import PyNum Emotion Groq.
Variable float_of_str : string -> option pyfloat.

Lemma dict_contains_get {K W : Type} `{EqDecision K} (k : K) (d : PyDict.dict K W) :
  PyDict.contains k d = false ↔ PyDict.get k d = None.
Proof. unfold PyDict.contains. by destruct (PyDict.get k d). Qed.

(** A lookup after the defaults have been filled in. *)
Lemma fold_defaults_get (defaults : list (string * pyval))
    (data : PyDict.dict string pyval) (k : string) :
  PyDict.get k
    (fold_left (fun data fd =>
                  if PyDict.contains (fst fd) data then data
                  else PyDict.set (fst fd) (snd fd) data) defaults data)
  = match PyDict.get k data with
    | Some v => Some v
    | None => PyDict.get k defaults
    end.
Proof.
  revert data. induction defaults as [|[f d] rest IH]; intros data.
  - cbn. by destruct (PyDict.get k data).
  - cbn [fold_left fst snd]. rewrite IH. cbn [PyDict.get].
    destruct (PyDict.contains f data) eqn:Ec.
    + destruct (PyDict.get k data) as [v|] eqn:Ek; [done|].
      destruct (decide (f = k)) as [->|Hne]; [|done].
      unfold PyDict.contains in Ec. by rewrite Ek in Ec.
    + apply dict_contains_get in Ec.
      destruct (decide (f = k)) as [->|Hne].
      * by rewrite dict_get_set_eq, Ec.
      * by rewrite dict_get_set_ne.
Qed.

Lemma float_scores_error (data : PyDict.dict string pyval) (emotions : list string)
    (e : exn) :
  float_scores float_of_str data emotions = Raise e ->
  e = OverflowError ∨ e = ValueError ∨ e = TypeError.
Proof.
  induction emotions as [|x rest IH]; [discriminate|]. cbn.
  destruct (float float_of_str _) as [f|e'] eqn:Ef; cbn.
  - destruct (float_scores float_of_str data rest); [discriminate|].
    cbn. intros [= <-]. by apply IH.
  - intros [= <-]. by apply (float_error float_of_str _ _ Ef).
Qed.

(** X22.  [_ensure_required_fields] never drops or changes an entry of
    the decoded payload (an entry holding null stays null); when it
    returns, each of the five scores, the confidence and the summary is
    present, with its default (0.0, 0.5, the fixed sentence) where the
    payload had none, and so is the dominant category; it can fail only
    where the dominant category has to be computed and a score is not
    numeric. *)
Theorem ensure_required_fields_result (data : PyDict.dict string pyval) :
  match _ensure_required_fields float_of_str data with
  | Ok data' =>
      (forall k v, PyDict.get k data = Some v -> PyDict.get k data' = Some v)
      ∧ (forall k d, PyDict.get k required_fields = Some d ->
           PyDict.get k data = None -> PyDict.get k data' = Some d)
      ∧ (forall k, In k ["happiness"; "sadness"; "anger"; "fear"; "love";
                         "confidence"; "summary"; "dominant_emotion"] ->
           PyDict.contains k data' = true)
  | Raise e =>
      PyDict.get "dominant_emotion" data = None
      ∧ (e = OverflowError ∨ e = ValueError ∨ e = TypeError)
  end.
Proof.
  unfold _ensure_required_fields, fill_defaults.
  set (filled := fold_left _ required_fields data).
  assert (Hget : forall k, PyDict.get k filled
    = match PyDict.get k data with
      | Some v => Some v
      | None => PyDict.get k required_fields
      end) by (intros k; apply fold_defaults_get).
  assert (Hkept : forall k v, PyDict.get k data = Some v -> PyDict.get k filled = Some v).
  { intros k v Hk. by rewrite Hget, Hk. }
  assert (Hdef : forall k d, PyDict.get k required_fields = Some d ->
            PyDict.get k data = None -> PyDict.get k filled = Some d).
  { intros k d Hd Hk. by rewrite Hget, Hk. }
  assert (Hreq : forall k, In k ["happiness"; "sadness"; "anger"; "fear"; "love";
                                 "confidence"; "summary"] ->
            PyDict.contains k filled = true).
  { intros k Hk. unfold PyDict.contains. rewrite Hget.
    destruct (PyDict.get k data); [done|].
    cbn in Hk. by decompose [or] Hk; subst. }
  destruct (PyDict.contains "dominant_emotion" filled) eqn:Ed.
  - split; [done|]. split; [done|].
    intros k Hk. cbn in Hk.
    destruct Hk as [<-|[<-|[<-|[<-|[<-|[<-|[<-|[<-|[]]]]]]]]];
      try (apply Hreq; cbn; tauto). done.
  - destruct (float_scores float_of_str filled _) as [scores|e] eqn:Es;
      cbn [mbind result_bind].
    + split; [|split].
      * intros k v Hk. destruct (decide (k = "dominant_emotion")) as [->|Hne].
        -- apply dict_contains_get in Ed. rewrite (Hkept _ _ Hk) in Ed. discriminate.
        -- rewrite dict_get_set_ne by done. by apply Hkept.
      * intros k d Hd Hk. rewrite dict_get_set_ne; [by apply Hdef|].
        intros <-. discriminate.
      * intros k Hk. unfold PyDict.contains.
        destruct (decide (k = "dominant_emotion")) as [->|Hne];
          [by rewrite dict_get_set_eq|].
        rewrite dict_get_set_ne by done.
        fold (PyDict.contains k filled). apply Hreq. cbn in *. intuition congruence.
    + split; [|by apply float_scores_error in Es].
      apply dict_contains_get in Ed. rewrite Hget in Ed.
      by destruct (PyDict.get "dominant_emotion" data).
Qed.

End RequiredFieldsFacts.

(** ** An answer without a JSON object *)

Section FallbackAnalysisFacts.
Import PyNum Emotion EmotionMethods Groq.
Variable float_of_str : string -> option pyfloat.
Variable int_of_str : string -> option Z.
Variable json_loads : string -> result (PyDict.dict string pyval).
Variable session_post : string -> result response.

(** The result that is constructed from a fallback payload. *)
Lemma from_fallback_payload (content : string) (pt : option Q) (now : Z) :
  let hit c := any_in (trigger_words c) (Py.lower content) in
  exists r,
    from_api_response float_of_str (_create_fallback_response content) pt now = Ok r
    ∧ overall_confidence r = 600 # 1000
    ∧ (forall c, get_emotion_score r c
                 = Ok (if hit c then 5000 # 100 else 2000 # 100))
    ∧ (forall c, hit c = true -> hit (dominant_emotion r) = true)
    ∧ (forall c, (rank c < rank (dominant_emotion r))%nat -> hit c = false)
    ∧ ((forall c, hit c = false) -> dominant_emotion r = HAPPINESS)
    ∧ summary r = PStr (FALLBACK_SUMMARY ++ value (dominant_emotion r))
    ∧ processing_time r = pt
    ∧ status r = COMPLETED.
Proof.
  cbn zeta. unfold _create_fallback_response, fallback_scores.
  assert (Hhit : forall c, any_in (trigger_words c) (Py.lower content)
    = match c with
      | HAPPINESS => any_in happiness_words (Py.lower content)
      | SADNESS => any_in sadness_words (Py.lower content)
      | ANGER => any_in anger_words (Py.lower content)
      | FEAR => any_in fear_words (Py.lower content)
      | LOVE => any_in love_words (Py.lower content)
      end) by (by intros []).
  setoid_rewrite Hhit. clear Hhit.
  generalize (any_in happiness_words (Py.lower content)).
  generalize (any_in sadness_words (Py.lower content)).
  generalize (any_in anger_words (Py.lower content)).
  generalize (any_in fear_words (Py.lower content)).
  generalize (any_in love_words (Py.lower content)).
  intros h5 h4 h3 h2 h1.
  destruct h1, h2, h3, h4, h5;
    (eexists; split; [vm_compute; reflexivity|];
     split; [reflexivity|];
     split; [by intros []|];
     split; [by intros []|];
     split; [intros []; cbn; first [done | lia]|];
     split; [first [reflexivity
                   | intros H; first [discriminate (H HAPPINESS)
                                     | discriminate (H SADNESS)
                                     | discriminate (H ANGER)
                                     | discriminate (H FEAR)
                                     | discriminate (H LOVE)]]|];
     split; [reflexivity|]; split; reflexivity).
Qed.

(** X23.  When the model answers with status 200 and a text that holds no
    JSON object, the analysis still succeeds, from the keywords of the
    text alone: one request was sent; every category scores 20, or 50 when
    one of its keywords occurs in the lower-cased text; the dominant
    category is the first one with a keyword (happiness when there is
    none); the confidence is 0.6, which rates as "Medium" and is not high
    confidence. *)
Theorem analyze_emotions_without_json (lyrics content : string) (t0 t1 : Q) (now : Z)
    (resp : response) :
  Py.strip lyrics ≠ "" ->
  session_post (_create_analysis_prompt (Py.strip lyrics)) = Ok resp ->
  status_code resp = 200 ->
  json resp = Ok (chat_response content) ->
  content ≠ "" ->
  Rx.search_braces (Py.strip content) = None ->
  let hit c := any_in (trigger_words c) (Py.lower (Py.strip content)) in
  exists r,
    analyze_emotions float_of_str int_of_str json_loads session_post lyrics t0 t1 now
    = (Ok r, [_create_analysis_prompt (Py.strip lyrics)])
    ∧ (forall c, get_emotion_score r c
                 = Ok (if hit c then 5000 # 100 else 2000 # 100))
    ∧ (forall c, hit c = true -> hit (dominant_emotion r) = true)
    ∧ (forall c, (rank c < rank (dominant_emotion r))%nat -> hit c = false)
    ∧ ((forall c, hit c = false) -> dominant_emotion r = HAPPINESS)
    ∧ overall_confidence r = 600 # 1000
    ∧ analysis_quality r = "Medium"
    ∧ is_high_confidence r = false
    ∧ processing_time r = Some (t1 - t0)%Q.
Proof.
  intros Hlyrics Hpost Hcode Hjson Hcontent Hbraces. cbn zeta.
  destruct (from_fallback_payload (Py.strip content) (Some (t1 - t0)%Q) now)
    as (r & Hr & Hconf & Hscores & Hdom & Hfirst & Hnone & _ & Hpt & _).
  exists r. split.
  - unfold analyze_emotions.
    destruct (negb (Py.truthy lyrics) || negb (Py.truthy (Py.strip lyrics))) eqn:G;
      [by apply guard_blank_iff in G|].
    unfold _make_request. rewrite Hpost. cbn [mbind result_bind].
    rewrite Hcode. cbn [Z.eqb Pos.eqb]. rewrite Hjson. cbn [mbind result_bind].
    rewrite (parse_falls_back float_of_str json_loads content Hcontent (or_introl Hbraces)).
    cbn [mbind result_bind]. by rewrite Hr.
  - repeat split; try done.
    + unfold analysis_quality. by rewrite Hconf.
    + unfold is_high_confidence. by rewrite Hconf.
Qed.

End FallbackAnalysisFacts.

(** The model answers in prose. *)
Lemma analyze_emotions_without_json_witness :
  let content := "I love this song, it feels sad." in
  let session := fun _ : string =>
    Ok (Groq.mkResponse 200 (Ok (chat_response content)) true None) in
  exists r,
    fst (Groq.analyze_emotions (fun _ => None) (fun _ => None)
           (fun _ => Raise JSONDecodeError) session "la la la" 0 1 0) = Ok r
    ∧ Emotion.dominant_emotion r = Emotion.SADNESS
    ∧ EmotionMethods.analysis_quality r = "Medium".
Proof.
  intros content session.
  destruct (analyze_emotions_without_json (fun _ => None) (fun _ => None)
              (fun _ => Raise JSONDecodeError) session "la la la" content 0 1 0
              (Groq.mkResponse 200 (Ok (chat_response content)) true None))
    as (r & Hr & _ & _ & _ & _ & _ & Hq & _);
    [discriminate | reflexivity | reflexivity | reflexivity | discriminate
    | reflexivity |].
  exists r. split; [by rewrite Hr|]. split; [|exact Hq].
  vm_compute in Hr. by injection Hr as <-.
Defined.

(** ** The analysis service *)

Section AnalysisServiceFacts.
Import Emotion SongData AnalysisService.
Variable md5_hexdigest : string -> string.

(** X24.  The analysis of a song is stored under the MD5 digest of its
    lyrics and never expires: after an analysis that missed the cache and
    succeeded, the analysis of any song whose lyrics have the same digest
    returns the stored result without handing anything to the Groq
    service, whatever that service would answer now, and leaves the cache
    as it is. *)
Theorem analyze_song_cached
    (analyze_emotions analyze_emotions' : string -> result EmotionAnalysisResult)
    (song song' : Song) (l l' : LyricsData) (r : EmotionAnalysisResult)
    (cache : PyDict.dict string EmotionAnalysisResult) :
  lyrics song = Some l -> has_lyrics song = true ->
  lyrics song' = Some l' -> has_lyrics song' = true ->
  md5_hexdigest (content l') = md5_hexdigest (content l) ->
  PyDict.get (md5_hexdigest (content l)) cache = None ->
  analyze_emotions (content l) = Ok r ->
  exists cache1,
    analyze_song md5_hexdigest analyze_emotions true song cache
    = (Ok r, cache1, [content l])
    ∧ analyze_song md5_hexdigest analyze_emotions' true song' cache1
      = (Ok r, cache1, [])
    ∧ forall k v, PyDict.get k cache = Some v -> PyDict.get k cache1 = Some v.
Proof.
  intros Hl Hhas Hl' Hhas' Hmd5 Hmiss Hok.
  exists (PyDict.set (md5_hexdigest (content l)) r cache).
  unfold analyze_song, _get_cache_key. rewrite Hhas, Hhas', Hl, Hl'. cbn [negb].
  rewrite Hmiss, Hok, Hmd5, dict_get_set_eq. repeat split.
  intros k v Hk. rewrite dict_get_set_ne; [done|]. intros <-. congruence.
Qed.

End AnalysisServiceFacts.

(** Two songs whose lyrics differ in letter case only, under a digest that
    does not see the case: the second analysis is answered from the
    cache. *)
Lemma analyze_song_cached_witness :
  let l := SongData.mkLyrics "la la la" "en" 3 1 0 0 0 0 "genius" in
  let l' := SongData.mkLyrics "La La La" "en" 3 1 0 0 0 0 "genius" in
  let song := SongData.mkSong (SongData.metadata sample_song) (Some l) None 0 in
  let song' := SongData.mkSong (SongData.metadata sample_song) (Some l') None 0 in
  exists cache1,
    AnalysisService.analyze_song Py.lower (fun _ => Ok sample_result) true song []
    = (Ok sample_result, cache1, ["la la la"])
    ∧ AnalysisService.analyze_song Py.lower (fun _ => Raise NetworkError) true song' cache1
      = (Ok sample_result, cache1, []).
Proof.
  intros l l' song song'.
  destruct (analyze_song_cached Py.lower (fun _ => Ok sample_result)
              (fun _ => Raise NetworkError) song song' l l' sample_result [])
    as (cache1 & H1 & H2 & _); try reflexivity.
  by exists cache1.
Defined.

(** ** Statistics of the lyrics *)

Section LyricsFacts.
Import SongData.

Lemma truthy_rstrip (s : string) :
  Py.truthy (Py.rstrip s) = existsb nonspace (list_ascii_of_string s).
Proof.
  induction s as [|c s IH]; [done|]. rewrite rstrip_cons. cbn [list_ascii_of_string existsb].
  rewrite <- IH. unfold nonspace.
  destruct (Py.rstrip s); cbn; [by destruct (Py.isspace c)|].
  by rewrite orb_true_r.
Qed.

Lemma existsb_lstrip (s : string) :
  existsb nonspace (list_ascii_of_string (Py.lstrip s))
  = existsb nonspace (list_ascii_of_string s).
Proof.
  induction s as [|c s IH]; [done|]. cbn [Py.lstrip].
  destruct (Py.isspace c) eqn:E; [|done].
  rewrite IH. cbn [list_ascii_of_string existsb]. unfold nonspace at 2.
  by rewrite E.
Qed.

Lemma truthy_strip (s : string) :
  Py.truthy (Py.strip s) = existsb nonspace (list_ascii_of_string s).
Proof. unfold Py.strip. by rewrite truthy_rstrip, existsb_lstrip. Qed.

Lemma truthy_strip_line (cur : list ascii) :
  Py.truthy (Py.strip (string_of_list_ascii (rev cur))) = existsb nonspace cur.
Proof.
  rewrite truthy_strip, list_ascii_of_string_of_list_ascii.
  induction cur as [|c cur IH]; [done|]. cbn.
  rewrite existsb_app. cbn. rewrite IH. by rewrite orb_false_r, orb_comm.
Qed.

(** Every line that is not blank holds a word of its own: [cur_line] is
    the line being read and [cur_word] the word being read. *)
Lemma lines_le_words (s : string) (cur_line cur_word : list ascii) :
  (length (List.filter (fun line => Py.truthy (Py.strip line))
             (split_lines_from cur_line s))
   <= length (Py.split_from cur_word s)
      + (if existsb nonspace cur_line && bool_decide (cur_word = []) then 1 else 0))%nat.
Proof.
  revert cur_line cur_word. induction s as [|c s IH]; intros cur_line cur_word.
  - cbn [split_lines_from Py.split_from List.filter]. rewrite truthy_strip_line.
    destruct (existsb nonspace cur_line), cur_word; cbn; lia.
  - cbn [split_lines_from Py.split_from].
    destruct (Ascii.eqb_spec c "010"%char) as [->|Hc].
    + change (Py.isspace "010") with true. cbn iota.
      cbn [List.filter]. rewrite truthy_strip_line.
      specialize (IH [] []). cbn in IH.
      destruct (existsb nonspace cur_line), cur_word; cbn; lia.
    + destruct (Py.isspace c) eqn:Es.
      * specialize (IH (c :: cur_line) []). cbn [existsb] in IH.
        unfold nonspace at 1 in IH. rewrite Es in IH. cbn [negb orb] in IH.
        destruct (existsb nonspace cur_line), cur_word; cbn in *; lia.
      * specialize (IH (c :: cur_line) (c :: cur_word)). cbn [existsb] in IH.
        rewrite bool_decide_eq_false_2 in IH by done.
        rewrite andb_false_r in IH.
        destruct (existsb nonspace cur_line && bool_decide (cur_word = [])); lia.
Qed.

Lemma lines_nonblank (s : string) (cur_line : list ascii) :
  existsb nonspace cur_line || existsb nonspace (list_ascii_of_string s) = true ->
  (1 <= length (List.filter (fun line => Py.truthy (Py.strip line))
                  (split_lines_from cur_line s)))%nat.
Proof.
  revert cur_line. induction s as [|c s IH]; intros cur_line.
  - cbn [split_lines_from List.filter list_ascii_of_string existsb].
    rewrite truthy_strip_line, orb_false_r. intros ->. cbn. lia.
  - cbn [split_lines_from list_ascii_of_string existsb].
    destruct (Ascii.eqb_spec c "010"%char) as [->|Hc].
    + change (nonspace "010") with false. cbn [orb]. cbn [List.filter].
      rewrite truthy_strip_line. intros H.
      destruct (existsb nonspace cur_line); [cbn; lia|].
      specialize (IH [] H). cbn [existsb orb] in IH. lia.
    + intros H. apply IH. cbn [existsb]. 
      destruct (nonspace c), (existsb nonspace cur_line),
        (existsb nonspace (list_ascii_of_string s)); done.
Qed.

Lemma LyricsData_new_Ok (raw_content : string) (now : Z) (l : LyricsData) :
  LyricsData_new raw_content now = Ok l ->
  content l = Py.strip raw_content
  ∧ content l ≠ ""
  ∧ Py.strip (content l) = content l
  ∧ (1 <= line_count l <= word_count l)%nat
  ∧ retrieved_at l = now.
Proof.
  unfold LyricsData_new.
  destruct (negb (Py.truthy raw_content) || negb (Py.truthy (Py.strip raw_content))) eqn:G;
    [discriminate|].
  assert (Hne : Py.truthy (Py.strip raw_content) = true).
  { apply orb_false_iff in G as [_ G]. by apply negb_false_iff in G. }
  intros [= <-]. cbn [content line_count word_count retrieved_at].
  split; [done|]. split; [by destruct (Py.strip raw_content)|].
  split; [apply strip_idem|]. split; [|done]. split.
  - apply lines_nonblank. cbn [existsb orb].
    rewrite <- truthy_strip. by rewrite strip_idem.
  - pose proof (lines_le_words (Py.strip raw_content) [] []) as H.
    cbn in H. unfold split_lines, Py.split. lia.
Qed.

(** X25.  [LyricsData] accepts exactly the contents that are not blank
    (the others end in [ValueError]); it stores the content stripped of
    surrounding white space, which is not empty and is left unchanged by
    stripping again, and its counts are consistent: at least one line
    that is not blank, and at least as many words as such lines. *)
Theorem LyricsData_new_statistics (raw_content : string) (now : Z) :
  match LyricsData_new raw_content now with
  | Ok l =>
      Py.strip raw_content ≠ ""
      ∧ content l = Py.strip raw_content
      ∧ Py.strip (content l) = content l
      ∧ (1 <= line_count l <= word_count l)%nat
      ∧ retrieved_at l = now
  | Raise e => e = ValueError ∧ Py.strip raw_content = ""
  end.
Proof.
  destruct (LyricsData_new raw_content now) as [l|e] eqn:E.
  - destruct (LyricsData_new_Ok _ _ _ E) as (Hc & Hne & Hs & Hn & Hr).
    rewrite <- Hc. repeat split; try done; lia.
  - unfold LyricsData_new in E.
    destruct (negb (Py.truthy raw_content) || negb (Py.truthy (Py.strip raw_content)))
      eqn:G; [|discriminate].
    injection E as <-. split; [done|]. by apply guard_blank_iff.
Qed.

End LyricsFacts.

(** ** From the resolution of a song to its analysis *)

Section PipelineFacts.
Import SongData.
Variable search_songs : string -> Z -> result (list SearchResult.t).
Variable get_song_details : Z -> result SongMetadata.
Variable scrape_lyrics : option string -> result string.

Lemma best_match_in (song_name artist_name : string)
    (first : SearchResult.t) (rest : list SearchResult.t) :
  In (Genius.best_match song_name artist_name (first :: rest) first) (first :: rest).
Proof.
  unfold Genius.best_match.
  destruct (List.find _ (first :: rest)) as [r|] eqn:E; [|by left].
  by apply find_some in E as [Hin _].
Qed.

(** X26.  Every song that [find_and_fetch_song] returns is ready for the
    analysis: its metadata are those of one of the search results for the
    query built from the validated names, its lyrics are the scraped text
    stripped of surrounding white space, they are not blank
    ([has_lyrics] holds) and their counts are consistent, so that
    [analyze_song] does not refuse the song: when its cache is on and
    holds a result under the digest of these lyrics it returns that result
    and asks nothing of the Groq service; in every other case (cache off,
    or digest not stored) it hands exactly these lyrics to the Groq
    service, returns its outcome, and with the cache on stores a result
    under the digest. *)
Theorem fetched_song_ready (song_name artist_name : string) (now1 now2 : Z)
    (song : Song) :
  Genius.find_and_fetch_song search_songs get_song_details scrape_lyrics
    song_name artist_name now1 now2 = Ok song ->
  AnalysisService.has_lyrics song = true
  ∧ search_query song = Some (Py.strip song_name ++ " " ++ Py.strip artist_name)%string
  ∧ (exists results best,
       search_songs (Py.strip song_name ++ " " ++ Py.strip artist_name)%string 10
       = Ok results
       ∧ In best results
       ∧ get_song_details (SearchResult.song_id best) = Ok (metadata song))
  ∧ exists l raw,
      lyrics song = Some l
      ∧ scrape_lyrics (genius_url (metadata song)) = Ok raw
      ∧ content l = Py.strip raw
      ∧ (1 <= line_count l <= word_count l)%nat
      ∧ forall md5_hexdigest analyze_emotions use_cache cache,
          let key := md5_hexdigest (content l) in
          let outcome :=
            AnalysisService.analyze_song md5_hexdigest analyze_emotions
              use_cache song cache in
          (forall stored,
             use_cache = true -> PyDict.get key cache = Some stored ->
             outcome = (Ok stored, cache, []))
          ∧ (use_cache = false ∨ PyDict.get key cache = None ->
             outcome
             = (analyze_emotions (content l),
                match analyze_emotions (content l) with
                | Ok result =>
                    if use_cache then PyDict.set key result cache else cache
                | Raise _ => cache
                end,
                [content l])).
Proof.
  unfold Genius.find_and_fetch_song. intros H.
  apply bind_Ok in H as (s & Es & H). apply bind_Ok in H as (a & Ea & H).
  apply bind_Ok in H as (results & Er & H).
  destruct (validate_song_name_Ok _ _ Es) as (-> & _).
  destruct (validate_artist_name_Ok _ _ Ea) as (-> & _).
  destruct results as [|first rest]; [discriminate|].
  unfold Genius.fetch_song in H.
  set (best := Genius.best_match _ _ _ _) in H.
  apply bind_Ok in H as (metadata & Em & H).
  apply bind_Ok in H as (lyrics_data & El & H). injection H as <-.
  cbn [lyrics search_query SongData.metadata].
  assert (Hl : exists raw, scrape_lyrics (genius_url metadata) = Ok raw
                           ∧ LyricsData_new raw now1 = Ok lyrics_data).
  { destruct (scrape_lyrics (genius_url metadata)) as [raw|e] eqn:Eraw;
      cbn [mbind result_bind] in El.
    - exists raw. split; [done|].
      destruct (LyricsData_new raw now1) as [l|e]; [done|]. by destruct e.
    - by destruct e. }
  destruct Hl as (raw & Hraw & Hnew).
  destruct (LyricsData_new_Ok _ _ _ Hnew) as (Hc & Hne & Hstrip & Hcount & _).
  assert (Hhas : AnalysisService.has_lyrics
            (mkSong metadata (Some lyrics_data)
               (Some (Py.strip song_name ++ " " ++ Py.strip artist_name)%string) now2) = true).
  { unfold AnalysisService.has_lyrics. cbn [lyrics]. rewrite Hstrip.
    by destruct (content lyrics_data). }
  split; [done|]. split; [done|]. split.
  - exists (first :: rest), best. split; [done|]. split; [|done]. apply best_match_in.
  - exists lyrics_data, raw.
    split; [done|]. split; [done|]. split; [done|]. split; [lia|].
    intros md5 analyze use_cache cache. cbn zeta.
    unfold AnalysisService.analyze_song, AnalysisService._get_cache_key.
    rewrite Hhas. cbn [negb lyrics]. split.
    + intros stored -> Hget. by rewrite Hget.
    + intros [-> | Hget]; [|rewrite Hget; destruct use_cache];
        by destruct (analyze (content lyrics_data)).
Qed.

End PipelineFacts.

(** The running example, with a page whose text is two lines. *)
Lemma fetched_song_ready_witness :
  let r2 := SearchResult.mk 2 "Hello" "Adele" "u2" None None in
  let search := fun (_ : string) (_ : Z) => Ok [r2] in
  let details := fun (_ : Z) => Ok (SongData.metadata sample_song) in
  let scrape := fun (_ : option string) =>
    Ok ("  Hello, it's me" ++ Rx.lf ++ "I was wondering  ")%string in
  exists song,
    Genius.find_and_fetch_song search details scrape "Hello" "Adele" 0 0 = Ok song
    ∧ AnalysisService.has_lyrics song = true.
Proof.
  intros r2 search details scrape. eexists. split; [vm_compute; reflexivity|].
  refine (proj1 (fetched_song_ready search details scrape "Hello" "Adele" 0 0 _ _)).
  vm_compute. reflexivity.
Defined.

(** ** Search by artist and the smart search *)

Section SearchFacts.
Import GeniusSearch.
Variable search_songs : string -> Z -> result (list SearchResult.t).

Lemma artist_loop_spec (artist_name : string) (limit : Z)
    (search_results artist_songs : list SearchResult.t) :
  let n := Z.to_nat (Z.max limit 1) in
  (length artist_songs < n)%nat ->
  artist_loop artist_name limit search_results artist_songs
  = (artist_songs
     ++ firstn (n - length artist_songs)
          (List.filter (artist_similar artist_name) search_results))%list.
Proof.
  cbn zeta. revert artist_songs.
  induction search_results as [|r rest IH]; intros acc Hacc.
  - cbn. by rewrite firstn_nil, app_nil_r.
  - cbn [artist_loop List.filter]. destruct (artist_similar artist_name r); [|by apply IH].
    rewrite length_app. cbn [length].
    destruct (Z.leb_spec limit (Z.of_nat (length acc + 1))) as [Hfull|Hroom].
    + assert (Z.to_nat (Z.max limit 1) - length acc = 1)%nat as -> by lia.
      cbn. by rewrite firstn_O.
    + rewrite IH by (rewrite length_app; cbn; lia).
      rewrite length_app. cbn [length]. rewrite <- app_assoc. cbn [app].
      destruct (Z.to_nat (Z.max limit 1) - length acc)%nat as [|k] eqn:Ek; [lia|].
      cbn [firstn]. do 3 f_equal. lia.
Qed.

(** X27.  [search_by_artist_only] asks for twice [limit] results and
    returns, in the order of the search, the first [limit] of them whose
    artist name is similar to the one asked for (similarity above 0.6);
    with a limit of 0 or below it still returns one such result, since
    the loop counts only after appending. *)
Theorem search_by_artist_only_result (artist_name : string) (limit : Z)
    (search_results : list SearchResult.t) :
  search_songs artist_name (limit * 2) = Ok search_results ->
  search_by_artist_only search_songs artist_name limit
  = Ok (firstn (Z.to_nat (Z.max limit 1))
          (List.filter (artist_similar artist_name) search_results)).
Proof.
  intros Hs. unfold search_by_artist_only. rewrite Hs. cbn [mbind result_bind].
  rewrite artist_loop_spec by (cbn; lia). cbn [app length]. by rewrite Nat.sub_0_r.
Qed.

Lemma unique_results_spec (all_results : list SearchResult.t) (seen_ids : gset Z) :
  NoDup (map SearchResult.song_id (unique_results all_results seen_ids))
  ∧ (forall r, In r (unique_results all_results seen_ids) ->
       In r all_results ∧ SearchResult.song_id r ∉ seen_ids)
  ∧ (forall r, In r all_results ->
       SearchResult.song_id r ∈ seen_ids
       ∨ In (SearchResult.song_id r)
            (map SearchResult.song_id (unique_results all_results seen_ids))).
Proof.
  revert seen_ids. induction all_results as [|x rest IH]; intros seen.
  - cbn. split; [constructor|]. split; by intros r [].
  - cbn [unique_results]. destruct (bool_decide_reflect (SearchResult.song_id x ∈ seen)) as [Hin|Hout].
    + destruct (IH seen) as (Hnd & Hsub & Hall). split; [done|]. split.
      * intros r Hr. destruct (Hsub r Hr). split; [by right|done].
      * intros r [<-|Hr]; [by left|by apply Hall].
    + destruct (IH ({[SearchResult.song_id x]} ∪ seen)) as (Hnd & Hsub & Hall).
      split; [|split].
      * cbn [map]. apply NoDup_cons. split; [|done].
        intros Hx. apply list_elem_of_In, in_map_iff in Hx as (r & Hid & Hr).
        destruct (Hsub r Hr) as [_ Hnot]. apply Hnot. rewrite Hid.
        apply elem_of_union. left. by apply elem_of_singleton.
      * intros r [<-|Hr]; [split; [by left|done]|].
        destruct (Hsub r Hr) as [? Hnot]. split; [by right|].
        intros Hs. apply Hnot, elem_of_union. by right.
      * intros r [<-|Hr]; [right; by left|].
        destruct (Hall r Hr) as [Hs|Hi]; [|right; by right].
        apply elem_of_union in Hs as [Hs|Hs]; [|by left].
        apply elem_of_singleton in Hs. right. left. done.
Qed.

Lemma artist_loop_similar (artist_name : string) (limit : Z)
    (search_results artist_songs : list SearchResult.t) (r : SearchResult.t) :
  In r (artist_loop artist_name limit search_results artist_songs) ->
  In r artist_songs ∨ (In r search_results ∧ artist_similar artist_name r = true).
Proof.
  revert artist_songs. induction search_results as [|x rest IH]; intros acc; [by left|].
  cbn [artist_loop]. destruct (artist_similar artist_name x) eqn:Ex.
  - destruct (_ <=? _).
    + intros Hr. apply in_app_or in Hr as [?|[<-|[]]]; [by left|right]. split; [by left|done].
    + intros Hr. destruct (IH _ Hr) as [Ha|[? ?]]; [|right; split; [by right|done]].
      apply in_app_or in Ha as [?|[<-|[]]]; [by left|right]. split; [by left|done].
  - intros Hr. destruct (IH _ Hr) as [?|[? ?]]; [by left|right]. split; [by right|done].
Qed.

(** X28.  The smart search in its automatic mode: a query whose
    lower-cased text contains one of the indicators ("feat", "ft",
    "featuring", "remix", "version", "cover") anywhere, also inside a word,
    is searched as a title only; every other query is searched by artist
    and by title, and the combined answer holds no song identifier twice,
    has at most 20 results, and every result in it is similar to the query
    by its artist name (above 0.6) or by its title (above 0.5).  A search
    type other than "artist", "song" and "auto" is the plain search. *)
Theorem smart_search_auto (query : string) :
  let is_likely_song :=
    existsb (fun indicator => Py.contains indicator (Py.lower query)) song_indicators in
  (is_likely_song = true ↔
   exists indicator pre post,
     In indicator song_indicators
     ∧ Py.lower query = (pre ++ indicator ++ post)%string)
  ∧ (is_likely_song = true ->
     smart_search search_songs query "auto"
     = search_by_song_only search_songs query 20)
  ∧ (is_likely_song = false ->
     forall results,
       smart_search search_songs query "auto" = Ok results ->
       NoDup (map SearchResult.song_id results)
       ∧ (length results <= 20)%nat
       ∧ forall r, In r results ->
           artist_similar query r = true ∨ title_similar query r = true)
  ∧ (forall search_type,
       search_type ≠ "artist" -> search_type ≠ "song" -> search_type ≠ "auto" ->
       smart_search search_songs query search_type = search_songs query 10).
Proof.
  cbn zeta. split; [|split; [|split]].
  - rewrite existsb_exists. split.
    + intros (w & Hin & Hc). apply contains_iff in Hc as (pre & post & Hp).
      by exists w, pre, post.
    + intros (w & pre & post & Hin & Hp). exists w. split; [done|].
      apply contains_iff. by exists pre, post.
  - intros Hl. unfold smart_search. cbn [String.eqb Ascii.eqb Bool.eqb]. by rewrite Hl.
  - intros Hl results. unfold smart_search. cbn [String.eqb Ascii.eqb Bool.eqb].
    rewrite Hl. intros H.
    apply bind_Ok in H as (artist_results & Ea & H).
    apply bind_Ok in H as (song_results & Es & H). injection H as <-.
    destruct (unique_results_spec (artist_results ++ song_results) ∅)
      as (Hnd & Hsub & _).
    unfold PySorted.slice_to. cbn [Z.leb Z.compare Z.to_nat].
    set (u := unique_results _ _) in *.
    split; [|split].
    + rewrite <- (firstn_skipn (Pos.to_nat 20) u) in Hnd.
      rewrite map_app in Hnd. by apply NoDup_app in Hnd as [? _].
    + rewrite length_firstn. lia.
    + intros r Hr.
      assert (Hu : In r u).
      { rewrite <- (firstn_skipn (Pos.to_nat 20) u). apply in_or_app. by left. }
      destruct (Hsub r Hu) as [Hin _]. apply in_app_or in Hin as [Hin|Hin].
      * left. unfold search_by_artist_only in Ea.
        apply bind_Ok in Ea as (rs & _ & Ea). injection Ea as <-.
        by destruct (artist_loop_similar _ _ _ _ _ Hin) as [[]|[_ ?]].
      * right. unfold search_by_song_only in Es.
        apply bind_Ok in Es as (rs & _ & Es). injection Es as <-.
        by apply filter_In in Hin as [_ ?].
  - intros search_type H1 H2 H3. unfold smart_search.
    apply String.eqb_neq in H1, H2, H3. by rewrite H1, H2, H3.
Qed.

End SearchFacts.

(** A search that returns three songs of the artist: with limit 2 the
    first two come back, with limit 0 still one. *)
Lemma search_by_artist_only_result_witness :
  let r1 := SearchResult.mk 1 "Hello" "Adele" "u1" None None in
  let r2 := SearchResult.mk 2 "Skyfall" "Adele" "u2" None None in
  let r3 := SearchResult.mk 3 "Easy On Me" "Adele" "u3" None None in
  let search := fun (_ : string) (_ : Z) => Ok [r1; r2; r3] in
  GeniusSearch.search_by_artist_only search "adele" 2 = Ok [r1; r2]
  ∧ GeniusSearch.search_by_artist_only search "adele" 0 = Ok [r1].
Proof.
  intros r1 r2 r3 search. split.
  - rewrite (search_by_artist_only_result search "adele" 2 [r1; r2; r3] eq_refl).
    vm_compute. reflexivity.
  - rewrite (search_by_artist_only_result search "adele" 0 [r1; r2; r3] eq_refl).
    vm_compute. reflexivity.
Defined.

(** ** Rounding of a score *)

Section ScoreRoundingFacts.
Import PyNum Emotion.





End ScoreRoundingFacts.

(** ** The search *)

Section SearchSongsFacts.
Import PyNum GeniusSearchSongs.
Variable int_of_str : string -> option Z.
Variable session_get : request -> result GeniusRequest.response.

Lemma make_request_Ok (req : request) (t1 t2 t3 t4 : Z) (rl rl' : RateLimiter.t)
    (v : pyval) (sent : list request) :
  GeniusRequest._make_request int_of_str request session_get req t1 t2 t3 t4 rl
  = (Ok v, rl', sent) ->
  sent = [req]
  ∧ exists resp,
      session_get req = Ok resp
      ∧ GeniusRequest.status_code resp = 200
      ∧ GeniusRequest.json resp = Ok v.
Proof.
  unfold GeniusRequest._make_request.
  destruct (GeniusRequest.gate t1 t2 t3 rl) as [[[]|e] rl1]; [|discriminate].
  destruct (session_get req) as [resp|e]; [|discriminate].
  unfold GeniusRequest.answer.
  destruct (GeniusRequest.status_code resp =? 200) eqn:E200.
  - apply Z.eqb_eq in E200.
    destruct (GeniusRequest.json resp) as [w|e] eqn:Ej; [|discriminate].
    intros H. injection H as <- _ <-. split; [done|]. by exists resp.
  - destruct (GeniusRequest.status_code resp =? 401); [discriminate|].
    destruct (GeniusRequest.status_code resp =? 403); [discriminate|].
    destruct (GeniusRequest.status_code resp =? 404); [discriminate|].
    destruct (GeniusRequest.status_code resp =? 429); [|discriminate].
    destruct (int_of_str _); discriminate.
Qed.

Lemma make_request_sent (req : request) (t1 t2 t3 t4 : Z) (rl : RateLimiter.t) :
  let sent := snd (GeniusRequest._make_request int_of_str request session_get
                     req t1 t2 t3 t4 rl) in
  sent = [] ∨ sent = [req].
Proof.
  cbn zeta. unfold GeniusRequest._make_request.
  destruct (GeniusRequest.gate t1 t2 t3 rl) as [[[]|e] rl1]; [|by left].
  destruct (session_get req); by right.
Qed.

(** What the loop over the hits appends. *)
Lemma hits_loop_spec (hits : list pyval) (acc results : list RawSearchResult) :
  hits_loop hits acc = Ok results ->
  exists added,
    results = (acc ++ added)%list
    ∧ (length added <= length hits)%nat
    ∧ Forall (found_in hits) added.
Proof.
  revert acc. induction hits as [|hit rest IH]; intros acc.
  - cbn. intros [= <-]. exists []. rewrite app_nil_r. by repeat split.
  - cbn [hits_loop].
    destruct (Groq.any_get "result" (PDict []) hit) as [song_data|e] eqn:Eh;
      cbn [mbind result_bind]; [|discriminate].
    assert (Hweak : forall added, Forall (found_in rest) added ->
                                  Forall (found_in (hit :: rest)) added).
    { intros added Ha. eapply Forall_impl; [exact Ha|].
      intros sr (h & sd & Hin & Hrest). exists h, sd. split; [by right|done]. }
    assert (Hskip : hits_loop rest acc = Ok results ->
      exists added, results = (acc ++ added)%list
        ∧ (length added <= length (hit :: rest))%nat
        ∧ Forall (found_in (hit :: rest)) added).
    { intros H. destruct (IH _ H) as (added & -> & Hlen & Hall).
      exists added. split; [done|]. split; [cbn; lia|by apply Hweak]. }
    destruct (negb (Groq.truthy song_data)) eqn:Et; [done|].
    destruct (parse_song_data song_data) as [[sr|]|e] eqn:Ep; try done.
    intros H. destruct (IH _ H) as (added & -> & Hlen & Hall).
    exists (sr :: added). split; [by rewrite <- app_assoc|].
    split; [cbn; lia|]. constructor; [|by apply Hweak].
    exists hit, song_data. split; [by left|]. split; [done|].
    split; [by apply negb_false_iff in Et|done].
Qed.

Lemma parse_song_data_valid (song_data : pyval) (sr : RawSearchResult) :
  parse_song_data song_data = Ok (Some sr) ->
  gt_zero (song_id sr) = Ok true
  ∧ Groq.truthy (title sr) = true
  ∧ Groq.truthy (artist_name sr) = true
  ∧ exists d, song_data = PDict d
      ∧ song_id sr = PyDict.get_default "id" (PInt 0) d
      ∧ title sr = PyDict.get_default "title" (PStr "") d
      ∧ url sr = PyDict.get_default "url" (PStr "") d.
Proof.
  unfold parse_song_data. intros H.
  apply bind_Ok in H as (i & Ei & H). apply bind_Ok in H as (t & Et & H).
  apply bind_Ok in H as (pa & Epa & H). apply bind_Ok in H as (a & Ea & H).
  apply bind_Ok in H as (u & Eu & H). apply bind_Ok in H as (th & Eth & H).
  apply bind_Ok in H as (st & Est & H). apply bind_Ok in H as (vc & Evc & H).
  apply bind_Ok in H as (pos & Epos & H).
  destruct (pos && Groq.truthy t && Groq.truthy a) eqn:Eall; [|discriminate].
  injection H as <-. cbn [song_id title artist_name url].
  apply andb_true_iff in Eall as [Eall Hta]. apply andb_true_iff in Eall as [-> Htt].
  split; [done|]. split; [done|]. split; [done|].
  destruct song_data; try discriminate. cbn in Ei, Et, Eu.
  injection Ei as <-. injection Et as <-. injection Eu as <-. by eexists.
Qed.

(** With the limiter letting the request through, the outcome is the
    session's answer put through the status dispatch, its library errors
    turned into [NetworkError]. *)
Lemma make_request_open (req : request) (t1 t2 t3 t4 : Z) (rl : RateLimiter.t) :
  fst (GeniusRequest.gate t1 t2 t3 rl) = Ok tt ->
  fst (fst (GeniusRequest._make_request int_of_str request session_get
              req t1 t2 t3 t4 rl))
  = match session_get req with
    | Raise e => Raise (GeniusRequest.as_network_error e)
    | Ok resp =>
        match GeniusRequest.answer int_of_str resp with
        | Ok v => Ok v
        | Raise e => Raise (GeniusRequest.as_network_error e)
        end
    end
  ∧ snd (GeniusRequest._make_request int_of_str request session_get
           req t1 t2 t3 t4 rl) = [req].
Proof.
  unfold GeniusRequest._make_request.
  destruct (GeniusRequest.gate t1 t2 t3 rl) as [[[]|e] rl1]; [|discriminate].
  intros _. by destruct (session_get req).
Qed.

Lemma hits_loop_error (hits : list pyval) (acc : list RawSearchResult) (e : exn) :
  hits_loop hits acc = Raise e -> e = AttributeError.
Proof.
  revert acc. induction hits as [|hit rest IH]; intros acc; [discriminate|].
  cbn [hits_loop].
  destruct (Groq.any_get "result" (PDict []) hit) as [song_data|e'] eqn:Eh;
    cbn [mbind result_bind].
  - destruct (negb (Groq.truthy song_data)); [apply IH|].
    destruct (parse_song_data song_data) as [[sr|]|e']; apply IH.
  - destruct hit; try discriminate; cbn in Eh; by intros [= <-]; injection Eh as <-.
Qed.

(** No failure of the parsing is one of the three classes that
    [search_songs] raises again unchanged. *)
Lemma parse_results_error (v : pyval) (e : exn) :
  parse_results v = Raise e -> reraised e = false.
Proof.
  unfold parse_results.
  destruct (validate_genius_search_response v) as [ok|e1] eqn:Ev;
    cbn [mbind result_bind].
  - destruct v as [| | | | | |data]; try discriminate. cbn [Groq.any_get].
    cbn [mbind result_bind].
    destruct (PyDict.get_default "response" (PDict []) data) as [| | | | | |sd];
      cbn [Groq.any_get mbind result_bind]; try by intros [= <-].
    destruct (iterate (PyDict.get_default "hits" (PList []) sd)) as [hits|e2] eqn:Ei;
      cbn [mbind result_bind].
    + intros H. by rewrite (hits_loop_error _ _ _ H).
    + intros [= <-].
      destruct (PyDict.get_default "hits" (PList []) sd); try discriminate;
        cbn in Ei; by injection Ei as <-.
  - intros [= <-]. unfold validate_genius_search_response in Ev.
    destruct v as [| | | | | |data]; try by injection Ev as <-.
    destruct (PyDict.get "response" data) as [sec|]; [|by injection Ev as <-].
    destruct (any_contains "hits" sec) as [has|e3] eqn:Ec;
      cbn [mbind result_bind] in Ev.
    + destruct (negb has); [by injection Ev as <-|discriminate].
    + injection Ev as <-. destruct sec; try discriminate; cbn in Ec;
        by injection Ec as <-.
Qed.

(** X30.  [search_songs] refuses an empty or blank query with
    [ValueError] before anything is sent.  Otherwise at most one request
    is made, for the stripped query and [min(limit, 50)] results per page,
    and every failure leaves as [GeniusAPIError], [NetworkError] or
    [RateLimitError].  When the limiter refuses, nothing is sent and the
    failure is [RateLimitError] (or [GeniusAPIError], for a [ValueError]
    of the limiter).  Once the limiter lets the request through: a timeout, connection error or other request error of the
    HTTP library leaves as [NetworkError]; an answer with a status other
    than 200 and 429 (401 and 403 included) as [GeniusAPIError]; one with
    status 429 as [RateLimitError] when its Retry-After header, or 60 in
    its absence, reads as an integer, else as [GeniusAPIError]; an answer
    with status 200 whose body the library cannot decode as
    [NetworkError] when the library reports that with its own request
    error, and as [GeniusAPIError] when it reports it with the decoder's
    error; and a decoded answer that cannot be parsed (it is not an
    object, or has no [response] entry, for instance) as
    [GeniusAPIError].  When results are returned, the answer had status
    200 and held the hits, there are no more results than hits, and every
    result was built from the [result] object of a hit and has an
    identifier above 0, a title and an artist name. *)
Theorem search_songs_outcome (query : string) (limit : Z) (t1 t2 t3 t4 : Z)
    (rl : RateLimiter.t) :
  let req := mkRequest "/search"
               [("q", PStr (Py.strip query)); ("per_page", PInt (Z.min limit 50))] in
  let '(r, rl', sent) :=
    search_songs int_of_str session_get query limit t1 t2 t3 t4 rl in
  (Py.strip query = "" -> r = Raise ValueError ∧ sent = [] ∧ rl' = rl)
  ∧ (Py.strip query ≠ "" ->
     (sent = [] ∨ sent = [req])
     ∧ match r with
       | Raise e => e = GeniusAPIError ∨ e = NetworkError ∨ e = RateLimitError
       | Ok results =>
           sent = [req]
           ∧ (exists resp data section hits_value hits,
                session_get req = Ok resp
                ∧ GeniusRequest.status_code resp = 200
                ∧ GeniusRequest.json resp = Ok (PDict data)
                ∧ PyDict.get "response" data = Some (PDict section)
                ∧ PyDict.get "hits" section = Some hits_value
                ∧ iterate hits_value = Ok hits
                ∧ (length results <= length hits)%nat
                ∧ Forall (found_in hits) results)
           ∧ Forall (fun sr =>
                       gt_zero (song_id sr) = Ok true
                       ∧ Groq.truthy (title sr) = true
                       ∧ Groq.truthy (artist_name sr) = true) results
       end
     ∧ (forall e, fst (GeniusRequest.gate t1 t2 t3 rl) = Raise e ->
        sent = []
        ∧ (e = RateLimitError ∧ r = Raise RateLimitError
           ∨ e = ValueError ∧ r = Raise GeniusAPIError))
     ∧ (fst (GeniusRequest.gate t1 t2 t3 rl) = Ok tt ->
        sent = [req]
        ∧ (forall e, session_get req = Raise e ->
             e = RequestsTimeout ∨ e = RequestsConnectionError
             ∨ e = RequestException ->
             r = Raise NetworkError)
        ∧ forall resp, session_get req = Ok resp ->
            let code := GeniusRequest.status_code resp in
            (code ≠ 200 -> code ≠ 429 -> r = Raise GeniusAPIError)
            ∧ (code = 429 ->
               r = Raise
                     match int_of_str (default "60" (GeniusRequest.retry_after resp)) with
                     | Some _ => RateLimitError
                     | None => GeniusAPIError
                     end)
            ∧ (code = 200 ->
               (GeniusRequest.json resp = Raise RequestException ->
                r = Raise NetworkError)
               ∧ (GeniusRequest.json resp = Raise JSONDecodeError ->
                  r = Raise GeniusAPIError)
               ∧ (forall v, GeniusRequest.json resp = Ok v ->
                    (forall e, parse_results v = Raise e -> r = Raise GeniusAPIError)
                    ∧ ((forall d, v ≠ PDict d) -> r = Raise GeniusAPIError)
                    ∧ (forall d, v = PDict d -> PyDict.get "response" d = None ->
                       r = Raise GeniusAPIError))))).
Proof.
  cbn zeta. unfold search_songs.
  destruct (negb (Py.truthy query) || negb (Py.truthy (Py.strip query))) eqn:G.
  - apply guard_blank_iff in G. split; [done|]. by intros [].
  - assert (Hne : Py.strip query ≠ "").
    { intros Hs. apply guard_blank_iff in Hs. congruence. }
    set (req := mkRequest _ _).
    pose proof (make_request_sent req t1 t2 t3 t4 rl) as Hsent.
    pose proof (make_request_Ok req t1 t2 t3 t4 rl) as HOk.
    pose proof (make_request_open req t1 t2 t3 t4 rl) as Hopen.
    pose proof (make_request_gate_raises int_of_str request session_get
                  req t1 t2 t3 t4 rl) as Hclosed.
    pose proof (gate_raises t1 t2 t3 rl) as Hraises.
    destruct (GeniusRequest._make_request _ _ _ req t1 t2 t3 t4 rl)
      as [[response_data rl'] sent].
    cbn [fst snd] in Hsent, Hopen. split; [done|]. intros _. split; [done|].
    split; [|split].
    + destruct response_data as [v|e]; cbn [mbind result_bind];
        [|destruct e; cbn; auto].
      destruct (HOk rl' v sent eq_refl) as (-> & resp & Hget & Hcode & Hjson).
      destruct (parse_results v) as [results|e] eqn:Ep; [|destruct e; cbn; auto].
      unfold parse_results in Ep.
      apply bind_Ok in Ep as (ok & Ev & Ep).
      apply bind_Ok in Ep as (section & Es & Ep).
      apply bind_Ok in Ep as (hv & Eh & Ep).
      apply bind_Ok in Ep as (hits & Ei & Ep).
      destruct (hits_loop_spec _ _ _ Ep) as (added & -> & Hlen & Hall).
      cbn [app]. split; [done|].
      destruct v as [| | | | | |data]; try discriminate.
      cbn in Ev, Es.
      destruct (PyDict.get "response" data) as [sec|] eqn:Er; [|discriminate].
      unfold PyDict.get_default in Es. rewrite Er in Es. injection Es as ->.
      destruct section as [| | | | | |sd]; try discriminate.
      cbn in Ev, Eh. unfold PyDict.contains in Ev.
      unfold PyDict.get_default in Eh.
      destruct (PyDict.get "hits" sd) as [hval|] eqn:Ehits; [|discriminate].
      injection Eh as ->. split.
      * exists resp, data, sd, hv, hits. by repeat split.
      * eapply Forall_impl; [exact Hall|]. intros sr (h & sdata & _ & _ & _ & Hp).
        by destruct (parse_song_data_valid _ _ Hp) as (? & ? & ? & _).
    + intros e He.
      destruct (GeniusRequest.gate t1 t2 t3 rl) as [g rl1]. cbn [fst] in He. subst g.
      injection (Hclosed _ _ eq_refl) as -> _ ->. split; [done|].
      by destruct (Hraises _ _ eq_refl) as [-> | ->]; [left|right].
    + intros Hg. destruct (Hopen Hg) as [-> ->]. clear Hopen HOk Hsent.
      split; [done|]. split.
      * intros e -> He. by destruct He as [-> | [-> | ->]].
      * intros resp ->. cbn zeta. unfold GeniusRequest.answer.
        assert (Hfail : forall v e, parse_results v = Raise e ->
                  match parse_results v with
                  | Ok results => Ok results
                  | Raise e => if reraised e then Raise e else Raise GeniusAPIError
                  end = Raise GeniusAPIError).
        { intros v e Hp. rewrite Hp. by rewrite (parse_results_error _ _ Hp). }
        split; [|split].
        -- intros H200 H429.
           destruct (Z.eqb_spec (GeniusRequest.status_code resp) 200); [done|].
           destruct (GeniusRequest.status_code resp =? 401); [done|].
           destruct (GeniusRequest.status_code resp =? 403); [done|].
           destruct (GeniusRequest.status_code resp =? 404); [done|].
           by destruct (Z.eqb_spec (GeniusRequest.status_code resp) 429).
        -- intros ->. cbn. by destruct (int_of_str _).
        -- intros ->. cbn. split; [by intros ->|]. split; [by intros ->|].
           intros v ->. cbn [mbind result_bind GeniusRequest.as_network_error].
           split; [exact (Hfail v)|]. split.
           ++ intros Hnd. apply (Hfail v ValidationError).
              unfold parse_results.
              destruct v; try done. by destruct (Hnd d).
           ++ intros d -> Hnone. apply (Hfail _ ValidationError).
              unfold parse_results. cbn. by rewrite Hnone.
Qed.

End SearchSongsFacts.
